(** * BugX v1.4 orchestration and the database-initialisation guard

    A shallow embedding of the TypeScript sources
    - [lib/bugx/v1.4/integration.ts]   (class [BugXIntegrationSystem]),
    - [lib/bugx/behavioral-parity-tests.ts] (class [BehavioralParityTester]),
    - [lib/db/init.ts]    ([ensureDatabaseInitialized]),
    - [lib/db/queries.ts] ([getUser], [getActivityLogs]),
    - [lib/bugx/v1.4/index.ts] (class [BugXv14]),
    - [app/(login)/actions.ts] ([logActivity], [signOut], [deleteAccount],
      [updateAccount]),
    together with the properties their specification states about them and
    further properties read off the sources.
    The pattern recognition engine and the core template system, which the
    orchestrator calls but which are not among these sources, are modelled from
    the specification and marked as such; the orchestrator's other
    collaborators are parameters.

    Conventions of the embedding.
    - A JavaScript [number] that the code only ever uses as an integer (an
      array length, a counter, a millisecond timestamp) is a [Z]; a number
      that may be fractional (a confidence, a time in minutes) is an exact
      rational [Q].  IEEE rounding of the arithmetic is modelled where a
      value depends on it: the quality score is also computed in binary64
      doubles ([Double], [QualityDouble]).
    - [Math.round x] is [floor (x + 1/2)], as ECMAScript defines it.
    - A call that may throw returns a [Res]; module-level mutable state is
      threaded explicitly, and it survives a throw (as it does in JavaScript).
    - Strings are [string]s of 8-bit characters; [toLowerCase] acts on the
      ASCII letters. *)

From Stdlib Require Import ZArith QArith Qround Qminmax Lia List Bool.
From Stdlib Require Import Ascii String DecimalString Sorting.Sorted Permutation.
From Stdlib Require Import SpecFloat.
From stdpp Require Import gmap strings.
Import ListNotations.

#[local] Open Scope string_scope.
#[local] Open Scope Z_scope.

(** ** JavaScript primitives used by the sources *)

Module JS.

(** The outcome of a call: a value, or a thrown exception. *)
Inductive Res (E A : Type) : Type :=
| Returned (a : A)
| Threw (e : E).
Arguments Returned {E A} a.
Arguments Threw {E A} e.

Definition returned {E A} (r : Res E A) : bool :=
  match r with Returned _ => true | Threw _ => false end.

(** [Math.round]: the nearest integer, halves rounded up. *)
Definition Math_round (x : Q) : Z := Qfloor (x + (1 # 2)).

(** [Math.floor]. *)
Definition Math_floor (x : Q) : Z := Qfloor x.

(** [String.prototype.includes]. *)
Fixpoint includes (s sub : string) : bool :=
  String.prefix sub s ||
  match s with
  | EmptyString => false
  | String _ rest => includes rest sub
  end.

Definition lower_ascii (c : ascii) : ascii :=
  let n := nat_of_ascii c in
  if ((65 <=? n) && (n <=? 90))%nat then ascii_of_nat (n + 32) else c.

(** [String.prototype.toLowerCase], on ASCII. *)
Fixpoint toLowerCase (s : string) : string :=
  match s with
  | EmptyString => EmptyString
  | String c rest => String (lower_ascii c) (toLowerCase rest)
  end.

(** [Array.prototype.push], as the array it leaves behind. *)
Definition push {A : Type} (l : list A) (x : A) : list A := (l ++ [x])%list.

(** [Array.prototype.join]. *)
Definition join (sep : string) (l : list string) : string := String.concat sep l.

(** Template-literal rendering of an integer. *)
Definition show_Z (z : Z) : string := NilZero.string_of_int (Z.to_int z).

Definition show_nat (n : nat) : string := show_Z (Z.of_nat n).

(** [Array.prototype.sort] with a comparator [(a, b) => key b - key a]:
    a stable sort into non-increasing key order. *)
Section SortDesc.
Context {A : Type} (key : A -> Q).

Fixpoint insert_desc (x : A) (l : list A) : list A :=
  match l with
  | [] => [x]
  | y :: rest =>
      if Qle_bool (key y) (key x) then x :: l
      else y :: insert_desc x rest
  end.

Definition sort_desc (l : list A) : list A :=
  fold_right insert_desc [] l.
End SortDesc.

End JS.

Import JS.

Example includes_ex : includes "Hydration failed" "dration" = true.
Proof. reflexivity. Qed.

Example toLowerCase_ex : toLowerCase "Hydration API" = "hydration api".
Proof. reflexivity. Qed.

Example show_Z_ex : show_Z 150 = "150" /\ show_Z 0 = "0" /\ show_Z (-7) = "-7".
Proof. repeat split; reflexivity. Qed.

Example Math_round_ex :
  Math_round (5 # 2) = 3 /\ Math_round (-(5 # 2)) = -2 /\ Math_round (62.75)%Q = 63.
Proof. repeat split; reflexivity. Qed.

Example sort_desc_ex :
  sort_desc (fun p : Q * string => fst p)
            [(1%Q, "a"); (3%Q, "b"); (1%Q, "c"); (3%Q, "d")]
  = [(3%Q, "b"); (3%Q, "d"); (1%Q, "a"); (1%Q, "c")].
Proof. reflexivity. Qed.

(** *** The comparator sort orders and permutes *)

Section SortDescFacts.
Context {A : Type} (key : A -> Q).

(** [b] may follow [a] in a list sorted by non-increasing key. *)
Definition descending (a b : A) : Prop := (key b <= key a)%Q.

Lemma insert_desc_perm (x : A) (l : list A) :
  Permutation (insert_desc key x l) (x :: l).
Proof.
  induction l as [ | y rest IH ]; simpl.
  - reflexivity.
  - destruct (Qle_bool (key y) (key x)).
    + reflexivity.
    + rewrite IH. apply perm_swap.
Qed.

Lemma sort_desc_perm (l : list A) : Permutation (sort_desc key l) l.
Proof.
  induction l as [ | x rest IH ]; simpl.
  - reflexivity.
  - rewrite insert_desc_perm. now constructor.
Qed.

Lemma insert_desc_sorted (x : A) (l : list A) :
  StronglySorted descending l -> StronglySorted descending (insert_desc key x l).
Proof.
  induction 1 as [ | y rest Hrest IH Hy ]; simpl.
  - repeat constructor.
  - destruct (Qle_bool (key y) (key x)) eqn:Hc.
    + apply Qle_bool_iff in Hc.
      constructor; [ now constructor | ].
      constructor; [ exact Hc | ].
      eapply List.Forall_impl; [ | exact Hy ].
      intros z Hz. unfold descending in *. now apply Qle_trans with (key y).
    + constructor; [ exact IH | ].
      assert (Hlt : (key x < key y)%Q).
      { apply Qnot_le_lt. intros Hle. apply Qle_bool_iff in Hle. congruence. }
      rewrite (List.Forall_forall (descending y)). intros z Hz.
      apply (Permutation_in _ (insert_desc_perm x rest)) in Hz.
      destruct Hz as [ <- | Hz ].
      * now apply Qlt_le_weak.
      * rewrite (List.Forall_forall (descending y)) in Hy. now apply Hy.
Qed.

Lemma sort_desc_sorted (l : list A) : StronglySorted descending (sort_desc key l).
Proof.
  induction l as [ | x rest IH ]; simpl.
  - constructor.
  - now apply insert_desc_sorted.
Qed.

Lemma sort_desc_Forall (P : A -> Prop) (l : list A) :
  Forall P l -> Forall P (sort_desc key l).
Proof.
  intros H. rewrite (List.Forall_forall P) in *. intros x Hx. apply H.
  now apply (Permutation_in _ (sort_desc_perm l)).
Qed.

End SortDescFacts.

(** ** The orchestrator's quality score ([integration.ts]) *)

Module Quality.

(** The [factors] object that [calculateQualityScore] receives. *)
Record QualityFactors : Type := {
  appliedTemplate : bool;
  preventionMeasures : Z;
  patternMatchConfidence : Q;
  contextComplexity : string
}.

(** [BugXIntegrationSystem.calculateQualityScore], read in exact arithmetic.
    The order and the bounds of the score do not depend on how the double
    arithmetic rounds; its value in doubles is [QualityDouble]'s. *)
Definition calculateQualityScore (factors : QualityFactors) : Z :=
  let score : Q := 50%Q in
  let score := (if appliedTemplate factors then score + 20 else score)%Q in
  let score := (score + Qmin 20 (inject_Z (preventionMeasures factors) * 5))%Q in
  let score := (score + Qmin 15 (patternMatchConfidence factors * 0.15))%Q in
  let score :=
    (if String.eqb (contextComplexity factors) "simple" then score + 10
     else if String.eqb (contextComplexity factors) "moderate" then score + 5
     else score)%Q in
  Z.min 100 (Math_round score).

(** The bonus the specification grants per complexity class. *)
Definition complexityBonus (c : string) : Q :=
  (if String.eqb c "simple" then 10
   else if String.eqb c "moderate" then 5
   else 0)%Q.

(** The weighted sum in the specification's words, before any cap. *)
Definition weightedSum (factors : QualityFactors) : Q :=
  (50
   + (if appliedTemplate factors then 20 else 0)
   + Qmin 20 (inject_Z (preventionMeasures factors) * 5)
   + Qmin 15 (patternMatchConfidence factors * 0.15)
   + complexityBonus (contextComplexity factors))%Q.

(** The specification's quality score: the weighted sum capped at 100. *)
Definition specQualityScore (factors : QualityFactors) : Q :=
  Qmin 100%Q (weightedSum factors).

(** [factors] with another prevention-measure count. *)
Definition withPrevention (factors : QualityFactors) (n : Z) : QualityFactors :=
  {| appliedTemplate := appliedTemplate factors;
     preventionMeasures := n;
     patternMatchConfidence := patternMatchConfidence factors;
     contextComplexity := contextComplexity factors |}.

Example score_hydration :
  calculateQualityScore
    {| appliedTemplate := true; preventionMeasures := 3;
       patternMatchConfidence := 90%Q; contextComplexity := "simple" |} = 100.
Proof. reflexivity. Qed.

Example score_generic :
  calculateQualityScore
    {| appliedTemplate := false; preventionMeasures := 1;
       patternMatchConfidence := 0%Q; contextComplexity := "complex" |} = 55.
Proof. reflexivity. Qed.

Lemma Math_round_mono (x y : Q) : (x <= y)%Q -> Math_round x <= Math_round y.
Proof.
  intros Hxy. unfold Math_round. apply Qfloor_resp_le.
  apply Qplus_le_l. exact Hxy.
Qed.

Lemma Math_round_proper (x y : Q) : (x == y)%Q -> Math_round x = Math_round y.
Proof. intros Hxy. unfold Math_round. now rewrite Hxy. Qed.

Lemma score_as_weightedSum (factors : QualityFactors) :
  calculateQualityScore factors = Z.min 100 (Math_round (weightedSum factors)).
Proof.
  unfold calculateQualityScore, weightedSum, complexityBonus.
  f_equal. apply Math_round_proper.
  destruct (appliedTemplate factors);
    destruct (String.eqb (contextComplexity factors) "simple");
    destruct (String.eqb (contextComplexity factors) "moderate"); ring.
Qed.

Lemma weightedSum_mono (factors : QualityFactors) (n m : Z) :
  n <= m ->
  (weightedSum (withPrevention factors n) <= weightedSum (withPrevention factors m))%Q.
Proof.
  intros Hnm. unfold weightedSum, withPrevention; simpl.
  apply Qplus_le_l, Qplus_le_l, Qplus_le_r.
  apply Q.min_le_compat_l.
  apply Qmult_le_compat_r; [ | discriminate ].
  rewrite <- Zle_Qle. exact Hnm.
Qed.

(** C5: with the template flag, the confidence and the complexity fixed, the
    quality score is monotonically non-decreasing in the prevention-measure
    count, and it never exceeds 100. *)
Theorem quality_score_monotone_capped (factors : QualityFactors) (n m : Z) :
  n <= m ->
  calculateQualityScore (withPrevention factors n)
    <= calculateQualityScore (withPrevention factors m)
  /\ calculateQualityScore factors <= 100.
Proof.
  intros Hnm. split.
  - rewrite !score_as_weightedSum.
    apply Z.min_le_compat_l, Math_round_mono, weightedSum_mono, Hnm.
  - unfold calculateQualityScore. apply Z.le_min_l.
Qed.

Lemma quality_score_monotone_capped_witness :
  let factors := {| appliedTemplate := true; preventionMeasures := 0;
                    patternMatchConfidence := 40%Q; contextComplexity := "moderate" |} in
  2 <= 3
  /\ calculateQualityScore (withPrevention factors 2)
       <= calculateQualityScore (withPrevention factors 3)
  /\ calculateQualityScore factors <= 100.
Proof.
  cbv zeta. split; [ lia | ].
  apply (quality_score_monotone_capped
           {| appliedTemplate := true; preventionMeasures := 0;
              patternMatchConfidence := 40%Q; contextComplexity := "moderate" |} 2 3).
  lia.
Defined.

End Quality.

(** ** IEEE 754 doubles

    JavaScript numbers are binary64 floating-point numbers.  Where a value
    claim depends on the rounding of the arithmetic, numbers are modelled by
    the Standard Library's specification of IEEE 754 arithmetic at precision
    53 and maximal exponent 1024, rounding to nearest, ties to even. *)

Module Double.

Definition prec : Z := 53.
Definition emax : Z := 1024.

Definition t : Type := spec_float.

(** The double of a whole number (exact up to 2^53). *)
Definition ofZ (z : Z) : t := binary_normalize prec emax z 0 false.

Definition add (x y : t) : t := SFadd prec emax x y.
Definition mul (x y : t) : t := SFmul prec emax x y.
Definition div (x y : t) : t := SFdiv prec emax x y.

(** The literal [0.15]: the double nearest to 15/100, 0x1.3333333333333p-3. *)
Definition d0_15 : t := S754_finite false 5404319552844595 (-55).

Definition isNegativeZero (x : t) : bool :=
  match x with S754_zero true => true | _ => false end.

(** [Math.min(a, b)]: NaN if either is NaN, and -0 is below +0. *)
Definition Math_min (a b : t) : t :=
  match SFcompare a b with
  | None => S754_nan
  | Some Lt => a
  | Some Gt => b
  | Some Eq => if isNegativeZero a then a else b
  end.

(** [Math.round(x)]: the integral double nearest to [x], ties towards
    +infinity, computed on the exact value of [x]; NaN, the infinities and
    the zeros are returned as they are, and a negative [x] of -0.5 or more
    gives -0. *)
Definition Math_round (x : t) : t :=
  match x with
  | S754_finite s m e =>
      if 0 <=? e then x
      else
        let k := Z.opp e in      (* x = +-m / 2^k *)
        let q := (cond_Zopp s (Zpos m) * 2 + 2 ^ k) / 2 ^ (k + 1) in
        if q =? 0 then S754_zero s else ofZ q
  | _ => x
  end.

(** The exact value of a finite double. *)
Definition toQ (x : t) : option Q :=
  match x with
  | S754_zero _ => Some 0%Q
  | S754_finite s m e =>
      Some (if 0 <=? e then inject_Z (cond_Zopp s (Zpos m) * 2 ^ e)
            else (cond_Zopp s (Zpos m) # Pos.pow 2 (Z.to_pos (- e))))%Q
  | _ => None
  end.

(** Doubles given by the same data. *)
Definition eqb (x y : t) : bool :=
  match x, y with
  | S754_zero s, S754_zero s' => Bool.eqb s s'
  | S754_infinity s, S754_infinity s' => Bool.eqb s s'
  | S754_nan, S754_nan => true
  | S754_finite s m e, S754_finite s' m' e' =>
      Bool.eqb s s' && Pos.eqb m m' && Z.eqb e e'
  | _, _ => false
  end.

Example d0_15_is_the_quotient : d0_15 = div (ofZ 15) (ofZ 100).
Proof. vm_compute. reflexivity. Qed.

Example d0_15_value :
  toQ d0_15 = Some (5404319552844595 # 36028797018963968)%Q.
Proof. reflexivity. Qed.

Example Math_round_doubles :
  map (fun x => toQ (Math_round x))
      [div (ofZ 5) (ofZ 2); div (ofZ (-5)) (ofZ 2); div (ofZ 251) (ofZ 4);
       div (ofZ (-1)) (ofZ 4); ofZ 7]
  = map (fun z => toQ (ofZ z)) [3; -2; 63; 0; 7]
  /\ Math_round (div (ofZ (-1)) (ofZ 4)) = S754_zero true
  /\ Math_round S754_nan = S754_nan.
Proof. vm_compute. repeat split. Qed.

Example Math_min_doubles :
  Math_min (ofZ 15) (mul (ofZ 85) d0_15) = mul (ofZ 85) d0_15
  /\ Math_min (ofZ 15) (mul (ofZ 120) d0_15) = ofZ 15
  /\ Math_min (ofZ 15) S754_nan = S754_nan
  /\ Math_min (S754_zero false) (S754_zero true) = S754_zero true.
Proof. vm_compute. repeat split. Qed.

Lemma eqb_eq (x y : t) : eqb x y = true -> x = y.
Proof.
  destruct x as [ s | s | | s m e ], y as [ s' | s' | | s' m' e' ]; simpl;
    try discriminate; try reflexivity.
  - intros H. apply Bool.eqb_prop in H. now subst.
  - intros H. apply Bool.eqb_prop in H. now subst.
  - intros H. apply andb_true_iff in H. destruct H as [H He].
    apply andb_true_iff in H. destruct H as [Hs Hm].
    apply Bool.eqb_prop in Hs. apply Pos.eqb_eq in Hm. apply Z.eqb_eq in He. now subst.
Qed.

End Double.

(** ** The quality score in double arithmetic ([integration.ts]) *)

Module QualityDouble.

Import Double.

(** The [factors] object that [calculateQualityScore] receives.  The count
    of prevention measures is an array length, a whole number whose product
    with 5 and whose cap at 20 are exact in doubles; the confidence is any
    double. *)
Record QualityFactors : Type := {
  appliedTemplate : bool;
  preventionMeasures : Z;
  patternMatchConfidence : Double.t;
  contextComplexity : string
}.

(** [BugXIntegrationSystem.calculateQualityScore], as JavaScript computes
    it: every [+=] and the product with [0.15] round to the nearest double. *)
Definition calculateQualityScore (factors : QualityFactors) : Double.t :=
  let score := ofZ 50 in
  let score := if appliedTemplate factors then add score (ofZ 20) else score in
  let score := add score (ofZ (Z.min 20 (preventionMeasures factors * 5))) in
  let score :=
    add score (Math_min (ofZ 15) (mul (patternMatchConfidence factors) d0_15)) in
  let score :=
    if String.eqb (contextComplexity factors) "simple" then add score (ofZ 10)
    else if String.eqb (contextComplexity factors) "moderate" then add score (ofZ 5)
    else score in
  Math_min (ofZ 100) (Math_round score).

(** The weighted sum in the specification's words, added up in doubles from
    left to right: the whole-number terms first, then the confidence term,
    then the complexity bonus, if any. *)
Definition weightedSum (factors : QualityFactors) : Double.t :=
  let whole :=
    add (ofZ (50 + (if appliedTemplate factors then 20 else 0)))
        (ofZ (Z.min 20 (preventionMeasures factors * 5))) in
  let withConfidence :=
    add whole (Math_min (ofZ 15) (mul (patternMatchConfidence factors) d0_15)) in
  if String.eqb (contextComplexity factors) "simple" then add withConfidence (ofZ 10)
  else if String.eqb (contextComplexity factors) "moderate" then add withConfidence (ofZ 5)
  else withConfidence.

(** The same factors with the confidence a whole number, once for the double
    computation and once for exact arithmetic. *)
Definition wholeFactors (template : bool) (count confidence : Z) (complexity : string)
    : QualityFactors :=
  {| appliedTemplate := template; preventionMeasures := count;
     patternMatchConfidence := ofZ confidence; contextComplexity := complexity |}.

Definition exactFactors (template : bool) (count confidence : Z) (complexity : string)
    : Quality.QualityFactors :=
  {| Quality.appliedTemplate := template; Quality.preventionMeasures := count;
     Quality.patternMatchConfidence := inject_Z confidence;
     Quality.contextComplexity := complexity |}.

(** The double computation with the capped count and the bonus given. *)
Definition scoreOf (template : bool) (capped : Z) (confidence : Double.t)
    (bonus : option Z) : Double.t :=
  let score := ofZ 50 in
  let score := if template then add score (ofZ 20) else score in
  let score := add score (ofZ capped) in
  let score := add score (Math_min (ofZ 15) (mul confidence d0_15)) in
  let score := match bonus with Some b => add score (ofZ b) | None => score end in
  Math_min (ofZ 100) (Math_round score).

(** The exact computation with the capped count and the bonus given. *)
Definition exactOf (template : bool) (capped confidence : Z) (bonus : option Z) : Z :=
  Z.min 100
    (JS.Math_round (50 + (if template then 20 else 0) + inject_Z capped
                    + Qmin 15 (inject_Z confidence * 0.15)
                    + inject_Z (match bonus with Some b => b | None => 0 end))%Q).

Definition bonusOf (complexity : string) : option Z :=
  if String.eqb complexity "simple" then Some 10
  else if String.eqb complexity "moderate" then Some 5
  else None.

(** The two computations agree at one point. *)
Definition agreeAt (template : bool) (capped confidence : Z) (bonus : option Z) : bool :=
  Double.eqb (scoreOf template capped (ofZ confidence) bonus)
             (ofZ (exactOf template capped confidence bonus)).

(** The points at which the two computations are compared: every whole
    confidence from 0 to 100, with every value of the other terms. *)
Definition points : list (bool * (Z * (option Z * nat))) :=
  list_prod [true; false]
    (list_prod [0; 5; 10; 15; 20]
       (list_prod [Some 10; Some 5; None] (seq 0 101))).

Definition agreeAtPoint (p : bool * (Z * (option Z * nat))) : bool :=
  agreeAt (fst p) (fst (snd p)) (Z.of_nat (snd (snd (snd p)))) (fst (snd (snd p))).

(** The double nearest to 83.33333333333333 and to 9.999999999999998. *)
Definition d83_33333333333333 : Double.t := S754_finite false 5864062014805333 (-46).
Definition d9_999999999999998 : Double.t := S754_finite false 5629499534213119 (-49).

Example score_hydration_double :
  calculateQualityScore
    {| appliedTemplate := true; preventionMeasures := 3;
       patternMatchConfidence := ofZ 90; contextComplexity := "simple" |} = ofZ 100.
Proof. vm_compute. reflexivity. Qed.

(** In doubles 50 + 83.33333333333333 * 0.15 + 10 is 72.5 and rounds to 73;
    the exact sum lies just below 72.5 and rounds to 72.  Likewise
    50 + 9.999999999999998 * 0.15 is 51.5 in doubles. *)
Example double_sum_rounds_up :
  calculateQualityScore
    {| appliedTemplate := false; preventionMeasures := 0;
       patternMatchConfidence := d83_33333333333333; contextComplexity := "simple" |}
  = ofZ 73
  /\ (exists exact, toQ d83_33333333333333 = Some exact
        /\ Quality.calculateQualityScore
             {| Quality.appliedTemplate := false; Quality.preventionMeasures := 0;
                Quality.patternMatchConfidence := exact;
                Quality.contextComplexity := "simple" |} = 72)
  /\ calculateQualityScore
       {| appliedTemplate := false; preventionMeasures := 0;
          patternMatchConfidence := d9_999999999999998; contextComplexity := "complex" |}
     = ofZ 52.
Proof.
  split; [ vm_compute; reflexivity | ]. split; [ | vm_compute; reflexivity ].
  eexists. split; [ reflexivity | vm_compute; reflexivity ].
Qed.

Example score_of_NaN :
  calculateQualityScore
    {| appliedTemplate := true; preventionMeasures := 1;
       patternMatchConfidence := S754_nan; contextComplexity := "simple" |} = S754_nan.
Proof. vm_compute. reflexivity. Qed.

Lemma agree_at_every_point : forallb agreeAtPoint points = true.
Proof. vm_compute. reflexivity. Qed.

Lemma agreeAt_true (template : bool) (capped confidence : Z) (bonus : option Z) :
  In capped [0; 5; 10; 15; 20] -> In bonus [Some 10; Some 5; None] ->
  0 <= confidence <= 100 ->
  agreeAt template capped confidence bonus = true.
Proof.
  intros Hcap Hbonus Hconf.
  assert (Ht : In template [true; false]) by (destruct template; simpl; auto).
  assert (Hc : In (Z.to_nat confidence) (seq 0 101)) by (apply in_seq; lia).
  assert (Hp : In (template, (capped, (bonus, Z.to_nat confidence))) points).
  { unfold points. repeat (apply in_prod; [ assumption | ]). exact Hc. }
  pose proof (proj1 (forallb_forall agreeAtPoint points) agree_at_every_point _ Hp) as H.
  unfold agreeAtPoint in H. cbn [fst snd] in H.
  rewrite Z2Nat.id in H by lia. exact H.
Qed.

Lemma capped_count (count : Z) :
  0 <= count -> In (Z.min 20 (count * 5)) [0; 5; 10; 15; 20].
Proof.
  intros H.
  assert (C : count = 0 \/ count = 1 \/ count = 2 \/ count = 3 \/ 4 <= count) by lia.
  destruct C as [ -> | [ -> | [ -> | [ -> | C ] ] ] ]; simpl; auto.
  rewrite Z.min_l by lia. simpl. auto 6.
Qed.

Lemma Qmin_inject (a b : Z) : (Qmin (inject_Z a) (inject_Z b) == inject_Z (Z.min a b))%Q.
Proof.
  destruct (Z.le_ge_cases a b) as [ H | H ].
  - rewrite Z.min_l by exact H. apply Q.min_l. now rewrite <- Zle_Qle.
  - rewrite Z.min_r by lia. apply Q.min_r. rewrite <- Zle_Qle. lia.
Qed.

Lemma calculateQualityScore_scoreOf (factors : QualityFactors) :
  calculateQualityScore factors
  = scoreOf (appliedTemplate factors) (Z.min 20 (preventionMeasures factors * 5))
            (patternMatchConfidence factors) (bonusOf (contextComplexity factors)).
Proof.
  unfold calculateQualityScore, scoreOf, bonusOf.
  destruct (String.eqb (contextComplexity factors) "simple"); [ reflexivity | ].
  destruct (String.eqb (contextComplexity factors) "moderate"); reflexivity.
Qed.

Lemma exact_exactOf (template : bool) (count confidence : Z) (complexity : string) :
  Z.min 100 (JS.Math_round (Quality.weightedSum
                              (exactFactors template count confidence complexity)))
  = exactOf template (Z.min 20 (count * 5)) confidence (bonusOf complexity).
Proof.
  unfold exactOf. f_equal. apply Quality.Math_round_proper.
  unfold Quality.weightedSum, exactFactors, Quality.complexityBonus, bonusOf. simpl.
  rewrite <- (Qmin_inject 20 (count * 5)), inject_Z_mult.
  destruct (String.eqb complexity "simple"); [ reflexivity | ].
  destruct (String.eqb complexity "moderate"); reflexivity.
Qed.

Lemma bonusOf_cases (complexity : string) :
  In (bonusOf complexity) [Some 10; Some 5; None].
Proof.
  unfold bonusOf.
  destruct (String.eqb complexity "simple"); [ simpl; auto | ].
  destruct (String.eqb complexity "moderate"); simpl; auto.
Qed.

(** C1, as the specification words it, fails: with a confidence of 85 the
    weighted sum is 62.75, while the code answers the whole number 63. *)
Lemma quality_score_not_plain_sum :
  calculateQualityScore (wholeFactors false 0 85 "complex") = ofZ 63
  /\ (Quality.specQualityScore (exactFactors false 0 85 "complex") == 62.75)%Q
  /\ exists answer : Q,
       toQ (calculateQualityScore (wholeFactors false 0 85 "complex")) = Some answer
       /\ (answer == 63)%Q
       /\ ~ (answer == Quality.specQualityScore (exactFactors false 0 85 "complex"))%Q.
Proof.
  split; [ vm_compute; reflexivity | ]. split; [ reflexivity | ].
  eexists. split; [ vm_compute; reflexivity | ]. split; [ reflexivity | ].
  intros H. vm_compute in H. discriminate H.
Qed.

(** C1, amended.  For every input the quality score is the weighted sum --
    base 50, plus 20 for an applied template, plus five per prevention
    measure up to 20, plus 0.15 per point of confidence up to 15, plus the
    complexity bonus 10 or 5 -- added up in double arithmetic, then rounded
    to the nearest whole number, halves up, and then capped at 100.  When
    the confidence is a whole number from 0 to 100 and the count is not
    negative, that is exactly the exact weighted sum, rounded halves up and
    capped at 100. *)
Theorem quality_score_rounded_sum (factors : QualityFactors) :
  calculateQualityScore factors = Math_min (ofZ 100) (Math_round (weightedSum factors))
  /\ (forall confidence : Z,
        patternMatchConfidence factors = ofZ confidence ->
        0 <= confidence <= 100 -> 0 <= preventionMeasures factors ->
        calculateQualityScore factors
        = ofZ (Z.min 100
                 (JS.Math_round
                    (Quality.weightedSum
                       (exactFactors (appliedTemplate factors) (preventionMeasures factors)
                                     confidence (contextComplexity factors)))))).
Proof.
  split.
  - unfold calculateQualityScore, weightedSum.
    destruct (appliedTemplate factors);
      destruct (String.eqb (contextComplexity factors) "simple");
      destruct (String.eqb (contextComplexity factors) "moderate"); reflexivity.
  - intros confidence Hc Hrange Hcount.
    rewrite exact_exactOf, calculateQualityScore_scoreOf, Hc.
    apply Double.eqb_eq.
    apply (agreeAt_true (appliedTemplate factors)
                        (Z.min 20 (preventionMeasures factors * 5)) confidence
                        (bonusOf (contextComplexity factors))).
    + now apply capped_count.
    + apply bonusOf_cases.
    + exact Hrange.
Qed.

Lemma quality_score_rounded_sum_witness :
  0 <= 50 <= 100 /\ 0 <= 2
  /\ calculateQualityScore (wholeFactors true 2 50 "moderate") = ofZ 93.
Proof.
  split; [ lia | ]. split; [ lia | ].
  assert (Hconfidence : 0 <= 50 <= 100) by lia.
  assert (Hcount : 0 <= preventionMeasures (wholeFactors true 2 50 "moderate"))
    by (simpl; lia).
  rewrite (proj2 (quality_score_rounded_sum (wholeFactors true 2 50 "moderate")) 50
             eq_refl Hconfidence Hcount).
  vm_compute. reflexivity.
Defined.

End QualityDouble.

(** ** Behavioural parity tests ([behavioral-parity-tests.ts]) *)

Module ParityTests.

Record ParityTestResult : Type := {
  testId : string;
  passed : bool;
  serverOutput : string;
  clientOutput : string;
  mismatchDetails : option (list string);
  recommendation : string
}.

(** [BehavioralParityTester.testRandomValueConsistency].  The two arguments
    are the values the two calls of [Math.random] return. *)
Definition testRandomValueConsistency (random1 random2 : Q) : ParityTestResult :=
  let testId := "RANDOM_VALUE_CONSISTENCY_001" in
  let generateServerValue (r : Q) := Math_floor (r * 150) + 50 in
  let generateClientValue (r : Q) := Math_floor (r * 150) + 50 in
  let serverValue := generateServerValue random1 in
  let clientValue := generateClientValue random2 in
  let passed := false in
  {| testId := testId;
     passed := passed;
     serverOutput := "Active Users: " ++ show_Z serverValue;
     clientOutput := "Active Users: " ++ show_Z clientValue;
     mismatchDetails :=
       Some ["Random values generate different results on server vs client"];
     recommendation :=
       "Use static initial values with client-side state management" |}.

(** [BehavioralParityTester.testUseEffectDependencies]. *)
Definition testUseEffectDependencies : ParityTestResult :=
  {| testId := "USEEFFECT_DEPS_001";
     passed := true;
     serverOutput := "useEffect not executed on server";
     clientOutput := "useEffect executed on client";
     mismatchDetails := None;
     recommendation :=
       "Ensure useEffect dependencies are stable and properly declared" |}.

(** [BehavioralParityTester.runFullParityTestSuite]. *)
Definition runFullParityTestSuite (random1 random2 : Q) : list ParityTestResult :=
  [ testRandomValueConsistency random1 random2; testUseEffectDependencies ].

Example random_value_outputs :
  let r := testRandomValueConsistency (1 # 2) (99 # 100) in
  serverOutput r = "Active Users: 125" /\ clientOutput r = "Active Users: 198".
Proof. split; reflexivity. Qed.

(** Even equal draws are reported as a failure. *)
Example random_value_equal_draws :
  let r := testRandomValueConsistency (1 # 3) (1 # 3) in
  serverOutput r = clientOutput r /\ passed r = false.
Proof. split; reflexivity. Qed.

(** C9: whatever the two random draws are, [testRandomValueConsistency]
    reports [passed = false] and recommends static initial values with
    client-side state management. *)
Theorem random_value_consistency_fixed_outcome (random1 random2 : Q) :
  passed (testRandomValueConsistency random1 random2) = false
  /\ recommendation (testRandomValueConsistency random1 random2)
     = "Use static initial values with client-side state management"
  /\ includes (recommendation (testRandomValueConsistency random1 random2))
              "static initial values" = true
  /\ testId (testRandomValueConsistency random1 random2)
     = "RANDOM_VALUE_CONSISTENCY_001".
Proof. repeat split. Qed.

End ParityTests.

(** ** The single-flight initialisation guard ([lib/db/init.ts]) *)

Module DbInit.

(** Where the asynchronous body of one initialisation attempt stands.  The
    body is the [async] arrow function whose promise is stored in
    [initializationPromise]; [initializeDatabase] and [seedDatabase] are
    asynchronous, so the body is suspended at each [await] until the awaited
    call settles in a later turn of the event loop. *)
Inductive Attempt : Type :=
| AwaitingInitialize   (* suspended at [await initializeDatabase()] *)
| AwaitingSeed         (* suspended at [await seedDatabase()] *)
| Fulfilled            (* [isInitialized = true] was executed *)
| Rejected.            (* the [catch] block ran and rethrew *)

Definition pending (a : Attempt) : bool :=
  match a with
  | AwaitingInitialize | AwaitingSeed => true
  | Fulfilled | Rejected => false
  end.

(** What one call of [ensureDatabaseInitialized] did on entry. *)
Inductive Caller : Type :=
| ReturnedImmediately          (* [if (isInitialized) return] *)
| AwaitsExisting (p : nat)     (* [await initializationPromise], found set *)
| AwaitsOwn (p : nat).         (* created promise [p], then awaits it *)

(** The module-level variables, the promises created so far (a promise is
    named by its index) and the log of the calls made so far. *)
Record InitState : Type := {
  isInitialized : bool;
  initializationPromise : option nat;
  promises : list Attempt;
  callers : list Caller
}.

Definition initial : InitState :=
  {| isInitialized := false; initializationPromise := None;
     promises := []; callers := [] |}.

(** What can happen in one turn of the event loop. *)
Inductive Event : Type :=
| Call                                (* somebody calls the function *)
| InitializeDatabaseOk (p : nat)      (* attempt [p]: first await fulfils *)
| InitializeDatabaseFails (p : nat)   (* attempt [p]: first await rejects *)
| SeedDatabaseOk (p : nat)            (* attempt [p]: second await fulfils *)
| SeedDatabaseFails (p : nat).        (* attempt [p]: second await rejects *)

(** The synchronous prefix of [ensureDatabaseInitialized]. *)
Definition ensureDatabaseInitialized (s : InitState) : InitState :=
  if isInitialized s then
    {| isInitialized := isInitialized s;
       initializationPromise := initializationPromise s;
       promises := promises s;
       callers := callers s ++ [ReturnedImmediately] |}
  else
    match initializationPromise s with
    | Some p =>
        {| isInitialized := isInitialized s;
           initializationPromise := initializationPromise s;
           promises := promises s;
           callers := callers s ++ [AwaitsExisting p] |}
    | None =>
        let p := length (promises s) in
        {| isInitialized := isInitialized s;
           initializationPromise := Some p;
           promises := promises s ++ [AwaitingInitialize];
           callers := callers s ++ [AwaitsOwn p] |}
    end.

(** The [catch] block of an attempt: reset the guard, reject the promise. *)
Definition attemptFails (p : nat) (s : InitState) : InitState :=
  {| isInitialized := isInitialized s;
     initializationPromise := None;
     promises := <[p := Rejected]> (promises s);
     callers := callers s |}.

Definition step (s : InitState) (ev : Event) : InitState :=
  match ev with
  | Call => ensureDatabaseInitialized s
  | InitializeDatabaseOk p =>
      match promises s !! p with
      | Some AwaitingInitialize =>
          {| isInitialized := isInitialized s;
             initializationPromise := initializationPromise s;
             promises := <[p := AwaitingSeed]> (promises s);
             callers := callers s |}
      | _ => s
      end
  | InitializeDatabaseFails p =>
      match promises s !! p with
      | Some AwaitingInitialize => attemptFails p s
      | _ => s
      end
  | SeedDatabaseOk p =>
      match promises s !! p with
      | Some AwaitingSeed =>
          {| isInitialized := true;
             initializationPromise := initializationPromise s;
             promises := <[p := Fulfilled]> (promises s);
             callers := callers s |}
      | _ => s
      end
  | SeedDatabaseFails p =>
      match promises s !! p with
      | Some AwaitingSeed => attemptFails p s
      | _ => s
      end
  end.

Definition run (s : InitState) (evs : list Event) : InitState :=
  fold_left step evs s.

(** How a call ends once the promise it awaits has settled: [Some true] is a
    normal return, [Some false] a rethrown failure, [None] still waiting. *)
Definition outcome (s : InitState) (c : Caller) : option bool :=
  match c with
  | ReturnedImmediately => Some true
  | AwaitsExisting p | AwaitsOwn p =>
      match promises s !! p with
      | Some Fulfilled => Some true
      | Some Rejected => Some false
      | _ => None
      end
  end.

(** An attempt is in progress. *)
Definition inProgress (s : InitState) (p : nat) : Prop :=
  exists a, promises s !! p = Some a /\ pending a = true.

(** The event by which attempt [p] fails. *)
Definition failureOf (p : nat) (ev : Event) : Prop :=
  ev = InitializeDatabaseFails p \/ ev = SeedDatabaseFails p.


(** The number of calls among the events. *)
Definition numCalls (evs : list Event) : nat :=
  length (List.filter (fun ev => match ev with Call => true | _ => false end) evs).

Example two_callers_share_one_attempt :
  let s := run initial [Call; Call; InitializeDatabaseOk 0%nat; Call; SeedDatabaseOk 0%nat; Call] in
  callers s = [AwaitsOwn 0; AwaitsExisting 0; AwaitsExisting 0; ReturnedImmediately]
  /\ promises s = [Fulfilled]
  /\ map (outcome s) (callers s) = [Some true; Some true; Some true; Some true].
Proof. repeat split; reflexivity. Qed.

Example retry_after_failure :
  let s := run initial [Call; Call; InitializeDatabaseFails 0%nat; Call; Call] in
  callers s = [AwaitsOwn 0; AwaitsExisting 0; AwaitsOwn 1; AwaitsExisting 1]
  /\ promises s = [Rejected; AwaitingInitialize]
  /\ map (outcome s) (callers s) = [Some false; Some false; None; None].
Proof. repeat split; reflexivity. Qed.

(** *** The guard invariant holds in every reachable state *)


Lemma inProgress_same (s s' : InitState) (p : nat) :
  promises s' = promises s -> inProgress s' p -> inProgress s p.
Proof. unfold inProgress. intros ->. auto. Qed.







(** *** After a success nothing is ever started again *)



(** *** With no attempt pending, only a call changes the state *)






End DbInit.

(** ** [getUser] ([lib/db/queries.ts]) *)

Module Queries.

(** A thrown JavaScript value, rendered by its message. *)
Definition Exn : Type := string.

(** The values a decoded session payload may carry in a field. *)
Inductive JsValue : Type :=
| VUndefined
| VNull
| VBoolean (b : bool)
| VNumber (n : Q)
| VString (s : string).

(** [typeof v === 'number']. *)
Definition isNumber (v : JsValue) : bool :=
  match v with VNumber _ => true | _ => false end.

Record SessionUser : Type := {
  sessionUserId : JsValue          (* [sessionData.user.id] *)
}.

(** What [verifyToken] resolves to: [user] may be missing. *)
Record SessionData : Type := {
  user : option SessionUser;
  expires : string
}.

Record Cookie : Type := {
  value : string
}.

(** A row of the [users] table; [name] is a nullable column, and
    [deletedAt] is [NULL] for a live account. *)
Record User : Type := {
  id : Z;
  name : option string;
  email : string;
  deletedAt : option Z
}.

(** The collaborators of one call of [getUser], each with the outcome it
    has during that call. *)
Record Env : Type := {
  (** [await ensureDatabaseInitialized()] *)
  ensureDatabaseInitialized : Res Exn unit;
  (** [(await cookies()).get('session')] *)
  sessionCookie : Res Exn (option Cookie);
  (** [await verifyToken(value)]; [None] is a [null] or [undefined] payload *)
  verifyToken : string -> Res Exn (option SessionData);
  (** [new Date(s).getTime()]; [None] is an invalid date *)
  parseDate : string -> option Z;
  (** [new Date().getTime()] *)
  now : Z;
  (** the rows of [users], or the error every query fails with *)
  users : Res Exn (list User)
}.

(** [new Date(expires) < new Date()]: false when the date is invalid. *)
Definition expired (env : Env) (sessionData : SessionData) : bool :=
  match parseDate env (expires sessionData) with
  | Some t => t <? now env
  | None => false
  end.

(** [and(eq(users.id, n), isNull(users.deletedAt))]. *)
Definition whereClause (n : Q) (u : User) : bool :=
  Qeq_bool (inject_Z (id u)) n &&
  match deletedAt u with None => true | Some _ => false end.

(** [db.select().from(users).where(...).limit(1)]. *)
Definition selectUser (env : Env) (n : Q) : Res Exn (list User) :=
  match users env with
  | Returned rows => Returned (firstn 1 (List.filter (whereClause n) rows))
  | Threw e => Threw e
  end.

(** [getUser]; [Returned None] is the [null] result. *)
Definition getUser (env : Env) : Res Exn (option User) :=
  match ensureDatabaseInitialized env with
  | Threw _ => Returned None
  | Returned _ =>
      match sessionCookie env with
      | Threw e => Threw e
      | Returned cookie =>
          match cookie with
          | None => Returned None
          | Some c =>
              if String.eqb (value c) "" then Returned None
              else
                match verifyToken env (value c) with
                | Threw e => Threw e
                | Returned None => Returned None
                | Returned (Some sessionData) =>
                    match user sessionData with
                    | None => Returned None
                    | Some su =>
                        match sessionUserId su with
                        | VNumber n =>
                            if expired env sessionData then Returned None
                            else
                              match selectUser env n with
                              | Threw _ => Returned None
                              | Returned [] => Returned None
                              | Returned (u :: _) => Returned (Some u)
                              end
                        | _ => Returned None
                        end
                    end
                end
          end
      end
  end.

(** Every check of [getUser] passes, and [u] is the row the query yields. *)
Definition checksPass (env : Env) (u : User) : Prop :=
  ensureDatabaseInitialized env = Returned tt
  /\ exists (c : Cookie) (sessionData : SessionData) (n : Q) (rows : list User),
       sessionCookie env = Returned (Some c)
       /\ value c <> ""
       /\ verifyToken env (value c) = Returned (Some sessionData)
       /\ user sessionData = Some {| sessionUserId := VNumber n |}
       /\ expired env sessionData = false
       /\ users env = Returned rows
       /\ head (List.filter (whereClause n) rows) = Some u.

(** The two calls that sit outside every [try] block return normally. *)
Definition unguardedCallsReturn (env : Env) : Prop :=
  match sessionCookie env with
  | Threw _ => False
  | Returned None => True
  | Returned (Some c) =>
      value c = "" \/ returned (verifyToken env (value c)) = true
  end.

Definition alice : User :=
  {| id := 7; name := Some "Alice"; email := "alice@example.org"; deletedAt := None |}.

Definition bob : User :=
  {| id := 8; name := Some "Bob"; email := "bob@example.org";
     deletedAt := Some 1700000000000 |}.

(** A request carrying a valid session token of user 7. *)
Definition goodEnv : Env :=
  {| ensureDatabaseInitialized := Returned tt;
     sessionCookie := Returned (Some {| value := "token-7" |});
     verifyToken := fun t =>
       if String.eqb t "token-7"
       then Returned (Some {| user := Some {| sessionUserId := VNumber 7 |};
                              expires := "2030-01-01T00:00:00.000Z" |})
       else Threw "JWSSignatureVerificationFailed";
     parseDate := fun _ => Some 1893456000000;
     now := 1800000000000;
     users := Returned [bob; alice] |}.

(** The same request with a tampered token, which [verifyToken] rejects by
    throwing. *)
Definition tamperedEnv : Env :=
  {| ensureDatabaseInitialized := Returned tt;
     sessionCookie := Returned (Some {| value := "token-7x" |});
     verifyToken := verifyToken goodEnv;
     parseDate := parseDate goodEnv;
     now := now goodEnv;
     users := users goodEnv |}.

Example getUser_good : getUser goodEnv = Returned (Some alice).
Proof. reflexivity. Qed.

Example getUser_soft_deleted :
  getUser {| ensureDatabaseInitialized := Returned tt;
             sessionCookie := sessionCookie goodEnv;
             verifyToken := verifyToken goodEnv;
             parseDate := parseDate goodEnv;
             now := now goodEnv;
             users := Returned [bob; {| id := 7; name := Some "Alice"; email := "a@b";
                                        deletedAt := Some 5 |}] |}
  = Returned None.
Proof. reflexivity. Qed.

Example getUser_expired :
  getUser {| ensureDatabaseInitialized := Returned tt;
             sessionCookie := sessionCookie goodEnv;
             verifyToken := verifyToken goodEnv;
             parseDate := parseDate goodEnv;
             now := 1900000000000;
             users := users goodEnv |}
  = Returned None.
Proof. reflexivity. Qed.

Example getUser_db_down :
  getUser {| ensureDatabaseInitialized := Threw "ECONNREFUSED";
             sessionCookie := sessionCookie goodEnv;
             verifyToken := verifyToken goodEnv;
             parseDate := parseDate goodEnv;
             now := now goodEnv;
             users := Threw "ECONNREFUSED" |}
  = Returned None.
Proof. reflexivity. Qed.

Lemma head_filter_sound {A : Type} (f : A -> bool) (l : list A) (x : A) :
  head (List.filter f l) = Some x -> In x l /\ f x = true.
Proof.
  intros H.
  assert (Hin : In x (List.filter f l)).
  { destruct (List.filter f l) as [ | y rest ]; [ discriminate H | ].
    inversion H; subst. now left. }
  now apply filter_In in Hin.
Qed.

Lemma firstn_1_head {A : Type} (l : list A) :
  firstn 1 l = match head l with Some x => [x] | None => [] end.
Proof. destruct l as [ | x [ | y rest ] ]; reflexivity. Qed.

Lemma getUser_some_iff (env : Env) (u : User) :
  getUser env = Returned (Some u) <-> checksPass env u.
Proof.
  unfold getUser, checksPass, selectUser. split.
  - intros H.
    destruct (ensureDatabaseInitialized env) as [ [] | ]; [ | discriminate H ].
    split; [ reflexivity | ].
    destruct (sessionCookie env) as [ [ c | ] | ] eqn:Hc; try discriminate H.
    destruct (String.eqb_spec (value c) "") as [ | Hne ]; [ discriminate H | ].
    destruct (verifyToken env (value c)) as [ [ sd | ] | ] eqn:Ht; try discriminate H.
    destruct (user sd) as [ [ v ] | ] eqn:Hu; try discriminate H.
    simpl in H. destruct v as [ | | b | n | t ]; try discriminate H.
    destruct (expired env sd) eqn:Hx; [ discriminate H | ].
    destruct (users env) as [ rows | ] eqn:Hrows; [ | discriminate H ].
    rewrite firstn_1_head in H.
    destruct (head (List.filter (whereClause n) rows)) as [ w | ] eqn:Hh;
      [ | discriminate H ].
    inversion H; subst w.
    exists c, sd, n, rows. repeat split; auto.
  - intros (Hinit & c & sd & n & rows & Hc & Hv & Ht & Hu & Hx & Hrows & Hh).
    rewrite Hinit, Hc.
    destruct (String.eqb_spec (value c) "") as [ E | _ ]; [ contradiction | ].
    rewrite Ht, Hu. simpl. rewrite Hx, Hrows, firstn_1_head, Hh. reflexivity.
Qed.

Lemma getUser_returns (env : Env) :
  unguardedCallsReturn env -> exists r, getUser env = Returned r.
Proof.
  unfold unguardedCallsReturn, getUser. intros H.
  destruct (ensureDatabaseInitialized env); [ | eauto ].
  destruct (sessionCookie env) as [ [ c | ] | ]; [ | eauto | contradiction ].
  destruct (String.eqb_spec (value c) "") as [ | Hne ]; [ eauto | ].
  destruct H as [ H | H ]; [ contradiction | ].
  destruct (verifyToken env (value c)) as [ [ sd | ] | ]; [ | eauto | discriminate H ].
  destruct (user sd) as [ [ v ] | ]; [ | eauto ].
  simpl. destruct v; eauto.
  destruct (expired env sd); [ eauto | ].
  destruct (selectUser env n) as [ [ | w rest ] | ]; eauto.
Qed.

(** C10 as stated fails: a session token that [verifyToken] rejects by
    throwing makes [getUser] throw, because that call is outside both [try]
    blocks. *)
Lemma getUser_may_throw :
  getUser tamperedEnv = Threw "JWSSignatureVerificationFailed"
  /\ ~ (forall env : Env, exists r, getUser env = Returned r).
Proof.
  split; [ reflexivity | ].
  intros H. destruct (H tamperedEnv) as [r Hr]. discriminate Hr.
Qed.

(** C10, amended: provided reading the cookie store and [verifyToken] return
    normally, [getUser] returns to its caller; it returns the user row
    exactly when database initialisation succeeded, the session cookie is
    present and non-empty, the verified payload carries a numeric user id,
    the session is not expired and the query succeeds and yields a row, which
    then is a live (not soft-deleted) row with that id; in every other case,
    failure of initialisation or of the query included, it returns [null]. *)
Theorem getUser_contract (env : Env) :
  unguardedCallsReturn env ->
  (exists r, getUser env = Returned r)
  /\ (forall u, getUser env = Returned (Some u) <-> checksPass env u)
  /\ ((forall u, ~ checksPass env u) -> getUser env = Returned None)
  /\ (forall u, getUser env = Returned (Some u) ->
        exists rows, users env = Returned rows /\ In u rows /\ deletedAt u = None)
  /\ (returned (ensureDatabaseInitialized env) = false -> getUser env = Returned None)
  /\ (returned (users env) = false -> getUser env = Returned None).
Proof.
  intros Hok.
  destruct (getUser_returns env Hok) as [r Hr].
  assert (Hnone : (forall u, ~ checksPass env u) -> getUser env = Returned None).
  { intros Hno. rewrite Hr. destruct r as [ u | ]; [ | reflexivity ].
    exfalso. apply (Hno u). now apply getUser_some_iff. }
  split; [ eauto | ]. split; [ apply getUser_some_iff | ]. split; [ exact Hnone | ].
  split; [ | split ].
  - intros u Hu. apply getUser_some_iff in Hu.
    destruct Hu as (_ & c & sd & n & rows & _ & _ & _ & _ & _ & Hrows & Hh).
    apply head_filter_sound in Hh. destruct Hh as [Hin Hw].
    exists rows. repeat split; auto.
    unfold whereClause in Hw. apply andb_true_iff in Hw. destruct Hw as [_ Hd].
    destruct (deletedAt u); [ discriminate Hd | reflexivity ].
  - intros Hinit. apply Hnone. intros u (Hi & _). rewrite Hi in Hinit. discriminate Hinit.
  - intros Hdb. apply Hnone.
    intros u (_ & c & sd & n & rows & _ & _ & _ & _ & _ & Hrows & _).
    rewrite Hrows in Hdb. discriminate Hdb.
Qed.

Lemma getUser_contract_witness :
  unguardedCallsReturn goodEnv
  /\ getUser goodEnv = Returned (Some alice)
  /\ checksPass goodEnv alice.
Proof.
  assert (Hok : unguardedCallsReturn goodEnv) by (right; reflexivity).
  destruct (getUser_contract goodEnv Hok) as (_ & Hiff & _).
  split; [ exact Hok | ]. split; [ reflexivity | ].
  apply Hiff. reflexivity.
Defined.

End Queries.

(** ** The pattern recognition engine ([pattern-recognition.ts]) *)

Module PatternSignature.
(** Modelled from the spec: a named error signature of the pattern library,
    "id, name, category, set of keyword strings, set of regex-like matchers,
    associated recommendation text" ([pattern-recognition.ts] is not among
    the sources). *)
Record t : Type := {
  id : string;
  name : string;
  category : string;
  keywords : list string;
  contextClues : list string;      (* regex-like matchers, by their source *)
  recommendationText : string
}.
End PatternSignature.

Module PatternMatch.
(** Modelled from the spec: one scored match, "signature reference,
    confidence score 0-100, matched keyword subset, matched context-clue
    subset" ([pattern-recognition.ts] is not among the sources); the field
    [recommendation] is the one the orchestrator reads when it writes the
    documentation entry. *)
Record t : Type := {
  signature : PatternSignature.t;
  confidence : Q;
  matchedKeywords : list string;
  matchedContextClues : list string;
  recommendation : string
}.
End PatternMatch.

(** Modelled from the spec: the severities of an anti-pattern, "one of a
    fixed ordered set: low/medium/high/critical" ([pattern-recognition.ts]
    is not among the sources). *)
Inductive Severity : Type := low | medium | high | critical.

Definition isCritical (s : Severity) : bool :=
  match s with critical => true | _ => false end.

Module AntiPattern.
(** Modelled from the spec: "name, severity, impact description, solution
    text" ([pattern-recognition.ts] is not among the sources). *)
Record t : Type := {
  name : string;
  severity : Severity;
  impact : string;
  solution : string
}.
End AntiPattern.

Module PatternRecognition.

Definition hydrationSignature : PatternSignature.t :=
  {| PatternSignature.id := "hydration-mismatch";
     PatternSignature.name := "Hydration Mismatch";
     PatternSignature.category := "hydration";
     PatternSignature.keywords := ["hydration"; "server rendered"; "did not match"];
     PatternSignature.contextClues := ["Math.random"];
     PatternSignature.recommendationText := "Render non-deterministic values on the client only" |}.

Definition scopeSignature : PatternSignature.t :=
  {| PatternSignature.id := "temporal-dead-zone";
     PatternSignature.name := "Temporal Dead Zone";
     PatternSignature.category := "scope";
     PatternSignature.keywords := ["before initialization"; "cannot access"];
     PatternSignature.contextClues := [];
     PatternSignature.recommendationText := "Declare before use" |}.

Section Engine.

(** The static pattern library, in catalog order. *)
Variable catalog : list PatternSignature.t.
(** How a regex-like matcher is tested against a text. *)
Variable test : string -> string -> bool.
(** The weight of one keyword hit and of one context-clue hit. *)
Variables keywordWeight clueWeight : nat.

(** Modelled from the spec: the keywords of a signature that occur in the
    message, the stack trace or the code context ([pattern-recognition.ts]
    is not among the sources). *)
Definition keywordHits (sig : PatternSignature.t)
    (message stackTrace codeContext : string) : list string :=
  let text := toLowerCase (message ++ " " ++ stackTrace ++ " " ++ codeContext) in
  List.filter (fun k => includes text (toLowerCase k)) (PatternSignature.keywords sig).

(** Modelled from the spec: the context clues of a signature that the code
    context or the file name satisfies ([pattern-recognition.ts] is not among
    the sources). *)
Definition clueHits (sig : PatternSignature.t) (codeContext fileName : string)
    : list string :=
  List.filter (fun c => test c codeContext || test c fileName)
              (PatternSignature.contextClues sig).

(** Modelled from the spec: the weighted sum of a number of keyword hits
    and a number of context-clue hits ([pattern-recognition.ts] is not among
    the sources). *)
Definition weighted (nKeywords nClues : nat) : nat :=
  keywordWeight * nKeywords + clueWeight * nClues.

(** Modelled from the spec: "summing weighted keyword hits and context-clue
    hits, normalized to 0-100": the weighted hits as a percentage of the
    weight of all keywords and clues of the signature
    ([pattern-recognition.ts] is not among the sources). *)
Definition score (sig : PatternSignature.t) (kws clues : list string) : Q :=
  let raw := weighted (length kws) (length clues) in
  let total := weighted (length (PatternSignature.keywords sig))
                        (length (PatternSignature.contextClues sig)) in
  match total with
  | O => 0%Q
  | S _ => Z.of_nat (100 * raw) # Pos.of_nat total
  end.

(** Modelled from the spec: the match of one signature, if it has any hit
    ([pattern-recognition.ts] is not among the sources). *)
Definition matchSignature (message stackTrace codeContext fileName : string)
    (sig : PatternSignature.t) : option PatternMatch.t :=
  let kws := keywordHits sig message stackTrace codeContext in
  let clues := clueHits sig codeContext fileName in
  match kws, clues with
  | [], [] => None
  | _, _ =>
      Some {| PatternMatch.signature := sig;
              PatternMatch.confidence := score sig kws clues;
              PatternMatch.matchedKeywords := kws;
              PatternMatch.matchedContextClues := clues;
              PatternMatch.recommendation := PatternSignature.recommendationText sig |}
  end.

(** Modelled from the spec: the matches of the signatures that have a hit,
    in catalog order ([pattern-recognition.ts] is not among the sources). *)
Definition candidates (message stackTrace codeContext fileName : string)
    : list PatternMatch.t :=
  flat_map (fun sig =>
              match matchSignature message stackTrace codeContext fileName sig with
              | Some m => [m]
              | None => []
              end) catalog.

(** Modelled from the spec: [PatternRecognitionEngine.analyzeError], "ordered
    list of PatternMatch, highest confidence first ... with ties broken by
    catalog order ... empty list on no match" ([pattern-recognition.ts] is
    not among the sources). *)
Definition analyzeError (message stackTrace codeContext fileName : string)
    : list PatternMatch.t :=
  sort_desc PatternMatch.confidence
            (candidates message stackTrace codeContext fileName).

(** No signature of the catalog has a hit. *)
Definition noMatch (message stackTrace codeContext fileName : string) : Prop :=
  forall sig, In sig catalog ->
    keywordHits sig message stackTrace codeContext = []
    /\ clueHits sig codeContext fileName = [].

Definition validConfidence (m : PatternMatch.t) : Prop :=
  (0 <= PatternMatch.confidence m <= 100)%Q.

Lemma filter_length_le {A : Type} (f : A -> bool) (l : list A) :
  (length (List.filter f l) <= length l)%nat.
Proof.
  induction l as [ | x rest IH ]; simpl; [ lia | ].
  destruct (f x); simpl; lia.
Qed.

Lemma score_bounds (sig : PatternSignature.t) (kws clues : list string) :
  (length kws <= length (PatternSignature.keywords sig))%nat ->
  (length clues <= length (PatternSignature.contextClues sig))%nat ->
  (0 <= score sig kws clues <= 100)%Q.
Proof.
  intros Hk Hc. unfold score.
  set (raw := weighted (length kws) (length clues)).
  set (total := weighted _ _).
  assert (Hle : (raw <= total)%nat).
  { unfold raw, total, weighted.
    apply Nat.add_le_mono; apply Nat.mul_le_mono_l; assumption. }
  destruct total as [ | t ] eqn:Ht; [ split; discriminate | ].
  assert (Hpos : Z.pos (Pos.of_nat (S t)) = Z.of_nat (S t)).
  { rewrite <- positive_nat_Z, Nat2Pos.id by discriminate. reflexivity. }
  unfold Qle. cbn [Qnum Qden]. rewrite Hpos. split; lia.
Qed.

Lemma matchSignature_valid (message stackTrace codeContext fileName : string)
    (sig : PatternSignature.t) (m : PatternMatch.t) :
  matchSignature message stackTrace codeContext fileName sig = Some m ->
  validConfidence m.
Proof.
  unfold matchSignature, validConfidence. intros H.
  assert (Hb : (0 <= score sig (keywordHits sig message stackTrace codeContext)
                          (clueHits sig codeContext fileName) <= 100)%Q).
  { apply score_bounds; apply filter_length_le. }
  destruct (keywordHits sig message stackTrace codeContext);
    destruct (clueHits sig codeContext fileName);
    inversion H; subst; exact Hb.
Qed.

Lemma candidates_valid (message stackTrace codeContext fileName : string) :
  Forall validConfidence (candidates message stackTrace codeContext fileName).
Proof.
  unfold candidates. induction catalog as [ | sig rest IH ]; simpl.
  - constructor.
  - destruct (matchSignature message stackTrace codeContext fileName sig) as [ m | ] eqn:Hm;
      simpl; [ | exact IH ].
    constructor; [ | exact IH ]. eapply matchSignature_valid; eauto.
Qed.

Lemma candidates_noMatch (message stackTrace codeContext fileName : string) :
  noMatch message stackTrace codeContext fileName ->
  candidates message stackTrace codeContext fileName = [].
Proof.
  unfold noMatch, candidates. induction catalog as [ | sig rest IH ]; intros H; simpl.
  - reflexivity.
  - destruct (H sig (or_introl eq_refl)) as [Hk Hc].
    unfold matchSignature. rewrite Hk, Hc. simpl.
    apply IH. intros sig' Hin. apply H. now right.
Qed.

(** C8: [analyzeError] is a total function; its result is ordered by
    non-increasing confidence, every confidence lies in [0,100], and when no
    signature matches the result is the empty list. *)
Theorem analyzeError_sorted_bounded (message stackTrace codeContext fileName : string) :
  let result := analyzeError message stackTrace codeContext fileName in
  StronglySorted (fun a b => (PatternMatch.confidence b <= PatternMatch.confidence a)%Q)
                 result
  /\ Forall (fun m => (0 <= PatternMatch.confidence m <= 100)%Q) result
  /\ Permutation result (candidates message stackTrace codeContext fileName)
  /\ (noMatch message stackTrace codeContext fileName -> result = []).
Proof.
  cbv zeta. unfold analyzeError. repeat split.
  - apply sort_desc_sorted.
  - apply sort_desc_Forall, candidates_valid.
  - apply sort_desc_perm.
  - intros H. now rewrite candidates_noMatch.
Qed.

End Engine.

Example analyzeError_hydration :
  map (fun m => (PatternSignature.name (PatternMatch.signature m), PatternMatch.confidence m))
      (analyzeError [scopeSignature; hydrationSignature] (fun re text => includes text re) 2 1
         "Hydration failed because the server rendered text" ""
         "const value = Math.random();" "/app/page.tsx")
  = [("Hydration Mismatch", (500 # 7)%Q)].
Proof. reflexivity. Qed.

Example analyzeError_no_match :
  analyzeError [scopeSignature; hydrationSignature] (fun re text => includes text re) 2 1
     "ECONNREFUSED" "" "" "server.ts" = [].
Proof. reflexivity. Qed.

Lemma analyzeError_sorted_bounded_witness :
  noMatch [scopeSignature; hydrationSignature] (fun re text => includes text re)
          "ECONNREFUSED" "" "" "server.ts"
  /\ analyzeError [scopeSignature; hydrationSignature] (fun re text => includes text re) 2 1
       "ECONNREFUSED" "" "" "server.ts" = [].
Proof.
  assert (Hno : noMatch [scopeSignature; hydrationSignature]
                        (fun re text => includes text re)
                        "ECONNREFUSED" "" "" "server.ts").
  { intros sig [ <- | [ <- | [] ] ]; split; reflexivity. }
  split; [ exact Hno | ].
  apply (analyzeError_sorted_bounded [scopeSignature; hydrationSignature]
           (fun re text => includes text re) 2 1 "ECONNREFUSED" "" "" "server.ts").
  exact Hno.
Defined.

End PatternRecognition.

(** ** The core template system ([core-system.ts]) *)

Module PatternTemplate.
(** Modelled from the spec: "name, applicable error-type key, ordered list of
    fix steps, list of prevention measures, usage counter" ([core-system.ts]
    is not among the sources). *)
Record t : Type := {
  name : string;
  errorType : string;
  fixSteps : list string;
  preventionMeasures : list string;
  usageCount : Z
}.

Definition used (tpl : t) : t :=
  {| name := name tpl; errorType := errorType tpl; fixSteps := fixSteps tpl;
     preventionMeasures := preventionMeasures tpl;
     usageCount := usageCount tpl + 1 |}.
End PatternTemplate.

(** The values the modelled code throws. *)
Inductive JsError : Type :=
| NotFound (errorType : string)     (* template lookup miss *)
| Failure (message : string).       (* any other [Error] *)

(** [String(error)], as the template literal [`${error}`] renders it. *)
Definition errorToString (e : JsError) : string :=
  match e with
  | NotFound errorType => "Error: No template found for error type: " ++ errorType
  | Failure message => "Error: " ++ message
  end.

Module CoreSystem.

(** The registered templates, by error-type key. *)
Abbreviation Templates := (gmap string PatternTemplate.t).

(** Modelled from the spec: [BugXCoreSystem.getTemplate], "fails with a
    NotFound condition when errorType has no registered template"
    ([core-system.ts] is not among the sources). *)
Definition getTemplate (templates : Templates) (errorType : string)
    : Res JsError PatternTemplate.t :=
  match templates !! errorType with
  | Some tpl => Returned tpl
  | None => Threw (NotFound errorType)
  end.

(** Modelled from the spec: [BugXCoreSystem.recordTemplateUsage], "mutates
    the stored usage counter for that template" ([core-system.ts] is not
    among the sources). *)
Definition recordTemplateUsage (templates : Templates) (errorType : string)
    (success : bool) : Templates :=
  alter PatternTemplate.used errorType templates.

End CoreSystem.

(** ** The orchestrator ([integration.ts]): data *)

Module TeamIntegration.
Record t : Type := {
  notifyOnCritical : bool;
  sharePatterns : bool;
  requireReviews : bool
}.
End TeamIntegration.

Module BugXWorkflowConfig.
Record t : Type := {
  timeTarget : Q;
  aiAssisted : bool;
  metricsEnabled : bool;
  preventionRequired : bool;
  documentationRequired : bool;
  patternRecognitionEnabled : bool;
  teamIntegration : TeamIntegration.t
}.
End BugXWorkflowConfig.

(** [Partial<BugXWorkflowConfig>]: [None] is an absent property. *)
Module PartialConfig.
Record t : Type := {
  timeTarget : option Q;
  aiAssisted : option bool;
  metricsEnabled : option bool;
  preventionRequired : option bool;
  documentationRequired : option bool;
  patternRecognitionEnabled : option bool;
  teamIntegration : option TeamIntegration.t
}.

Definition empty : t :=
  {| timeTarget := None; aiAssisted := None; metricsEnabled := None;
     preventionRequired := None; documentationRequired := None;
     patternRecognitionEnabled := None; teamIntegration := None |}.
End PartialConfig.

Inductive Approach : Type := quick_fix | bugx_v14 | full_bugx.

Module WorkflowMetrics.
Record t : Type := {
  efficiency : Z;
  qualityScore : Z;
  teamImpact : Z
}.
End WorkflowMetrics.

Module BugXWorkflowResult.
Record t : Type := {
  sessionId : string;
  success : bool;
  timeSpent : Q;
  approach : Approach;
  patternMatches : list PatternMatch.t;
  antiPatterns : list AntiPattern.t;
  appliedTemplate : option PatternTemplate.t;
  preventionMeasures : list string;
  documentationCreated : bool;
  metrics : WorkflowMetrics.t;
  recommendations : list string;
  nextSteps : list string
}.
End BugXWorkflowResult.

Module TeamFeedback.
Record t : Type := {
  helpful : Z;
  notHelpful : Z;
  comments : list string
}.
End TeamFeedback.

Module TeamKnowledgeEntry.
Record t : Type := {
  id : string;
  title : string;
  errorSignature : string;
  solution : string;
  prevention : string;
  sharedBy : string;
  sharedAt : Z;
  usageCount : Z;
  effectiveness : Z;
  teamFeedback : TeamFeedback.t
}.
End TeamKnowledgeEntry.

Module ErrorDetails.
Record t : Type := {
  message : string;
  stackTrace : string;
  codeContext : string;
  fileName : string;
  component : string
}.
End ErrorDetails.

(** The argument of [ContextAnalysisEngine.analyzeContext]. *)
Module ContextInput.
Record t : Type := {
  errorMessage : string;
  stackTrace : string;
  codeContext : string;
  fileName : string;
  patternMatches : list (string * Q);          (* name, confidence *)
  antiPatterns : list (string * Severity)      (* name, severity *)
}.
End ContextInput.

Module ContextAnalysisResult.
Record t : Type := {
  complexity : string;
  estimatedTime : Q;
  recommendedApproach : string;
  errorCategory : string
}.
End ContextAnalysisResult.

(** The argument of [AIWorkflowPrompts.generateWorkflowPrompts]. *)
Module WorkflowContext.
Record t : Type := {
  errorType : string;
  contextAnalysis : ContextAnalysisResult.t;
  patternMatches : list PatternMatch.t;
  appliedTemplate : option PatternTemplate.t;
  teamKnowledge : list TeamKnowledgeEntry.t
}.
End WorkflowContext.

(** The argument of [ImplementationEngine.generateImplementation]. *)
Module ImplementationRequest.
Record t : Type := {
  errorAnalysis : ContextAnalysisResult.t;
  selectedTemplate : option PatternTemplate.t;
  codeContext : string;
  patternMatches : list PatternMatch.t;
  preventionRequired : bool
}.
End ImplementationRequest.

Module ImplementationResult.
Record t : Type := {
  steps : list string;
  preventionMeasures : list string
}.
End ImplementationResult.

(** The outcome object passed to [BugXMetricsCollector.completeSession]. *)
Module SessionOutcome.
Record t : Type := {
  patternUsed : option string;
  approach : Approach;
  success : bool;
  preventionApplied : bool;
  documentationCreated : bool;
  satisfactionRating : option Q;
  notes : string
}.
End SessionOutcome.

Inductive DocumentationCategory : Type :=
  business_logic | integration | pattern | infrastructure.

Module CodeExamples.
Record t : Type := {
  before : string;
  after : string;
  prevention : string
}.
End CodeExamples.

(** The object [generateDocumentation] builds. *)
Module DocumentationEntry.
Record t : Type := {
  title : string;
  errorType : string;
  component : string;
  issue : string;
  rootCause : string;
  solution : string;
  prevention : string;
  patternTemplate : string;
  category : DocumentationCategory;
  reusability : string;
  timeToFix : Q;
  confidence : Q;
  codeExamples : CodeExamples.t;
  teamNotes : string
}.
End DocumentationEntry.

(** What [notifyTeamOfCriticalIssues] writes to the console. *)
Module TeamNotification.
Record t : Type := {
  developer : string;
  sessionId : string;
  criticalPatterns : list AntiPattern.t
}.
End TeamNotification.

(** ** The orchestrator ([integration.ts]): operations *)

Module Integration.

Import BugXWorkflowConfig.

Definition DEFAULT_CONFIG : BugXWorkflowConfig.t :=
  {| timeTarget := 4.5%Q;
     aiAssisted := true;
     metricsEnabled := true;
     preventionRequired := true;
     documentationRequired := true;
     patternRecognitionEnabled := true;
     teamIntegration :=
       {| TeamIntegration.notifyOnCritical := true;
          TeamIntegration.sharePatterns := true;
          TeamIntegration.requireReviews := false |} |}.

(** The object spread [{ ...base, ...options }]. *)
Definition mergeConfig (base : BugXWorkflowConfig.t) (options : PartialConfig.t)
    : BugXWorkflowConfig.t :=
  {| timeTarget := default (timeTarget base) (PartialConfig.timeTarget options);
     aiAssisted := default (aiAssisted base) (PartialConfig.aiAssisted options);
     metricsEnabled := default (metricsEnabled base) (PartialConfig.metricsEnabled options);
     preventionRequired :=
       default (preventionRequired base) (PartialConfig.preventionRequired options);
     documentationRequired :=
       default (documentationRequired base) (PartialConfig.documentationRequired options);
     patternRecognitionEnabled :=
       default (patternRecognitionEnabled base)
               (PartialConfig.patternRecognitionEnabled options);
     teamIntegration :=
       default (teamIntegration base) (PartialConfig.teamIntegration options) |}.

(** The collaborators of the orchestrator whose sources are not part of the
    repository slice: each is a call on some outside world [W] that returns
    or throws.  [Date_now] and [Math_random_id] stand for [Date.now()] (and
    [new Date()]) and for [Math.random().toString(36).substr(2, 9)]. *)
Class Collaborators (W : Type) : Type := {
  Date_now : W -> Z * W;
  Math_random_id : W -> string * W;
  startSession : string -> string -> string -> W -> Res JsError string * W;
  completeSession : string -> SessionOutcome.t -> W -> Res JsError unit * W;
  addDocumentation : DocumentationEntry.t -> W -> Res JsError unit * W;
  analyzeError :
    string -> string -> string -> string -> W -> Res JsError (list PatternMatch.t) * W;
  detectAntiPatterns : string -> string -> W -> Res JsError (list AntiPattern.t) * W;
  analyzeContext : ContextInput.t -> W -> Res JsError ContextAnalysisResult.t * W;
  generateWorkflowPrompts : WorkflowContext.t -> W -> Res JsError (list string) * W;
  generateImplementation :
    ImplementationRequest.t -> W -> Res JsError ImplementationResult.t * W
}.

(** *** Pure helpers of the class *)

Definition head_confidence (patternMatches : list PatternMatch.t) : option Q :=
  option_map PatternMatch.confidence (head patternMatches).

(** [a || b] on numbers: [b] when [a] is [undefined] or zero. *)
Definition orNumber (a : option Q) (b : Q) : Q :=
  match a with
  | Some x => if Qeq_bool x 0 then b else x
  | None => b
  end.

(** [a || b] on strings: [b] when [a] is [undefined] or empty. *)
Definition orString (a : option string) (b : string) : string :=
  match a with
  | Some x => if String.eqb x "" then b else x
  | None => b
  end.

(** [inferErrorType]. *)
Definition inferErrorType (errorMessage : string) (patternMatches : list PatternMatch.t)
    : string :=
  let fromPattern : option string :=
    match patternMatches with
    | m :: _ =>
        if negb (Qle_bool (PatternMatch.confidence m) 70) then
          let patternName :=
            toLowerCase (PatternSignature.name (PatternMatch.signature m)) in
          if includes patternName "hydration" then Some "hydration_error"
          else if includes patternName "scope" || includes patternName "temporal"
          then Some "scope_error"
          else if includes patternName "null" || includes patternName "undefined"
          then Some "null_reference"
          else if includes patternName "api" || includes patternName "cors"
          then Some "api_integration"
          else None
        else None
    | [] => None
    end in
  match fromPattern with
  | Some errorType => errorType
  | None =>
      let message := toLowerCase errorMessage in
      if includes message "hydration" then "hydration_error"
      else if includes message "cannot access" || includes message "before initialization"
      then "scope_error"
      else if includes message "null" || includes message "undefined"
      then "null_reference"
      else if includes message "cors" || includes message "fetch"
      then "api_integration"
      else if includes message "validation" || includes message "invalid"
      then "validation_error"
      else "generic_error"
  end.

(** [inferDocumentationCategory]. *)
Definition inferDocumentationCategory (errorMessage : string) : DocumentationCategory :=
  let message := toLowerCase errorMessage in
  if includes message "api" || includes message "fetch" || includes message "cors"
  then integration
  else if includes message "hydration" || includes message "render" then pattern
  else if includes message "env" || includes message "config" || includes message "build"
  then infrastructure
  else business_logic.

(** [generateDocumentation]. *)
Definition generateDocumentation
    (errorDetails : ErrorDetails.t) (contextAnalysis : ContextAnalysisResult.t)
    (appliedTemplate : option PatternTemplate.t)
    (implementationSteps preventionMeasures : list string)
    (patternMatches : list PatternMatch.t) (antiPatterns : list AntiPattern.t)
    : DocumentationEntry.t :=
  {| DocumentationEntry.title :=
       ErrorDetails.component errorDetails ++ " - "
       ++ ContextAnalysisResult.errorCategory contextAnalysis;
     DocumentationEntry.errorType := ContextAnalysisResult.errorCategory contextAnalysis;
     DocumentationEntry.component := ErrorDetails.component errorDetails;
     DocumentationEntry.issue := ErrorDetails.message errorDetails;
     DocumentationEntry.rootCause :=
       orString (option_map PatternMatch.recommendation (head patternMatches))
                "Standard debugging analysis performed";
     DocumentationEntry.solution := join (String (ascii_of_nat 10) "") implementationSteps;
     DocumentationEntry.prevention := join (String (ascii_of_nat 10) "") preventionMeasures;
     DocumentationEntry.patternTemplate :=
       orString (option_map PatternTemplate.name appliedTemplate)
                "generic-debugging-approach";
     DocumentationEntry.category :=
       inferDocumentationCategory (ErrorDetails.message errorDetails);
     DocumentationEntry.reusability :=
       if (0 <? length patternMatches)%nat then "high" else "medium";
     DocumentationEntry.timeToFix := ContextAnalysisResult.estimatedTime contextAnalysis;
     DocumentationEntry.confidence := orNumber (head_confidence patternMatches) 75;
     DocumentationEntry.codeExamples :=
       {| CodeExamples.before :=
            String.substring 0 500 (ErrorDetails.codeContext errorDetails);
          CodeExamples.after := "Applied fixes based on pattern template";
          CodeExamples.prevention := join (String (ascii_of_nat 10) "") preventionMeasures |};
     DocumentationEntry.teamNotes :=
       "Anti-patterns detected: " ++ show_nat (length antiPatterns)
       ++ ", Pattern matches: " ++ show_nat (length patternMatches) |}.

(** [generateErrorSignature]. *)
Definition generateErrorSignature (errorDetails : ErrorDetails.t) : string :=
  ErrorDetails.message errorDetails ++ ":" ++ ErrorDetails.fileName errorDetails
  ++ ":" ++ ErrorDetails.component errorDetails.

(** [calculateEfficiency]. *)
Definition calculateEfficiency (actualTime targetTime : Q) : Z :=
  if Qle_bool actualTime targetTime then 100
  else Z.max 0 (Math_round ((targetTime / actualTime) * 100)).

(** [calculateTeamImpact]. *)
Definition calculateTeamImpact (documentationCreated : bool) (preventionCount : Z) : Z :=
  let impact := 0 in
  let impact := if documentationCreated then impact + 50 else impact in
  let impact := impact + Z.min 50 (preventionCount * 10) in
  Z.min 100 impact.

(** The template literal of a number of the form [Math.round(x * 100) / 100],
    given as its count of hundredths. *)
Definition show_hundredths (n : Z) : string :=
  let a := Z.abs n in
  let whole := show_Z (a / 100) in
  let frac := a mod 100 in
  (if n <? 0 then "-" else "")
  ++ whole
  ++ (if frac =? 0 then ""
      else if frac mod 10 =? 0 then "." ++ show_Z (frac / 10)
      else if frac <? 10 then ".0" ++ show_Z frac
      else "." ++ show_Z frac).

Definition isCriticalPattern (ap : AntiPattern.t) : bool :=
  isCritical (AntiPattern.severity ap).

(** [generateRecommendations]. *)
Definition generateRecommendations
    (timeSpent targetTime : Q) (qualityScore : Z)
    (patternMatches : list PatternMatch.t) (antiPatterns : list AntiPattern.t)
    (appliedTemplate : option PatternTemplate.t) : list string :=
  let recommendations : list string := [] in
  let recommendations :=
    if negb (Qle_bool timeSpent targetTime) then
      push recommendations
      ("Consider optimizing pattern recognition - exceeded target time by "
       ++ show_hundredths (Math_round ((timeSpent - targetTime) * 100)) ++ " minutes")
    else recommendations in
  let recommendations :=
    if qualityScore <? 80 then
      push recommendations ("Improve prevention measures and documentation quality")
    else recommendations in
  let recommendations :=
    if (length patternMatches =? 0)%nat then
      push recommendations
      ("Add custom pattern for this error type to improve future recognition")
    else recommendations in
  let recommendations :=
    if (0 <? length antiPatterns)%nat then
      let criticalCount := length (List.filter isCriticalPattern antiPatterns) in
      if (0 <? criticalCount)%nat then
        push recommendations
        ("Address " ++ show_nat criticalCount ++ " critical anti-patterns immediately")
      else recommendations
    else recommendations in
  let recommendations :=
    match appliedTemplate with
    | None =>
        push recommendations
        ("Create specific template for this error pattern to improve efficiency")
    | Some _ => recommendations
    end in
  if (0 <? length recommendations)%nat then recommendations
  else ["Excellent work! Continue with current practices."].

(** [generateNextSteps]. *)
Definition generateNextSteps
    (preventionMeasures : list string) (antiPatterns : list AntiPattern.t)
    (contextAnalysis : ContextAnalysisResult.t) : list string :=
  let nextSteps : list string := [] in
  let nextSteps :=
    if (0 <? length preventionMeasures)%nat then
      push nextSteps "Implement all prevention measures to avoid recurrence"
    else nextSteps in
  let nextSteps :=
    if (0 <? length antiPatterns)%nat then
      push nextSteps "Schedule code review to address detected anti-patterns"
    else nextSteps in
  let nextSteps :=
    if String.eqb (ContextAnalysisResult.complexity contextAnalysis) "complex" then
      push nextSteps "Consider refactoring for better maintainability"
    else nextSteps in
  let nextSteps :=
    push nextSteps "Test thoroughly to ensure fix works across all scenarios" in
  push nextSteps "Monitor for similar issues in related components".

(** *** The team-knowledge list *)

(** The entry [shareWithTeam] creates. *)
Definition newTeamEntry (id : string) (sharedAt : Z)
    (title errorSignature solution prevention sharedBy : string) : TeamKnowledgeEntry.t :=
  {| TeamKnowledgeEntry.id := id;
     TeamKnowledgeEntry.title := title;
     TeamKnowledgeEntry.errorSignature := errorSignature;
     TeamKnowledgeEntry.solution := solution;
     TeamKnowledgeEntry.prevention := prevention;
     TeamKnowledgeEntry.sharedBy := sharedBy;
     TeamKnowledgeEntry.sharedAt := sharedAt;
     TeamKnowledgeEntry.usageCount := 0;
     TeamKnowledgeEntry.effectiveness := 85;
     TeamKnowledgeEntry.teamFeedback :=
       {| TeamFeedback.helpful := 0;
          TeamFeedback.notHelpful := 0;
          TeamFeedback.comments := [] |} |}.

(** The body of [recordTeamKnowledgeFeedback] once the entry is found. *)
Definition applyFeedback (helpful : bool) (comment : option string)
    (entry : TeamKnowledgeEntry.t) : TeamKnowledgeEntry.t :=
  let feedback := TeamKnowledgeEntry.teamFeedback entry in
  let comments :=
    match comment with
    | Some c => if String.eqb c "" then TeamFeedback.comments feedback
                else push (TeamFeedback.comments feedback) c
    | None => TeamFeedback.comments feedback
    end in
  {| TeamKnowledgeEntry.id := TeamKnowledgeEntry.id entry;
     TeamKnowledgeEntry.title := TeamKnowledgeEntry.title entry;
     TeamKnowledgeEntry.errorSignature := TeamKnowledgeEntry.errorSignature entry;
     TeamKnowledgeEntry.solution := TeamKnowledgeEntry.solution entry;
     TeamKnowledgeEntry.prevention := TeamKnowledgeEntry.prevention entry;
     TeamKnowledgeEntry.sharedBy := TeamKnowledgeEntry.sharedBy entry;
     TeamKnowledgeEntry.sharedAt := TeamKnowledgeEntry.sharedAt entry;
     TeamKnowledgeEntry.usageCount := TeamKnowledgeEntry.usageCount entry;
     TeamKnowledgeEntry.effectiveness :=
       if helpful then Z.min 100 (TeamKnowledgeEntry.effectiveness entry + 2)
       else Z.max 0 (TeamKnowledgeEntry.effectiveness entry - 5);
     TeamKnowledgeEntry.teamFeedback :=
       if helpful then
         {| TeamFeedback.helpful := TeamFeedback.helpful feedback + 1;
            TeamFeedback.notHelpful := TeamFeedback.notHelpful feedback;
            TeamFeedback.comments := comments |}
       else
         {| TeamFeedback.helpful := TeamFeedback.helpful feedback;
            TeamFeedback.notHelpful := TeamFeedback.notHelpful feedback + 1;
            TeamFeedback.comments := comments |} |}.

(** [recordTeamKnowledgeFeedback] on the list: the first entry with the given
    id is updated in place; no entry, no change. *)
Fixpoint recordTeamKnowledgeFeedback (entryId : string) (helpful : bool)
    (comment : option string) (teamKnowledge : list TeamKnowledgeEntry.t)
    : list TeamKnowledgeEntry.t :=
  match teamKnowledge with
  | [] => []
  | entry :: rest =>
      if String.eqb (TeamKnowledgeEntry.id entry) entryId
      then applyFeedback helpful comment entry :: rest
      else entry :: recordTeamKnowledgeFeedback entryId helpful comment rest
  end.

Definition effectivenessKey (entry : TeamKnowledgeEntry.t) : Q :=
  inject_Z (TeamKnowledgeEntry.effectiveness entry).

(** [getRelevantTeamKnowledge] on the list. *)
Definition relevantTeamKnowledge (errorType : string)
    (teamKnowledge : list TeamKnowledgeEntry.t) : list TeamKnowledgeEntry.t :=
  firstn 3
    (sort_desc effectivenessKey
       (List.filter
          (fun entry =>
             includes (TeamKnowledgeEntry.errorSignature entry) errorType
             || includes (toLowerCase (TeamKnowledgeEntry.title entry))
                         (toLowerCase errorType))
          teamKnowledge)).

(** [getTeamKnowledge] on the list. *)
Definition getTeamKnowledge (teamKnowledge : list TeamKnowledgeEntry.t)
    : list TeamKnowledgeEntry.t :=
  sort_desc effectivenessKey teamKnowledge.

(** What a client of the class may do to the team-knowledge list: a
    workflow shares an entry (with the id and date drawn at that moment), or
    somebody records feedback. *)
Inductive KnowledgeOp : Type :=
| Share (id : string) (sharedAt : Z)
        (title errorSignature solution prevention sharedBy : string)
| Feedback (entryId : string) (helpful : bool) (comment : option string).

Definition applyOp (teamKnowledge : list TeamKnowledgeEntry.t) (op : KnowledgeOp)
    : list TeamKnowledgeEntry.t :=
  match op with
  | Share id sharedAt title errorSignature solution prevention sharedBy =>
      push teamKnowledge
           (newTeamEntry id sharedAt title errorSignature solution prevention sharedBy)
  | Feedback entryId helpful comment =>
      recordTeamKnowledgeFeedback entryId helpful comment teamKnowledge
  end.

Definition applyOps (ops : list KnowledgeOp) : list TeamKnowledgeEntry.t :=
  fold_left applyOp ops [].

Definition effectivenessInRange (entry : TeamKnowledgeEntry.t) : Prop :=
  0 <= TeamKnowledgeEntry.effectiveness entry <= 100.

(** *** The state of the process *)

(** The static fields of [BugXIntegrationSystem] and of [BugXCoreSystem], the
    console lines of team notifications, and the outside world. *)
Record State (W : Type) : Type := {
  config : BugXWorkflowConfig.t;
  teamKnowledge : list TeamKnowledgeEntry.t;
  templates : CoreSystem.Templates;
  notifications : list TeamNotification.t;
  world : W
}.

Arguments config {W} s.
Arguments teamKnowledge {W} s.
Arguments templates {W} s.
Arguments notifications {W} s.
Arguments world {W} s.

(** *** A scripted outside world

    Worked runs need concrete collaborators.  In the scripted world every
    collaborator logs its name and returns a canned value; the instance is
    parameterised by the names of the calls that throw instead. *)

Record Script : Type := {
  clock : Z;                            (* the next value of [Date.now()] *)
  calls : list string;                  (* the collaborator calls so far *)
  matches : list PatternMatch.t;        (* what [analyzeError] finds *)
  found : list AntiPattern.t            (* what [detectAntiPatterns] finds *)
}.

Definition logged (name : string) (w : Script) : Script :=
  {| clock := clock w; calls := push (calls w) name;
     matches := matches w; found := found w |}.

Definition scriptedCall {A : Type} (failing : list string) (name : string)
    (result : Script -> A) (w : Script) : Res JsError A * Script :=
  if existsb (String.eqb name) failing
  then (Threw (Failure (name ++ " failed")), logged name w)
  else (Returned (result w), logged name w).

Definition scripted (failing : list string) : Collaborators Script :=
  {| Date_now := fun w =>
       (clock w,
        {| clock := clock w + 1000; calls := push (calls w) "Date.now";
           matches := matches w; found := found w |});
     Math_random_id := fun w => ("k3f9x2a1b", logged "Math.random" w);
     startSession := fun _ _ _ =>
       scriptedCall failing "startSession" (fun _ => "session-1");
     completeSession := fun _ _ =>
       scriptedCall failing "completeSession" (fun _ => tt);
     addDocumentation := fun _ =>
       scriptedCall failing "addDocumentation" (fun _ => tt);
     analyzeError := fun _ _ _ _ =>
       scriptedCall failing "analyzeError" matches;
     detectAntiPatterns := fun _ _ =>
       scriptedCall failing "detectAntiPatterns" found;
     analyzeContext := fun _ =>
       scriptedCall failing "analyzeContext"
         (fun _ => {| ContextAnalysisResult.complexity := "simple";
                      ContextAnalysisResult.estimatedTime := 3%Q;
                      ContextAnalysisResult.recommendedApproach := "template";
                      ContextAnalysisResult.errorCategory := "hydration" |});
     generateWorkflowPrompts := fun _ =>
       scriptedCall failing "generateWorkflowPrompts" (fun _ => ["analysis"; "fix"]);
     generateImplementation := fun req =>
       scriptedCall failing "generateImplementation"
         (fun _ =>
            {| ImplementationResult.steps := ["Move the random value into useEffect"];
               ImplementationResult.preventionMeasures :=
                 if ImplementationRequest.preventionRequired req
                 then ["Lint for Math.random in initial state"] else [] |}) |}.

Definition hydrationMatch : PatternMatch.t :=
  {| PatternMatch.signature := PatternRecognition.hydrationSignature;
     PatternMatch.confidence := 90%Q;
     PatternMatch.matchedKeywords := ["hydration"];
     PatternMatch.matchedContextClues := ["Math.random"];
     PatternMatch.recommendation := "Render non-deterministic values on the client only" |}.

Definition randomInState : AntiPattern.t :=
  {| AntiPattern.name := "random-in-initial-state";
     AntiPattern.severity := critical;
     AntiPattern.impact := "Server and client render different markup";
     AntiPattern.solution := "Initialise statically, randomise in an effect" |}.

Definition inlineStyle : AntiPattern.t :=
  {| AntiPattern.name := "inline-style-object";
     AntiPattern.severity := low;
     AntiPattern.impact := "Needless re-renders";
     AntiPattern.solution := "Hoist the object" |}.

Definition hydrationTemplate : PatternTemplate.t :=
  {| PatternTemplate.name := "Hydration Error Fix";
     PatternTemplate.errorType := "hydration_error";
     PatternTemplate.fixSteps := ["Find the non-deterministic render"];
     PatternTemplate.preventionMeasures := ["Add a parity test"];
     PatternTemplate.usageCount := 0 |}.

(** The page of the usage example: a hydration failure caused by
    [Math.random()] in a state initialiser. *)
Definition hydrationError : ErrorDetails.t :=
  {| ErrorDetails.message := "Hydration failed because the server rendered text";
     ErrorDetails.stackTrace := "at Component (/app/page.tsx:15:3)";
     ErrorDetails.codeContext := "const value = Math.random();";
     ErrorDetails.fileName := "/app/page.tsx";
     ErrorDetails.component := "HomePage" |}.

Definition validationError : ErrorDetails.t :=
  {| ErrorDetails.message := "Validation failed: invalid email";
     ErrorDetails.stackTrace := "";
     ErrorDetails.codeContext := "schema.parse(input)";
     ErrorDetails.fileName := "actions.ts";
     ErrorDetails.component := "SignUp" |}.

(** A fresh process: nothing shared yet, one registered template. *)
Definition startState (cfg : BugXWorkflowConfig.t) (pms : list PatternMatch.t)
    (aps : list AntiPattern.t) : State Script :=
  {| config := cfg;
     teamKnowledge := [];
     templates := {[ "hydration_error" := hydrationTemplate ]};
     notifications := [];
     world := {| clock := 1700000000000; calls := [];
                 matches := pms; found := aps |} |}.

Definition metricsDisabled : BugXWorkflowConfig.t :=
  {| timeTarget := 4.5%Q; aiAssisted := true; metricsEnabled := false;
     preventionRequired := true; documentationRequired := true;
     patternRecognitionEnabled := true;
     teamIntegration := teamIntegration DEFAULT_CONFIG |}.

Definition quickFixOptions : PartialConfig.t :=
  {| PartialConfig.timeTarget := Some 4.5%Q;
     PartialConfig.aiAssisted := Some true;
     PartialConfig.metricsEnabled := None;
     PartialConfig.preventionRequired := Some true;
     PartialConfig.documentationRequired := None;
     PartialConfig.patternRecognitionEnabled := None;
     PartialConfig.teamIntegration := None |}.

(** A metrics collector that accepts the report of a failed session and
    throws on the report of a successful one; the other collaborators are
    those of [scripted []]. *)
Definition rejectingSuccess : Collaborators Script :=
  {| Date_now := Date_now (Collaborators := scripted []);
     Math_random_id := Math_random_id (Collaborators := scripted []);
     startSession := startSession (Collaborators := scripted []);
     completeSession := fun _ outcome =>
       scriptedCall (if SessionOutcome.success outcome then ["completeSession"] else [])
                    "completeSession" (fun _ => tt);
     addDocumentation := addDocumentation (Collaborators := scripted []);
     analyzeError := analyzeError (Collaborators := scripted []);
     detectAntiPatterns := detectAntiPatterns (Collaborators := scripted []);
     analyzeContext := analyzeContext (Collaborators := scripted []);
     generateWorkflowPrompts := generateWorkflowPrompts (Collaborators := scripted []);
     generateImplementation := generateImplementation (Collaborators := scripted []) |}.

(** A metrics collector that throws on every call. *)
Definition brokenCollector : Collaborators Script :=
  {| Date_now := Date_now (Collaborators := scripted []);
     Math_random_id := Math_random_id (Collaborators := scripted []);
     startSession := fun _ _ _ => scriptedCall ["startSession"] "startSession" (fun _ => "");
     completeSession := fun _ _ =>
       scriptedCall ["completeSession"] "completeSession" (fun _ => tt);
     addDocumentation := fun _ =>
       scriptedCall ["addDocumentation"] "addDocumentation" (fun _ => tt);
     analyzeError := analyzeError (Collaborators := scripted []);
     detectAntiPatterns := detectAntiPatterns (Collaborators := scripted []);
     analyzeContext := analyzeContext (Collaborators := scripted []);
     generateWorkflowPrompts := generateWorkflowPrompts (Collaborators := scripted []);
     generateImplementation := generateImplementation (Collaborators := scripted []) |}.

(** Two sets of collaborators that differ at most in the metrics collector
    ([startSession], [completeSession], [addDocumentation]). *)
Definition sameOutsideMetrics {W : Type} (C C' : Collaborators W) : Prop :=
  (forall w, Date_now (Collaborators := C') w = Date_now (Collaborators := C) w)
  /\ (forall w, Math_random_id (Collaborators := C') w
                = Math_random_id (Collaborators := C) w)
  /\ (forall m st cc fn w,
        analyzeError (Collaborators := C') m st cc fn w
        = analyzeError (Collaborators := C) m st cc fn w)
  /\ (forall cc fn w,
        detectAntiPatterns (Collaborators := C') cc fn w
        = detectAntiPatterns (Collaborators := C) cc fn w)
  /\ (forall input w,
        analyzeContext (Collaborators := C') input w
        = analyzeContext (Collaborators := C) input w)
  /\ (forall ctx w,
        generateWorkflowPrompts (Collaborators := C') ctx w
        = generateWorkflowPrompts (Collaborators := C) ctx w)
  /\ (forall req w,
        generateImplementation (Collaborators := C') req w
        = generateImplementation (Collaborators := C) req w).

(** *** The workflow *)

Section Workflow.

Context {W : Type} {collaborators : Collaborators W}.

(** A method body: it runs on a state and returns or throws; the state it
    leaves behind is kept in both cases. *)
Definition M (A : Type) : Type := State W -> Res JsError A * State W.

Definition ret {A : Type} (a : A) : M A := fun s => (Returned a, s).

Definition bind {A B : Type} (m : M A) (k : A -> M B) : M B :=
  fun s =>
    match m s with
    | (Returned a, s') => k a s'
    | (Threw e, s') => (Threw e, s')
    end.

(** [try { m } catch (error) { handler error }]. *)
Definition tryCatch {A : Type} (m : M A) (handler : JsError -> M A) : M A :=
  fun s =>
    match m s with
    | (Returned a, s') => (Returned a, s')
    | (Threw e, s') => handler e s'
    end.

Definition withWorld (s : State W) (w : W) : State W :=
  {| config := config s; teamKnowledge := teamKnowledge s;
     templates := templates s; notifications := notifications s; world := w |}.

(** A call of a collaborator that may throw. *)
Definition call {A : Type} (op : W -> Res JsError A * W) : M A :=
  fun s => let (r, w) := op (world s) in (r, withWorld s w).

(** A call of a collaborator that cannot throw. *)
Definition ask {A : Type} (op : W -> A * W) : M A :=
  fun s => let (a, w) := op (world s) in (Returned a, withWorld s w).

(** Reading [this.config]. *)
Definition getConfig : M BugXWorkflowConfig.t := fun s => (Returned (config s), s).

Notation "x <- m ;; k" := (bind m (fun x => k))
  (at level 100, m at next level, right associativity).
Notation "m ;;; k" := (bind m (fun _ => k))
  (at level 100, right associativity).

(** [configure]. *)
Definition configure (newConfig : PartialConfig.t) : M unit :=
  fun s =>
    (Returned tt,
     {| config := mergeConfig (config s) newConfig;
        teamKnowledge := teamKnowledge s; templates := templates s;
        notifications := notifications s; world := world s |}).

(** [shareWithTeam]: the id is built from [Date.now()] and a random suffix,
    then [new Date()] is read, then the entry is pushed. *)
Definition shareWithTeam (title errorSignature solution prevention sharedBy : string)
    : M unit :=
  stamp <- ask Date_now ;;
  suffix <- ask Math_random_id ;;
  sharedAt <- ask Date_now ;;
  fun s =>
    (Returned tt,
     {| config := config s;
        teamKnowledge :=
          push (teamKnowledge s)
               (newTeamEntry ("team-" ++ show_Z stamp ++ "-" ++ suffix) sharedAt
                             title errorSignature solution prevention sharedBy);
        templates := templates s;
        notifications := notifications s;
        world := world s |}).

(** [getRelevantTeamKnowledge]. *)
Definition getRelevantTeamKnowledge (errorType : string)
    : M (list TeamKnowledgeEntry.t) :=
  fun s => (Returned (relevantTeamKnowledge errorType (teamKnowledge s)), s).

(** [notifyTeamOfCriticalIssues]. *)
Definition notifyTeamOfCriticalIssues (developer : string)
    (antiPatterns : list AntiPattern.t) (sessionId : string) : M unit :=
  fun s =>
    let criticalPatterns := List.filter isCriticalPattern antiPatterns in
    (Returned tt,
     {| config := config s; teamKnowledge := teamKnowledge s;
        templates := templates s;
        notifications :=
          push (notifications s)
               {| TeamNotification.developer := developer;
                  TeamNotification.sessionId := sessionId;
                  TeamNotification.criticalPatterns := criticalPatterns |};
        world := world s |}).

(** [BugXCoreSystem.getTemplate] on the registry of the state. *)
Definition getTemplate (errorType : string) : M PatternTemplate.t :=
  fun s => (CoreSystem.getTemplate (templates s) errorType, s).

(** [BugXCoreSystem.recordTemplateUsage] on the registry of the state. *)
Definition recordTemplateUsage (errorType : string) (success : bool) : M unit :=
  fun s =>
    (Returned tt,
     {| config := config s; teamKnowledge := teamKnowledge s;
        templates := CoreSystem.recordTemplateUsage (templates s) errorType success;
        notifications := notifications s; world := world s |}).

(** Phase 1: the start time and the session id. *)
Definition initializeSession (developer : string) (errorDetails : ErrorDetails.t)
    : M (Z * string) :=
  startTime <- ask Date_now ;;
  cfg <- getConfig ;;
  sessionId <-
    (if metricsEnabled cfg
     then call (startSession developer (ErrorDetails.message errorDetails)
                             (ErrorDetails.component errorDetails))
     else (stamp <- ask Date_now ;; ret ("session-" ++ show_Z stamp))) ;;
  ret (startTime, sessionId).

(** Phase 2: pattern recognition, if enabled. *)
Definition patternRecognition (workflowConfig : BugXWorkflowConfig.t)
    (errorDetails : ErrorDetails.t) : M (list PatternMatch.t * list AntiPattern.t) :=
  if patternRecognitionEnabled workflowConfig then
    patternMatches <-
      call (analyzeError (ErrorDetails.message errorDetails)
                         (ErrorDetails.stackTrace errorDetails)
                         (ErrorDetails.codeContext errorDetails)
                         (ErrorDetails.fileName errorDetails)) ;;
    antiPatterns <-
      call (detectAntiPatterns (ErrorDetails.codeContext errorDetails)
                               (ErrorDetails.fileName errorDetails)) ;;
    ret (patternMatches, antiPatterns)
  else ret ([], []).

(** Phase 3: context analysis. *)
Definition contextAnalysisPhase (errorDetails : ErrorDetails.t)
    (patternMatches : list PatternMatch.t) (antiPatterns : list AntiPattern.t)
    : M ContextAnalysisResult.t :=
  call (analyzeContext
          {| ContextInput.errorMessage := ErrorDetails.message errorDetails;
             ContextInput.stackTrace := ErrorDetails.stackTrace errorDetails;
             ContextInput.codeContext := ErrorDetails.codeContext errorDetails;
             ContextInput.fileName := ErrorDetails.fileName errorDetails;
             ContextInput.patternMatches :=
               map (fun m => (PatternSignature.name (PatternMatch.signature m),
                              PatternMatch.confidence m)) patternMatches;
             ContextInput.antiPatterns :=
               map (fun ap => (AntiPattern.name ap, AntiPattern.severity ap))
                   antiPatterns |}).

(** Phase 4: template matching.  The inner [try] covers the lookup and the
    usage record; a throw of the lookup leaves [appliedTemplate] undefined.
    The value kept in [appliedTemplate] is the template as it was looked up;
    its usage counter lives in the registry. *)
Definition templateMatching (errorType : string) : M (option PatternTemplate.t) :=
  tryCatch
    (appliedTemplate <- getTemplate errorType ;;
     recordTemplateUsage errorType true ;;;
     ret (Some appliedTemplate))
    (fun _ => ret None).

(** Phase 5: implementation, if AI assistance is enabled. *)
Definition implementationPhase (workflowConfig : BugXWorkflowConfig.t)
    (errorDetails : ErrorDetails.t) (errorType : string)
    (contextAnalysis : ContextAnalysisResult.t)
    (patternMatches : list PatternMatch.t)
    (appliedTemplate : option PatternTemplate.t) : M (list string * list string) :=
  if aiAssisted workflowConfig then
    relevant <- getRelevantTeamKnowledge errorType ;;
    call (generateWorkflowPrompts
            {| WorkflowContext.errorType := errorType;
               WorkflowContext.contextAnalysis := contextAnalysis;
               WorkflowContext.patternMatches := patternMatches;
               WorkflowContext.appliedTemplate := appliedTemplate;
               WorkflowContext.teamKnowledge := relevant |}) ;;;
    implementation <-
      call (generateImplementation
              {| ImplementationRequest.errorAnalysis := contextAnalysis;
                 ImplementationRequest.selectedTemplate := appliedTemplate;
                 ImplementationRequest.codeContext := ErrorDetails.codeContext errorDetails;
                 ImplementationRequest.patternMatches := patternMatches;
                 ImplementationRequest.preventionRequired :=
                   preventionRequired workflowConfig |}) ;;
    ret (ImplementationResult.steps implementation,
         ImplementationResult.preventionMeasures implementation)
  else ret ([], []).

(** Phase 6: quality validation. *)
Definition qualityValidation (appliedTemplate : option PatternTemplate.t)
    (preventionMeasures : list string) (patternMatches : list PatternMatch.t)
    (contextAnalysis : ContextAnalysisResult.t) : Z :=
  Quality.calculateQualityScore
    {| Quality.appliedTemplate :=
         match appliedTemplate with Some _ => true | None => false end;
       Quality.preventionMeasures := Z.of_nat (length preventionMeasures);
       Quality.patternMatchConfidence := orNumber (head_confidence patternMatches) 0;
       Quality.contextComplexity := ContextAnalysisResult.complexity contextAnalysis |}.

(** Phase 7: documentation, if required. *)
Definition documentationPhase (workflowConfig : BugXWorkflowConfig.t)
    (developer : string) (errorDetails : ErrorDetails.t) (errorType : string)
    (contextAnalysis : ContextAnalysisResult.t)
    (appliedTemplate : option PatternTemplate.t)
    (implementationSteps preventionMeasures : list string)
    (patternMatches : list PatternMatch.t) (antiPatterns : list AntiPattern.t)
    : M bool :=
  if documentationRequired workflowConfig then
    let documentation :=
      generateDocumentation errorDetails contextAnalysis appliedTemplate
                            implementationSteps preventionMeasures
                            patternMatches antiPatterns in
    cfg <- getConfig ;;
    (if metricsEnabled cfg then call (addDocumentation documentation) else ret tt) ;;;
    (if TeamIntegration.sharePatterns (teamIntegration workflowConfig) then
       shareWithTeam (errorType ++ " Resolution")
                     (generateErrorSignature errorDetails)
                     (join "; " implementationSteps)
                     (join "; " preventionMeasures)
                     developer
     else ret tt) ;;;
    ret true
  else ret false.

(** Phase 8: team notification. *)
Definition teamNotification (workflowConfig : BugXWorkflowConfig.t)
    (developer : string) (antiPatterns : list AntiPattern.t) (sessionId : string)
    : M unit :=
  if TeamIntegration.notifyOnCritical (teamIntegration workflowConfig) then
    let hasCriticalAntiPatterns := existsb isCriticalPattern antiPatterns in
    if hasCriticalAntiPatterns
    then notifyTeamOfCriticalIssues developer antiPatterns sessionId
    else ret tt
  else ret tt.

(** [Math.round(timeSpent * 100) / 100]. *)
Definition roundedMinutes (timeSpent : Q) : Q :=
  (inject_Z (Math_round (timeSpent * 100)) / 100)%Q.

(** [(end - start) / (1000 * 60)]. *)
Definition minutesBetween (startTime endTime : Z) : Q :=
  (inject_Z (endTime - startTime) / inject_Z (1000 * 60))%Q.

(** Phases 9 and 10: complete the session and build the result. *)
Definition completePhase (workflowConfig : BugXWorkflowConfig.t)
    (startTime : Z) (sessionId : string)
    (patternMatches : list PatternMatch.t) (antiPatterns : list AntiPattern.t)
    (contextAnalysis : ContextAnalysisResult.t)
    (appliedTemplate : option PatternTemplate.t)
    (preventionMeasures : list string) (qualityScore : Z)
    (documentationCreated : bool) : M BugXWorkflowResult.t :=
  endTime <- ask Date_now ;;
  let timeSpent := minutesBetween startTime endTime in
  let approach :=
    if Qle_bool timeSpent (timeTarget workflowConfig) then bugx_v14 else full_bugx in
  cfg <- getConfig ;;
  (if metricsEnabled cfg then
     call (completeSession sessionId
             {| SessionOutcome.patternUsed := option_map PatternTemplate.name appliedTemplate;
                SessionOutcome.approach := approach;
                SessionOutcome.success := true;
                SessionOutcome.preventionApplied := (0 <? length preventionMeasures)%nat;
                SessionOutcome.documentationCreated := documentationCreated;
                SessionOutcome.satisfactionRating := Some (inject_Z qualityScore / 10)%Q;
                SessionOutcome.notes :=
                  "Pattern matches: " ++ show_nat (length patternMatches)
                  ++ ", Anti-patterns: " ++ show_nat (length antiPatterns) |})
   else ret tt) ;;;
  let recommendations :=
    generateRecommendations timeSpent (timeTarget workflowConfig) qualityScore
                            patternMatches antiPatterns appliedTemplate in
  let nextSteps := generateNextSteps preventionMeasures antiPatterns contextAnalysis in
  ret {| BugXWorkflowResult.sessionId := sessionId;
         BugXWorkflowResult.success := true;
         BugXWorkflowResult.timeSpent := roundedMinutes timeSpent;
         BugXWorkflowResult.approach := approach;
         BugXWorkflowResult.patternMatches := patternMatches;
         BugXWorkflowResult.antiPatterns := antiPatterns;
         BugXWorkflowResult.appliedTemplate := appliedTemplate;
         BugXWorkflowResult.preventionMeasures := preventionMeasures;
         BugXWorkflowResult.documentationCreated := documentationCreated;
         BugXWorkflowResult.metrics :=
           {| WorkflowMetrics.efficiency :=
                calculateEfficiency timeSpent (timeTarget workflowConfig);
              WorkflowMetrics.qualityScore := qualityScore;
              WorkflowMetrics.teamImpact :=
                calculateTeamImpact documentationCreated
                                    (Z.of_nat (length preventionMeasures)) |};
         BugXWorkflowResult.recommendations := recommendations;
         BugXWorkflowResult.nextSteps := nextSteps |}.

(** The [try] block of [runCompleteWorkflow]: phases 2 to 10. *)
Definition workflowBody (workflowConfig : BugXWorkflowConfig.t)
    (developer : string) (errorDetails : ErrorDetails.t)
    (startTime : Z) (sessionId : string) : M BugXWorkflowResult.t :=
  recognised <- patternRecognition workflowConfig errorDetails ;;
  let patternMatches := fst recognised in
  let antiPatterns := snd recognised in
  contextAnalysis <- contextAnalysisPhase errorDetails patternMatches antiPatterns ;;
  let errorType := inferErrorType (ErrorDetails.message errorDetails) patternMatches in
  appliedTemplate <- templateMatching errorType ;;
  implemented <-
    implementationPhase workflowConfig errorDetails errorType contextAnalysis
                        patternMatches appliedTemplate ;;
  let implementationSteps := fst implemented in
  let preventionMeasures := snd implemented in
  let qualityScore :=
    qualityValidation appliedTemplate preventionMeasures patternMatches contextAnalysis in
  documentationCreated <-
    documentationPhase workflowConfig developer errorDetails errorType contextAnalysis
                       appliedTemplate implementationSteps preventionMeasures
                       patternMatches antiPatterns ;;
  teamNotification workflowConfig developer antiPatterns sessionId ;;;
  completePhase workflowConfig startTime sessionId patternMatches antiPatterns
                contextAnalysis appliedTemplate preventionMeasures qualityScore
                documentationCreated.

(** The outcome the [catch] block reports to the metrics collector. *)
Definition failedOutcome (error : JsError) : SessionOutcome.t :=
  {| SessionOutcome.patternUsed := None;
     SessionOutcome.approach := bugx_v14;
     SessionOutcome.success := false;
     SessionOutcome.preventionApplied := false;
     SessionOutcome.documentationCreated := false;
     SessionOutcome.satisfactionRating := None;
     SessionOutcome.notes := "Workflow error: " ++ errorToString error |}.

(** The result the [catch] block returns. *)
Definition failureResult (sessionId : string) (timeSpent : Q) : BugXWorkflowResult.t :=
  {| BugXWorkflowResult.sessionId := sessionId;
     BugXWorkflowResult.success := false;
     BugXWorkflowResult.timeSpent := roundedMinutes timeSpent;
     BugXWorkflowResult.approach := bugx_v14;
     BugXWorkflowResult.patternMatches := [];
     BugXWorkflowResult.antiPatterns := [];
     BugXWorkflowResult.appliedTemplate := None;
     BugXWorkflowResult.preventionMeasures := [];
     BugXWorkflowResult.documentationCreated := false;
     BugXWorkflowResult.metrics :=
       {| WorkflowMetrics.efficiency := 0;
          WorkflowMetrics.qualityScore := 0;
          WorkflowMetrics.teamImpact := 0 |};
     BugXWorkflowResult.recommendations :=
       ["Retry with manual debugging approach"; "Check system configuration"];
     BugXWorkflowResult.nextSteps :=
       ["Review error logs"; "Validate input parameters"] |}.

(** The [catch] block of [runCompleteWorkflow]. *)
Definition workflowFailed (startTime : Z) (sessionId : string) (error : JsError)
    : M BugXWorkflowResult.t :=
  cfg <- getConfig ;;
  (if metricsEnabled cfg
   then call (completeSession sessionId (failedOutcome error))
   else ret tt) ;;;
  endTime <- ask Date_now ;;
  ret (failureResult sessionId (minutesBetween startTime endTime)).

(** [runCompleteWorkflow]. *)
Definition runCompleteWorkflow (developer : string) (errorDetails : ErrorDetails.t)
    (options : PartialConfig.t) : M BugXWorkflowResult.t :=
  cfg <- getConfig ;;
  let workflowConfig := mergeConfig cfg options in
  session <- initializeSession developer errorDetails ;;
  let startTime := fst session in
  let sessionId := snd session in
  tryCatch (workflowBody workflowConfig developer errorDetails startTime sessionId)
           (workflowFailed startTime sessionId).

(** *** Predicates on method bodies and on runs *)

(** A method body leaves a static field alone. *)
Definition preserves {X A : Type} (f : State W -> X) (m : M A) : Prop :=
  forall s, f (snd (m s)) = f s.

(** A projection that does not look at the outside world. *)
Definition static {X : Type} (f : State W -> X) : Prop :=
  forall s w, f (withWorld s w) = f s.

(** The intermediate values of a run of the [try] block that reaches its
    [return] statement. *)
Inductive Completed (workflowConfig : BugXWorkflowConfig.t) (developer : string)
    (errorDetails : ErrorDetails.t) (startTime : Z) (sessionId : string)
    (s s' : State W) (r : BugXWorkflowResult.t) : Prop :=
| completed_run
    (patternMatches : list PatternMatch.t) (antiPatterns : list AntiPattern.t)
    (contextAnalysis : ContextAnalysisResult.t)
    (appliedTemplate : option PatternTemplate.t)
    (implementationSteps preventionMeasures : list string)
    (documentationCreated : bool)
    (s2 s3 s4 s5 s6 s7 : State W)
    (ran_patternRecognition :
       patternRecognition workflowConfig errorDetails s
       = (Returned (patternMatches, antiPatterns), s2))
    (ran_contextAnalysis :
       contextAnalysisPhase errorDetails patternMatches antiPatterns s2
       = (Returned contextAnalysis, s3))
    (ran_templateMatching :
       templateMatching
         (inferErrorType (ErrorDetails.message errorDetails) patternMatches) s3
       = (Returned appliedTemplate, s4))
    (ran_implementation :
       implementationPhase workflowConfig errorDetails
         (inferErrorType (ErrorDetails.message errorDetails) patternMatches)
         contextAnalysis patternMatches appliedTemplate s4
       = (Returned (implementationSteps, preventionMeasures), s5))
    (ran_documentation :
       documentationPhase workflowConfig developer errorDetails
         (inferErrorType (ErrorDetails.message errorDetails) patternMatches)
         contextAnalysis appliedTemplate implementationSteps preventionMeasures
         patternMatches antiPatterns s5
       = (Returned documentationCreated, s6))
    (ran_teamNotification :
       teamNotification workflowConfig developer antiPatterns sessionId s6
       = (Returned tt, s7))
    (ran_complete :
       completePhase workflowConfig startTime sessionId patternMatches antiPatterns
         contextAnalysis appliedTemplate preventionMeasures
         (qualityValidation appliedTemplate preventionMeasures patternMatches
                            contextAnalysis)
         documentationCreated s7
       = (Returned r, s')).

(** A method body returns normally from every state. *)
Definition returns {A : Type} (m : M A) : Prop :=
  forall s, exists a s', m s = (Returned a, s').

(** A collaborator call returns normally in every world. *)
Definition callReturns {A : Type} (op : W -> Res JsError A * W) : Prop :=
  forall w, returned (fst (op w)) = true.

(** The two calls of the metrics collector that sit outside the [try]
    block (one before it, one in the [catch] block) return normally. *)
Definition metricsCollectorReturns : Prop :=
  (forall developer message component,
      callReturns (startSession developer message component))
  /\ (forall sessionId outcome, callReturns (completeSession sessionId outcome)).

(** The same two calls, as far as a run from the state [s] makes them: both
    are guarded by [this.config.metricsEnabled], and the one in the [catch]
    block reports the failure outcome.  The call of [completeSession] in
    phase 9, inside the [try] block, is not among them. *)
Definition unguardedMetricsCallsReturn (s : State W) : Prop :=
  metricsEnabled (config s) = true ->
  (forall developer message component,
      callReturns (startSession developer message component))
  /\ (forall sessionId error,
        callReturns (completeSession sessionId (failedOutcome error))).

(** The world after phase 1: the clock is read for the start time; then the
    session is opened with the metrics collector if metrics are enabled, and
    otherwise the clock is read again and the id is built from it. *)
Definition sessionOpened (developer : string) (errorDetails : ErrorDetails.t)
    (startTime : Z) (sessionId : string) (before after : State W) : Prop :=
  exists w, Date_now (world before) = (startTime, w)
    /\ if metricsEnabled (config before) then
         startSession developer (ErrorDetails.message errorDetails)
                      (ErrorDetails.component errorDetails) w
         = (Returned sessionId, world after)
       else
         exists stamp, Date_now w = (stamp, world after)
                       /\ sessionId = "session-" ++ show_Z stamp.

(** No collaborator throws. *)
Definition collaboratorsReturn : Prop :=
  metricsCollectorReturns
  /\ (forall doc, callReturns (addDocumentation doc))
  /\ (forall m st cc fn, callReturns (analyzeError m st cc fn))
  /\ (forall cc fn, callReturns (detectAntiPatterns cc fn))
  /\ (forall input, callReturns (analyzeContext input))
  /\ (forall ctx, callReturns (generateWorkflowPrompts ctx))
  /\ (forall req, callReturns (generateImplementation req)).

(** The world after the [catch] block: the session is completed as failed
    when metrics are enabled, and the clock is read. *)
Definition sessionMarkedFailed (sessionId : string) (error : JsError)
    (endTime : Z) (before after : State W) : Prop :=
  if metricsEnabled (config before) then
    exists w, completeSession sessionId (failedOutcome error) (world before)
              = (Returned tt, w)
              /\ Date_now w = (endTime, world after)
  else Date_now (world before) = (endTime, world after).

(** The guard of phase 8. *)
Definition notificationDue (workflowConfig : BugXWorkflowConfig.t)
    (antiPatterns : list AntiPattern.t) : bool :=
  TeamIntegration.notifyOnCritical (teamIntegration workflowConfig)
  && existsb isCriticalPattern antiPatterns.

Definition notificationOf (developer : string) (antiPatterns : list AntiPattern.t)
    (sessionId : string) : TeamNotification.t :=
  {| TeamNotification.developer := developer;
     TeamNotification.sessionId := sessionId;
     TeamNotification.criticalPatterns := List.filter isCriticalPattern antiPatterns |}.

(** *** Reasoning about method bodies *)

Lemma bind_returned {A B : Type} (m : M A) (k : A -> M B) (s s' : State W) (b : B) :
  bind m k s = (Returned b, s') ->
  exists a s1, m s = (Returned a, s1) /\ k a s1 = (Returned b, s').
Proof.
  unfold bind. destruct (m s) as [[a | e] s1]; intros H.
  - now exists a, s1.
  - discriminate H.
Qed.

Lemma bind_step {A B : Type} (m : M A) (k : A -> M B) (s s1 : State W) (a : A) :
  m s = (Returned a, s1) -> bind m k s = k a s1.
Proof. unfold bind. now intros ->. Qed.


Lemma static_config : static config.
Proof. intros s w. reflexivity. Qed.

Lemma static_notifications : static notifications.
Proof. intros s w. reflexivity. Qed.

Lemma static_templates : static templates.
Proof. intros s w. reflexivity. Qed.

Section Preservation.
Context {X : Type} (f : State W -> X) (Hf : static f).

Lemma preserves_ret {A : Type} (a : A) : preserves f (ret a).
Proof. intros s. reflexivity. Qed.

Lemma preserves_bind {A B : Type} (m : M A) (k : A -> M B) :
  preserves f m -> (forall a, preserves f (k a)) -> preserves f (bind m k).
Proof.
  intros Hm Hk s. unfold bind. specialize (Hm s).
  destruct (m s) as [[a | e] s1]; simpl in *.
  - rewrite (Hk a s1). exact Hm.
  - exact Hm.
Qed.

Lemma preserves_tryCatch {A : Type} (m : M A) (h : JsError -> M A) :
  preserves f m -> (forall e, preserves f (h e)) -> preserves f (tryCatch m h).
Proof.
  intros Hm Hh s. unfold tryCatch. specialize (Hm s).
  destruct (m s) as [[a | e] s1]; simpl in *.
  - exact Hm.
  - rewrite (Hh e s1). exact Hm.
Qed.

Lemma preserves_call {A : Type} (op : W -> Res JsError A * W) : preserves f (call op).
Proof. intros s. unfold call. destruct (op (world s)) as [r w]. apply Hf. Qed.

Lemma preserves_ask {A : Type} (op : W -> A * W) : preserves f (ask op).
Proof. intros s. unfold ask. destruct (op (world s)) as [r w]. apply Hf. Qed.

Lemma preserves_getConfig : preserves f getConfig.
Proof. intros s. reflexivity. Qed.

Lemma preserves_if {A : Type} (b : bool) (m1 m2 : M A) :
  preserves f m1 -> preserves f m2 -> preserves f (if b then m1 else m2).
Proof. now destruct b. Qed.

End Preservation.

(** Decompose the goal [preserves f m] along the structure of [m]. *)
Ltac preserve_with Hf :=
  repeat first
    [ apply preserves_ret
    | apply preserves_getConfig
    | apply (preserves_call _ Hf)
    | apply (preserves_ask _ Hf)
    | apply preserves_bind; [ | intros ? ]
    | apply preserves_tryCatch; [ | intros ? ]
    | apply preserves_if ].

(** *** What each phase leaves alone *)

Lemma initializeSession_preserves {X : Type} (f : State W -> X) developer errorDetails :
  static f -> preserves f (initializeSession developer errorDetails).
Proof.
  intros Hf. unfold initializeSession. preserve_with Hf.
Qed.

Lemma patternRecognition_preserves {X : Type} (f : State W -> X) workflowConfig errorDetails :
  static f -> preserves f (patternRecognition workflowConfig errorDetails).
Proof.
  intros Hf. unfold patternRecognition. preserve_with Hf.
Qed.

Lemma contextAnalysisPhase_preserves {X : Type} (f : State W -> X)
    errorDetails patternMatches antiPatterns :
  static f -> preserves f (contextAnalysisPhase errorDetails patternMatches antiPatterns).
Proof.
  intros Hf. unfold contextAnalysisPhase. preserve_with Hf.
Qed.

Lemma implementationPhase_preserves {X : Type} (f : State W -> X)
    workflowConfig errorDetails errorType contextAnalysis patternMatches appliedTemplate :
  static f ->
  preserves f (implementationPhase workflowConfig errorDetails errorType contextAnalysis
                                   patternMatches appliedTemplate).
Proof.
  intros Hf. unfold implementationPhase. preserve_with Hf.
Qed.

Lemma completePhase_preserves {X : Type} (f : State W -> X)
    workflowConfig startTime sessionId patternMatches antiPatterns contextAnalysis
    appliedTemplate preventionMeasures qualityScore documentationCreated :
  static f ->
  preserves f (completePhase workflowConfig startTime sessionId patternMatches
                             antiPatterns contextAnalysis appliedTemplate
                             preventionMeasures qualityScore documentationCreated).
Proof.
  intros Hf. unfold completePhase. preserve_with Hf.
Qed.

Lemma workflowFailed_preserves {X : Type} (f : State W -> X) startTime sessionId error :
  static f -> preserves f (workflowFailed startTime sessionId error).
Proof.
  intros Hf. unfold workflowFailed. preserve_with Hf.
Qed.

Lemma templateMatching_config errorType : preserves config (templateMatching errorType).
Proof.
  unfold templateMatching. preserve_with static_config; intros s; reflexivity.
Qed.

Lemma templateMatching_notifications errorType :
  preserves notifications (templateMatching errorType).
Proof.
  unfold templateMatching. preserve_with static_notifications; intros s; reflexivity.
Qed.

Lemma documentationPhase_config workflowConfig developer errorDetails errorType
    contextAnalysis appliedTemplate implementationSteps preventionMeasures
    patternMatches antiPatterns :
  preserves config
    (documentationPhase workflowConfig developer errorDetails errorType contextAnalysis
                        appliedTemplate implementationSteps preventionMeasures
                        patternMatches antiPatterns).
Proof.
  unfold documentationPhase, shareWithTeam.
  preserve_with static_config; intros s; reflexivity.
Qed.

Lemma documentationPhase_notifications workflowConfig developer errorDetails errorType
    contextAnalysis appliedTemplate implementationSteps preventionMeasures
    patternMatches antiPatterns :
  preserves notifications
    (documentationPhase workflowConfig developer errorDetails errorType contextAnalysis
                        appliedTemplate implementationSteps preventionMeasures
                        patternMatches antiPatterns).
Proof.
  unfold documentationPhase, shareWithTeam.
  preserve_with static_notifications; intros s; reflexivity.
Qed.

Lemma documentationPhase_templates workflowConfig developer errorDetails errorType
    contextAnalysis appliedTemplate implementationSteps preventionMeasures
    patternMatches antiPatterns :
  preserves templates
    (documentationPhase workflowConfig developer errorDetails errorType contextAnalysis
                        appliedTemplate implementationSteps preventionMeasures
                        patternMatches antiPatterns).
Proof.
  unfold documentationPhase, shareWithTeam.
  preserve_with static_templates; intros s; reflexivity.
Qed.

Lemma teamNotification_config workflowConfig developer antiPatterns sessionId :
  preserves config (teamNotification workflowConfig developer antiPatterns sessionId).
Proof.
  unfold teamNotification. cbv zeta.
  preserve_with static_config; intros s; reflexivity.
Qed.

Lemma teamNotification_templates workflowConfig developer antiPatterns sessionId :
  preserves templates (teamNotification workflowConfig developer antiPatterns sessionId).
Proof.
  unfold teamNotification. cbv zeta.
  preserve_with static_templates; intros s; reflexivity.
Qed.

Lemma workflowBody_config workflowConfig developer errorDetails startTime sessionId :
  preserves config (workflowBody workflowConfig developer errorDetails startTime sessionId).
Proof.
  unfold workflowBody.
  apply preserves_bind; [ apply patternRecognition_preserves, static_config | intros ? ].
  apply preserves_bind; [ apply contextAnalysisPhase_preserves, static_config | intros ? ].
  apply preserves_bind; [ apply templateMatching_config | intros ? ].
  apply preserves_bind; [ apply implementationPhase_preserves, static_config | intros ? ].
  apply preserves_bind; [ apply documentationPhase_config | intros ? ].
  apply preserves_bind; [ apply teamNotification_config | intros ? ].
  apply completePhase_preserves, static_config.
Qed.

(** Turn [m s = (r, s')] into the equation [f s' = f s]. *)
Lemma preserved {X A : Type} (f : State W -> X) (m : M A) (s s' : State W)
    (r : Res JsError A) :
  preserves f m -> m s = (r, s') -> f s' = f s.
Proof. intros Hm Hs. specialize (Hm s). now rewrite Hs in Hm. Qed.

(** *** The shape of a run *)

Lemma completePhase_result workflowConfig startTime sessionId patternMatches antiPatterns
    contextAnalysis appliedTemplate preventionMeasures qualityScore documentationCreated
    (s s' : State W) (r : BugXWorkflowResult.t) :
  completePhase workflowConfig startTime sessionId patternMatches antiPatterns
                contextAnalysis appliedTemplate preventionMeasures qualityScore
                documentationCreated s = (Returned r, s') ->
  BugXWorkflowResult.success r = true
  /\ BugXWorkflowResult.sessionId r = sessionId
  /\ BugXWorkflowResult.patternMatches r = patternMatches
  /\ BugXWorkflowResult.antiPatterns r = antiPatterns
  /\ BugXWorkflowResult.appliedTemplate r = appliedTemplate.
Proof.
  unfold completePhase. intros H.
  apply bind_returned in H as (endTime & s1 & _ & H).
  apply bind_returned in H as (cfg & s2 & _ & H).
  apply bind_returned in H as (u & s3 & _ & H).
  unfold ret in H. inversion H; subst. simpl. auto.
Qed.

Lemma workflowFailed_result startTime sessionId error (s s' : State W)
    (r : BugXWorkflowResult.t) :
  workflowFailed startTime sessionId error s = (Returned r, s') ->
  exists endTime, r = failureResult sessionId (minutesBetween startTime endTime).
Proof.
  unfold workflowFailed. intros H.
  apply bind_returned in H as (cfg & s1 & _ & H).
  apply bind_returned in H as (u & s2 & _ & H).
  apply bind_returned in H as (endTime & s3 & _ & H).
  unfold ret in H. inversion H; subst. now exists endTime.
Qed.

Lemma workflowBody_returned workflowConfig developer errorDetails startTime sessionId
    (s s' : State W) (r : BugXWorkflowResult.t) :
  workflowBody workflowConfig developer errorDetails startTime sessionId s
  = (Returned r, s') ->
  Completed workflowConfig developer errorDetails startTime sessionId s s' r.
Proof.
  unfold workflowBody. intros H.
  apply bind_returned in H as ([pm aps] & s2 & H2 & H).
  apply bind_returned in H as (ca & s3 & H3 & H).
  apply bind_returned in H as (tpl & s4 & H4 & H).
  apply bind_returned in H as ([steps pms] & s5 & H5 & H).
  apply bind_returned in H as (doc & s6 & H6 & H).
  apply bind_returned in H as ([] & s7 & H7 & H).
  simpl in *.
  exact (completed_run workflowConfig developer errorDetails startTime sessionId s s' r
           pm aps ca tpl steps pms doc s2 s3 s4 s5 s6 s7 H2 H3 H4 H5 H6 H7 H).
Qed.

Lemma runCompleteWorkflow_unfold developer errorDetails options (s s1 : State W)
    (startTime : Z) (sessionId : string) :
  initializeSession developer errorDetails s = (Returned (startTime, sessionId), s1) ->
  runCompleteWorkflow developer errorDetails options s
  = tryCatch (workflowBody (mergeConfig (config s) options) developer errorDetails
                           startTime sessionId)
             (workflowFailed startTime sessionId) s1.
Proof.
  intros Hinit. unfold runCompleteWorkflow.
  unfold bind at 1. unfold getConfig at 1.
  rewrite (bind_step _ _ _ _ _ Hinit). reflexivity.
Qed.

(** Every run that returns is one of the two kinds: the [try] block ran to
    its [return], or the [catch] block built the failure result. *)
Lemma runCompleteWorkflow_returned developer errorDetails options (s s' : State W)
    (r : BugXWorkflowResult.t) :
  runCompleteWorkflow developer errorDetails options s = (Returned r, s') ->
  exists startTime sessionId s1,
    initializeSession developer errorDetails s = (Returned (startTime, sessionId), s1)
    /\ (Completed (mergeConfig (config s) options) developer errorDetails
                  startTime sessionId s1 s' r
        \/ exists endTime,
             r = failureResult sessionId (minutesBetween startTime endTime)).
Proof.
  intros H.
  assert (Hinit : exists startTime sessionId s1,
             initializeSession developer errorDetails s
             = (Returned (startTime, sessionId), s1)).
  { unfold runCompleteWorkflow in H.
    apply bind_returned in H as (cfg & s0 & H0 & H).
    unfold getConfig in H0. inversion H0; subst.
    apply bind_returned in H as ([t sid] & s1 & H1 & _). eauto. }
  destruct Hinit as (startTime & sessionId & s1 & Hinit).
  exists startTime, sessionId, s1. split; [ exact Hinit | ].
  rewrite (runCompleteWorkflow_unfold _ _ _ _ _ _ _ Hinit) in H.
  unfold tryCatch in H.
  destruct (workflowBody _ developer errorDetails startTime sessionId s1)
    as [[r0 | e] s2] eqn:Hbody.
  - inversion H; subst. left. now apply workflowBody_returned.
  - right. eapply workflowFailed_result. exact H.
Qed.

(** *** Bodies that cannot throw *)

Lemma returns_ret {A : Type} (a : A) : returns (ret a).
Proof. intros s. now exists a, s. Qed.

Lemma returns_getConfig : returns getConfig.
Proof. intros s. now exists (config s), s. Qed.

Lemma returns_ask {A : Type} (op : W -> A * W) : returns (ask op).
Proof.
  intros s. unfold ask. destruct (op (world s)) as [a w]. now exists a, (withWorld s w).
Qed.

Lemma returns_call {A : Type} (op : W -> Res JsError A * W) :
  callReturns op -> returns (call op).
Proof.
  intros Hop s. unfold call. specialize (Hop (world s)).
  destruct (op (world s)) as [[a | e] w]; [ | discriminate Hop ].
  now exists a, (withWorld s w).
Qed.

Lemma returns_bind {A B : Type} (m : M A) (k : A -> M B) :
  returns m -> (forall a, returns (k a)) -> returns (bind m k).
Proof.
  intros Hm Hk s. destruct (Hm s) as (a & s1 & H1).
  destruct (Hk a s1) as (b & s2 & H2).
  exists b, s2. now rewrite (bind_step _ _ _ _ _ H1).
Qed.

Lemma returns_if {A : Type} (b : bool) (m1 m2 : M A) :
  returns m1 -> returns m2 -> returns (if b then m1 else m2).
Proof. now destruct b. Qed.

Lemma returns_tryCatch {A : Type} (m : M A) (h : JsError -> M A) :
  (forall e, returns (h e)) -> returns (tryCatch m h).
Proof.
  intros Hh s. unfold tryCatch. destruct (m s) as [[a | e] s1].
  - now exists a, s1.
  - apply Hh.
Qed.

(** Decompose the goal [returns m] along the structure of [m]. *)
Ltac returns_step :=
  repeat first
    [ apply returns_ret
    | apply returns_getConfig
    | apply returns_ask
    | apply returns_call; assumption
    | apply returns_bind; [ | intros ? ]
    | apply returns_tryCatch; intros ?
    | apply returns_if ].

Lemma initializeSession_returns developer errorDetails :
  metricsCollectorReturns -> returns (initializeSession developer errorDetails).
Proof.
  intros [Hstart _]. unfold initializeSession.
  pose proof (Hstart developer (ErrorDetails.message errorDetails)
                     (ErrorDetails.component errorDetails)).
  returns_step.
Qed.

Lemma workflowFailed_returns startTime sessionId error :
  metricsCollectorReturns -> returns (workflowFailed startTime sessionId error).
Proof.
  intros [_ Hcomplete]. unfold workflowFailed.
  pose proof (Hcomplete sessionId (failedOutcome error)).
  returns_step.
Qed.

Lemma shareWithTeam_returns title errorSignature solution prevention sharedBy :
  returns (shareWithTeam title errorSignature solution prevention sharedBy).
Proof.
  unfold shareWithTeam. returns_step. intros s. eauto.
Qed.

Lemma workflowBody_returns workflowConfig developer errorDetails startTime sessionId :
  collaboratorsReturn ->
  returns (workflowBody workflowConfig developer errorDetails startTime sessionId).
Proof.
  intros ([_ Hcomplete] & Hdoc & Herr & Hanti & Hctx & Hprompts & Himpl).
  unfold workflowBody.
  apply returns_bind.
  { unfold patternRecognition.
    pose proof (Herr (ErrorDetails.message errorDetails)
                     (ErrorDetails.stackTrace errorDetails)
                     (ErrorDetails.codeContext errorDetails)
                     (ErrorDetails.fileName errorDetails)).
    pose proof (Hanti (ErrorDetails.codeContext errorDetails)
                      (ErrorDetails.fileName errorDetails)).
    returns_step. }
  intros recognised. apply returns_bind.
  { unfold contextAnalysisPhase. apply returns_call, Hctx. }
  intros contextAnalysis. apply returns_bind.
  { unfold templateMatching. returns_step. }
  intros appliedTemplate. apply returns_bind.
  { unfold implementationPhase. apply returns_if; [ | apply returns_ret ].
    apply returns_bind; [ intros s; eexists _, s; reflexivity | intros relevant ].
    apply returns_bind; [ apply returns_call, Hprompts | intros _ ].
    apply returns_bind; [ apply returns_call, Himpl | intros impl ].
    apply returns_ret. }
  intros implemented. apply returns_bind.
  { unfold documentationPhase. apply returns_if; [ | apply returns_ret ].
    apply returns_bind; [ apply returns_getConfig | intros cfg ].
    apply returns_bind;
      [ apply returns_if; [ apply returns_call, Hdoc | apply returns_ret ] | intros _ ].
    apply returns_bind; [ | intros _; apply returns_ret ].
    apply returns_if; [ apply shareWithTeam_returns | apply returns_ret ]. }
  intros documentationCreated. apply returns_bind.
  { unfold teamNotification. cbv zeta.
    repeat apply returns_if; try apply returns_ret.
    intros s. eexists tt, _. reflexivity. }
  intros _. unfold completePhase.
  apply returns_bind; [ apply returns_ask | intros endTime ].
  apply returns_bind; [ apply returns_getConfig | intros cfg ].
  apply returns_bind; [ | intros _; apply returns_ret ].
  apply returns_if; [ apply returns_call, Hcomplete | apply returns_ret ].
Qed.

(** *** Failure containment *)

Lemma initializeSession_run developer errorDetails (s : State W) :
  unguardedMetricsCallsReturn s ->
  exists startTime sessionId s1,
    initializeSession developer errorDetails s = (Returned (startTime, sessionId), s1)
    /\ sessionOpened developer errorDetails startTime sessionId s s1.
Proof.
  intros Hcalls. unfold initializeSession, sessionOpened.
  unfold bind at 1. unfold ask at 1.
  destruct (Date_now (world s)) as [startTime w].
  unfold bind at 1. unfold getConfig at 1. simpl (config (withWorld s w)).
  destruct (metricsEnabled (config s)) eqn:Hon.
  - destruct (Hcalls Hon) as [Hstart _].
    specialize (Hstart developer (ErrorDetails.message errorDetails)
                       (ErrorDetails.component errorDetails) w).
    unfold bind, call, ret. simpl.
    destruct (startSession developer (ErrorDetails.message errorDetails)
                           (ErrorDetails.component errorDetails) w)
      as [[sessionId | e] w'] eqn:Hs; [ | discriminate Hstart ].
    exists startTime, sessionId, (withWorld (withWorld s w) w').
    split; [ reflexivity | ]. exists w. split; [ reflexivity | exact Hs ].
  - unfold bind, ask, ret. simpl.
    destruct (Date_now w) as [stamp w'] eqn:Hstamp.
    exists startTime, ("session-" ++ show_Z stamp), (withWorld (withWorld s w) w').
    split; [ reflexivity | ]. exists w. split; [ reflexivity | ].
    exists stamp. split; [ exact Hstamp | reflexivity ].
Qed.

Lemma workflowFailed_run startTime sessionId error (s : State W) :
  (metricsEnabled (config s) = true ->
   callReturns (completeSession sessionId (failedOutcome error))) ->
  exists endTime s',
    workflowFailed startTime sessionId error s
    = (Returned (failureResult sessionId (minutesBetween startTime endTime)), s')
    /\ sessionMarkedFailed sessionId error endTime s s'.
Proof.
  intros Hcomplete. unfold workflowFailed, sessionMarkedFailed.
  unfold bind at 1. unfold getConfig at 1.
  destruct (metricsEnabled (config s)).
  - specialize (Hcomplete eq_refl (world s)).
    unfold bind, call, ask, ret.
    destruct (completeSession sessionId (failedOutcome error) (world s))
      as [[[] | e] w] eqn:Hc; [ | discriminate Hcomplete ].
    simpl. destruct (Date_now w) as [endTime w'] eqn:Hnow.
    exists endTime, (withWorld (withWorld s w) w'). split; [ reflexivity | ].
    exists w. split; [ reflexivity | exact Hnow ].
  - unfold bind, ask, ret. simpl.
    destruct (Date_now (world s)) as [endTime w'] eqn:Hnow.
    exists endTime, (withWorld s w'). split; reflexivity.
Qed.

(** A run whose two unguarded metrics calls return: phase 1 opens the
    session, and the [try] block either returns its result or hands its
    exception to the [catch] block, which returns the failure result. *)
Lemma runCompleteWorkflow_contained developer errorDetails options (s : State W) :
  unguardedMetricsCallsReturn s ->
  exists startTime sessionId s1,
    initializeSession developer errorDetails s = (Returned (startTime, sessionId), s1)
    /\ sessionOpened developer errorDetails startTime sessionId s s1
    /\ match workflowBody (mergeConfig (config s) options) developer errorDetails
                          startTime sessionId s1 with
       | (Returned r, s2) =>
           runCompleteWorkflow developer errorDetails options s = (Returned r, s2)
           /\ BugXWorkflowResult.success r = true
       | (Threw error, s2) =>
           exists endTime s3 r,
             runCompleteWorkflow developer errorDetails options s = (Returned r, s3)
             /\ r = failureResult sessionId (minutesBetween startTime endTime)
             /\ BugXWorkflowResult.success r = false
             /\ BugXWorkflowResult.metrics r
                = {| WorkflowMetrics.efficiency := 0;
                     WorkflowMetrics.qualityScore := 0;
                     WorkflowMetrics.teamImpact := 0 |}
             /\ BugXWorkflowResult.recommendations r
                = ["Retry with manual debugging approach"; "Check system configuration"]
             /\ BugXWorkflowResult.nextSteps r
                = ["Review error logs"; "Validate input parameters"]
             /\ metricsEnabled (config s2) = metricsEnabled (config s)
             /\ sessionMarkedFailed sessionId error endTime s2 s3
       end.
Proof.
  intros Hcalls.
  destruct (initializeSession_run developer errorDetails s Hcalls)
    as (startTime & sessionId & s1 & Hinit & Hopened).
  exists startTime, sessionId, s1. split; [ exact Hinit | ]. split; [ exact Hopened | ].
  rewrite (runCompleteWorkflow_unfold _ _ options _ _ _ _ Hinit).
  unfold tryCatch.
  destruct (workflowBody (mergeConfig (config s) options) developer errorDetails
                         startTime sessionId s1) as [[r | error] s2] eqn:Hbody.
  - split; [ reflexivity | ].
    apply workflowBody_returned in Hbody. destruct Hbody.
    eapply completePhase_result; eauto.
  - assert (Hconfig : config s2 = config s).
    { rewrite (preserved config _ _ _ _ (workflowBody_config _ _ _ _ _) Hbody).
      exact (preserved config _ _ _ _
               (initializeSession_preserves config _ _ static_config) Hinit). }
    destruct (workflowFailed_run startTime sessionId error s2)
      as (endTime & s3 & Hrun & Hmarked).
    { rewrite Hconfig. intros Hon. apply (Hcalls Hon). }
    exists endTime, s3, (failureResult sessionId (minutesBetween startTime endTime)).
    repeat split; try assumption.
    now rewrite Hconfig.
Qed.

(** *** Template lookup misses *)

Lemma templateMatching_miss errorType (s : State W) :
  templates s !! errorType = None ->
  templateMatching errorType s = (Returned None, s).
Proof.
  intros Hmiss. unfold templateMatching, tryCatch, bind, getTemplate, CoreSystem.getTemplate.
  now rewrite Hmiss.
Qed.

(** C4: an error type with no registered template makes [getTemplate] fail
    with NotFound; phase 4 swallows that failure and leaves the state as it
    was; and when no collaborator throws, the workflow returns a result with
    success true, which has no applied template whenever the inferred error
    type is unregistered. *)
Theorem template_miss_is_not_a_failure developer errorDetails options (s : State W) :
  collaboratorsReturn ->
  (forall errorType, templates s !! errorType = None ->
     CoreSystem.getTemplate (templates s) errorType = Threw (NotFound errorType)
     /\ templateMatching errorType s = (Returned None, s))
  /\ exists r s',
       runCompleteWorkflow developer errorDetails options s = (Returned r, s')
       /\ BugXWorkflowResult.success r = true
       /\ (templates s !! inferErrorType (ErrorDetails.message errorDetails)
                                         (BugXWorkflowResult.patternMatches r) = None ->
           BugXWorkflowResult.appliedTemplate r = None
           /\ templates s' = templates s).
Proof.
  intros Hall. split.
  - intros errorType Hmiss. split; [ | now apply templateMatching_miss ].
    unfold CoreSystem.getTemplate. now rewrite Hmiss.
  - destruct (initializeSession_returns developer errorDetails (proj1 Hall) s)
      as ([startTime sessionId] & s1 & Hinit).
    destruct (workflowBody_returns (mergeConfig (config s) options) developer
                errorDetails startTime sessionId Hall s1) as (r & s' & Hbody).
    exists r, s'.
    rewrite (runCompleteWorkflow_unfold _ _ options _ _ _ _ Hinit).
    unfold tryCatch. rewrite Hbody. split; [ reflexivity | ].
    apply workflowBody_returned in Hbody.
    destruct Hbody as [pm aps ca tpl steps pms doc s2 s3 s4 s5 s6 s7 H2 H3 H4 H5 H6 H7 H8].
    destruct (completePhase_result _ _ _ _ _ _ _ _ _ _ _ _ _ H8)
      as (Hsuccess & _ & Hpm & _ & Htpl).
    split; [ exact Hsuccess | ].
    rewrite Hpm, Htpl. intros Hmiss.
    assert (Ht3 : templates s3 = templates s).
    { rewrite (preserved templates _ _ _ _
                 (contextAnalysisPhase_preserves templates _ _ _ static_templates) H3).
      rewrite (preserved templates _ _ _ _
                 (patternRecognition_preserves templates _ _ static_templates) H2).
      exact (preserved templates _ _ _ _
               (initializeSession_preserves templates _ _ static_templates) Hinit). }
    rewrite templateMatching_miss in H4 by (now rewrite Ht3).
    inversion H4; subst tpl s4. split; [ reflexivity | ].
    rewrite (preserved templates _ _ _ _
               (completePhase_preserves templates _ _ _ _ _ _ _ _ _ _ static_templates) H8).
    rewrite (preserved templates _ _ _ _ (teamNotification_templates _ _ _ _) H7).
    rewrite (preserved templates _ _ _ _
               (documentationPhase_templates _ _ _ _ _ _ _ _ _ _) H6).
    rewrite (preserved templates _ _ _ _
               (implementationPhase_preserves templates _ _ _ _ _ _ static_templates) H5).
    exact Ht3.
Qed.

(** *** Team notification *)

Lemma teamNotification_run workflowConfig developer antiPatterns sessionId (s : State W) :
  exists s',
    teamNotification workflowConfig developer antiPatterns sessionId s = (Returned tt, s')
    /\ notifications s'
       = if notificationDue workflowConfig antiPatterns
         then push (notifications s) (notificationOf developer antiPatterns sessionId)
         else notifications s.
Proof.
  unfold teamNotification, notificationDue. cbv zeta.
  destruct (TeamIntegration.notifyOnCritical (teamIntegration workflowConfig)); simpl.
  - destruct (existsb isCriticalPattern antiPatterns).
    + eexists. split; reflexivity.
    + exists s. split; reflexivity.
  - exists s. split; reflexivity.
Qed.



End Workflow.

Arguments M W A : clear implicits.

(** *** Runs with metrics disabled

    With [metricsEnabled] off in the static configuration a run makes no
    call of the metrics collector: it is the same run whatever the
    collector does. *)

Section MetricsDisabled.

Context {W : Type} (C C' : Collaborators W) (Hsame : sameOutsideMetrics C C').

Lemma bind_agree {A B : Type} (m m' : M W A) (k k' : A -> M W B) (s : State W) :
  m' s = m s ->
  (forall a s1, m s = (Returned a, s1) -> k' a s1 = k a s1) ->
  bind m' k' s = bind m k s.
Proof.
  intros Hm Hk. unfold bind. rewrite Hm.
  destruct (m s) as [[a | e] s1] eqn:E; [ apply Hk; reflexivity | reflexivity ].
Qed.

Lemma call_agree {A : Type} (op op' : W -> Res JsError A * W) (s : State W) :
  (forall w, op' w = op w) -> call op' s = call op s.
Proof. intros H. unfold call. now rewrite H. Qed.

Lemma ask_agree {A : Type} (op op' : W -> A * W) (s : State W) :
  (forall w, op' w = op w) -> ask op' s = ask op s.
Proof. intros H. unfold ask. now rewrite H. Qed.

Lemma getConfig_run (s s1 : State W) (cfg : BugXWorkflowConfig.t) :
  getConfig s = (Returned cfg, s1) -> cfg = config s /\ s1 = s.
Proof. unfold getConfig. intros H. now inversion H. Qed.

Lemma shareWithTeam_agree title errorSignature solution prevention sharedBy (s : State W) :
  shareWithTeam (collaborators := C') title errorSignature solution prevention sharedBy s
  = shareWithTeam (collaborators := C) title errorSignature solution prevention sharedBy s.
Proof.
  destruct Hsame as (Hdate & Hrandom & _). unfold shareWithTeam.
  apply bind_agree; [ apply ask_agree, Hdate | intros stamp s1 _ ].
  apply bind_agree; [ apply ask_agree, Hrandom | intros suffix s2 _ ].
  apply bind_agree; [ apply ask_agree, Hdate | intros sharedAt s3 _ ].
  reflexivity.
Qed.

Lemma initializeSession_agree developer errorDetails (s : State W) :
  metricsEnabled (config s) = false ->
  initializeSession (collaborators := C') developer errorDetails s
  = initializeSession (collaborators := C) developer errorDetails s.
Proof.
  intros Hoff. destruct Hsame as (Hdate & _). unfold initializeSession.
  apply bind_agree; [ apply ask_agree, Hdate | intros startTime s1 H1 ].
  apply bind_agree; [ reflexivity | intros cfg s2 H2 ].
  apply getConfig_run in H2 as [-> ->].
  rewrite (preserved config _ _ _ _ (preserves_ask config static_config _) H1), Hoff.
  apply bind_agree; [ | intros; reflexivity ].
  apply bind_agree; [ apply ask_agree, Hdate | intros; reflexivity ].
Qed.

Lemma patternRecognition_agree workflowConfig errorDetails (s : State W) :
  patternRecognition (collaborators := C') workflowConfig errorDetails s
  = patternRecognition (collaborators := C) workflowConfig errorDetails s.
Proof.
  destruct Hsame as (_ & _ & Herr & Hanti & _). unfold patternRecognition.
  destruct (patternRecognitionEnabled workflowConfig); [ | reflexivity ].
  apply bind_agree; [ apply call_agree; intros w; apply Herr | intros pm s1 _ ].
  apply bind_agree; [ apply call_agree; intros w; apply Hanti | intros; reflexivity ].
Qed.

Lemma contextAnalysisPhase_agree errorDetails patternMatches antiPatterns (s : State W) :
  contextAnalysisPhase (collaborators := C') errorDetails patternMatches antiPatterns s
  = contextAnalysisPhase (collaborators := C) errorDetails patternMatches antiPatterns s.
Proof.
  destruct Hsame as (_ & _ & _ & _ & Hctx & _). unfold contextAnalysisPhase.
  apply call_agree; intros w; apply Hctx.
Qed.

Lemma implementationPhase_agree workflowConfig errorDetails errorType contextAnalysis
    patternMatches appliedTemplate (s : State W) :
  implementationPhase (collaborators := C') workflowConfig errorDetails errorType
                      contextAnalysis patternMatches appliedTemplate s
  = implementationPhase (collaborators := C) workflowConfig errorDetails errorType
                        contextAnalysis patternMatches appliedTemplate s.
Proof.
  destruct Hsame as (_ & _ & _ & _ & _ & Hprompts & Himpl). unfold implementationPhase.
  destruct (aiAssisted workflowConfig); [ | reflexivity ].
  apply bind_agree; [ reflexivity | intros relevant s1 _ ].
  apply bind_agree; [ apply call_agree; intros w; apply Hprompts | intros _ s2 _ ].
  apply bind_agree; [ apply call_agree; intros w; apply Himpl | intros; reflexivity ].
Qed.

Lemma documentationPhase_agree workflowConfig developer errorDetails errorType
    contextAnalysis appliedTemplate implementationSteps preventionMeasures
    patternMatches antiPatterns (s : State W) :
  metricsEnabled (config s) = false ->
  documentationPhase (collaborators := C') workflowConfig developer errorDetails
                     errorType contextAnalysis appliedTemplate implementationSteps
                     preventionMeasures patternMatches antiPatterns s
  = documentationPhase (collaborators := C) workflowConfig developer errorDetails
                       errorType contextAnalysis appliedTemplate implementationSteps
                       preventionMeasures patternMatches antiPatterns s.
Proof.
  intros Hoff. unfold documentationPhase.
  destruct (documentationRequired workflowConfig); [ | reflexivity ]. cbv zeta.
  apply bind_agree; [ reflexivity | intros cfg s1 H1 ].
  apply getConfig_run in H1 as [-> ->]. rewrite Hoff.
  apply bind_agree; [ reflexivity | intros _ s2 _ ].
  apply bind_agree; [ | intros; reflexivity ].
  destruct (TeamIntegration.sharePatterns (teamIntegration workflowConfig));
    [ apply shareWithTeam_agree | reflexivity ].
Qed.

Lemma completePhase_agree workflowConfig startTime sessionId patternMatches antiPatterns
    contextAnalysis appliedTemplate preventionMeasures qualityScore documentationCreated
    (s : State W) :
  metricsEnabled (config s) = false ->
  completePhase (collaborators := C') workflowConfig startTime sessionId patternMatches
                antiPatterns contextAnalysis appliedTemplate preventionMeasures
                qualityScore documentationCreated s
  = completePhase (collaborators := C) workflowConfig startTime sessionId patternMatches
                  antiPatterns contextAnalysis appliedTemplate preventionMeasures
                  qualityScore documentationCreated s.
Proof.
  intros Hoff. destruct Hsame as (Hdate & _). unfold completePhase.
  apply bind_agree; [ apply ask_agree, Hdate | intros endTime s1 H1 ]. cbv zeta.
  apply bind_agree; [ reflexivity | intros cfg s2 H2 ].
  apply getConfig_run in H2 as [-> ->].
  rewrite (preserved config _ _ _ _ (preserves_ask config static_config _) H1), Hoff.
  reflexivity.
Qed.

Lemma workflowFailed_agree startTime sessionId error (s : State W) :
  metricsEnabled (config s) = false ->
  workflowFailed (collaborators := C') startTime sessionId error s
  = workflowFailed (collaborators := C) startTime sessionId error s.
Proof.
  intros Hoff. destruct Hsame as (Hdate & _). unfold workflowFailed.
  apply bind_agree; [ reflexivity | intros cfg s1 H1 ].
  apply getConfig_run in H1 as [-> ->]. rewrite Hoff.
  apply bind_agree; [ reflexivity | intros _ s2 _ ].
  apply bind_agree; [ apply ask_agree, Hdate | intros; reflexivity ].
Qed.

Lemma workflowBody_agree workflowConfig developer errorDetails startTime sessionId
    (s : State W) :
  metricsEnabled (config s) = false ->
  workflowBody (collaborators := C') workflowConfig developer errorDetails
               startTime sessionId s
  = workflowBody (collaborators := C) workflowConfig developer errorDetails
                 startTime sessionId s.
Proof.
  intros Hoff. unfold workflowBody.
  apply bind_agree; [ apply patternRecognition_agree | intros [pm aps] s2 H2 ].
  cbv zeta. simpl fst. simpl snd.
  assert (E2 : config s2 = config s)
    by exact (preserved config _ _ _ _
                (patternRecognition_preserves config _ _ static_config) H2).
  apply bind_agree; [ apply contextAnalysisPhase_agree | intros ca s3 H3 ].
  assert (E3 : config s3 = config s).
  { rewrite <- E2.
    exact (preserved config _ _ _ _
             (contextAnalysisPhase_preserves config _ _ _ static_config) H3). }
  apply bind_agree; [ reflexivity | intros tpl s4 H4 ].
  assert (E4 : config s4 = config s).
  { rewrite <- E3. exact (preserved config _ _ _ _ (templateMatching_config _) H4). }
  apply bind_agree; [ apply implementationPhase_agree | intros [steps pms] s5 H5 ].
  simpl fst. simpl snd.
  assert (E5 : config s5 = config s).
  { rewrite <- E4.
    exact (preserved config _ _ _ _
             (implementationPhase_preserves config _ _ _ _ _ _ static_config) H5). }
  apply bind_agree;
    [ apply documentationPhase_agree; now rewrite E5 | intros doc s6 H6 ].
  assert (E6 : config s6 = config s).
  { rewrite <- E5.
    exact (preserved config _ _ _ _ (documentationPhase_config _ _ _ _ _ _ _ _ _ _) H6). }
  apply bind_agree; [ reflexivity | intros [] s7 H7 ].
  apply completePhase_agree.
  rewrite (preserved config _ _ _ _ (teamNotification_config _ _ _ _) H7).
  now rewrite E6.
Qed.

Lemma runCompleteWorkflow_agree developer errorDetails options (s : State W) :
  metricsEnabled (config s) = false ->
  runCompleteWorkflow (collaborators := C') developer errorDetails options s
  = runCompleteWorkflow (collaborators := C) developer errorDetails options s.
Proof.
  intros Hoff. unfold runCompleteWorkflow.
  apply bind_agree; [ reflexivity | intros cfg s0 H0 ].
  apply getConfig_run in H0 as [-> ->]. cbv zeta.
  apply bind_agree;
    [ now apply initializeSession_agree | intros [startTime sessionId] s1 H1 ].
  simpl fst. simpl snd.
  assert (E1 : config s1 = config s)
    by exact (preserved config _ _ _ _
                (initializeSession_preserves config _ _ static_config) H1).
  unfold tryCatch.
  rewrite workflowBody_agree by (now rewrite E1).
  destruct (workflowBody (collaborators := C) (mergeConfig (config s) options)
              developer errorDetails startTime sessionId s1) as [[r | e] s2] eqn:Hbody;
    [ reflexivity | ].
  apply workflowFailed_agree.
  rewrite (preserved config _ _ _ _ (workflowBody_config _ _ _ _ _) Hbody).
  now rewrite E1.
Qed.

End MetricsDisabled.

(** C2, amended: provided the two metrics-collector calls outside the [try]
    block -- [startSession] in phase 1 and [completeSession] with the failure
    outcome in the [catch] block, both made only with metrics enabled --
    return normally, [runCompleteWorkflow] returns a result whatever phases 2
    to 10 do, the call of [completeSession] in phase 9 included.  Phase 1
    opens the session.  When the [try] block throws, the result is the
    failure result (success false, metrics all zero, the two default
    recommendations and next steps), and the session opened in phase 1 is
    completed as failed if metrics are enabled.  With metrics disabled the
    session id is built from the clock and the run is the same whatever the
    metrics collector would do: it is not called. *)
Theorem workflow_failure_is_contained {W : Type} (C : Collaborators W)
    developer errorDetails options (s : State W) :
  unguardedMetricsCallsReturn (collaborators := C) s ->
  (exists startTime sessionId s1,
     initializeSession (collaborators := C) developer errorDetails s
     = (Returned (startTime, sessionId), s1)
     /\ sessionOpened (collaborators := C) developer errorDetails startTime sessionId s s1
     /\ match workflowBody (collaborators := C) (mergeConfig (config s) options)
                           developer errorDetails startTime sessionId s1 with
        | (Returned r, s2) =>
            runCompleteWorkflow (collaborators := C) developer errorDetails options s
            = (Returned r, s2)
            /\ BugXWorkflowResult.success r = true
        | (Threw error, s2) =>
            exists endTime s3 r,
              runCompleteWorkflow (collaborators := C) developer errorDetails options s
              = (Returned r, s3)
              /\ r = failureResult sessionId (minutesBetween startTime endTime)
              /\ BugXWorkflowResult.success r = false
              /\ BugXWorkflowResult.metrics r
                 = {| WorkflowMetrics.efficiency := 0;
                      WorkflowMetrics.qualityScore := 0;
                      WorkflowMetrics.teamImpact := 0 |}
              /\ BugXWorkflowResult.recommendations r
                 = ["Retry with manual debugging approach"; "Check system configuration"]
              /\ BugXWorkflowResult.nextSteps r
                 = ["Review error logs"; "Validate input parameters"]
              /\ metricsEnabled (config s2) = metricsEnabled (config s)
              /\ sessionMarkedFailed (collaborators := C) sessionId error endTime s2 s3
        end)
  /\ (metricsEnabled (config s) = false ->
      forall C' : Collaborators W,
        sameOutsideMetrics C C' ->
        runCompleteWorkflow (collaborators := C') developer errorDetails options s
        = runCompleteWorkflow (collaborators := C) developer errorDetails options s).
Proof.
  intros Hcalls. split.
  - now apply runCompleteWorkflow_contained.
  - intros Hoff C' Hsame. now apply runCompleteWorkflow_agree.
Qed.

(** *** The team-knowledge list and worked runs *)

Example show_hundredths_ex :
  map show_hundredths [0; 5; 50; 125; 300; -207]
  = ["0"; "0.05"; "0.5"; "1.25"; "3"; "-2.07"].
Proof. reflexivity. Qed.

Example feedback_saturates :
  map TeamKnowledgeEntry.effectiveness
      (applyOps (Share "team-1" 0 "t" "sig" "s" "p" "dev"
                 :: repeat (Feedback "team-1" true None) 9))
  = [100].
Proof. reflexivity. Qed.

Example feedback_floors :
  map TeamKnowledgeEntry.effectiveness
      (applyOps (Share "team-1" 0 "t" "sig" "s" "p" "dev"
                 :: Share "team-2" 1 "t" "sig" "s" "p" "dev"
                 :: repeat (Feedback "team-2" false (Some "no")) 18))
  = [85; 0].
Proof. reflexivity. Qed.

Lemma applyFeedback_effectiveness (helpful : bool) (comment : option string)
    (entry : TeamKnowledgeEntry.t) :
  TeamKnowledgeEntry.effectiveness (applyFeedback helpful comment entry)
  = if helpful then Z.min 100 (TeamKnowledgeEntry.effectiveness entry + 2)
    else Z.max 0 (TeamKnowledgeEntry.effectiveness entry - 5).
Proof. reflexivity. Qed.

Lemma applyFeedback_inRange (helpful : bool) (comment : option string)
    (entry : TeamKnowledgeEntry.t) :
  effectivenessInRange entry ->
  effectivenessInRange (applyFeedback helpful comment entry).
Proof.
  unfold effectivenessInRange. rewrite applyFeedback_effectiveness.
  destruct helpful; lia.
Qed.

Lemma recordFeedback_inRange (entryId : string) (helpful : bool)
    (comment : option string) (teamKnowledge : list TeamKnowledgeEntry.t) :
  Forall effectivenessInRange teamKnowledge ->
  Forall effectivenessInRange
         (recordTeamKnowledgeFeedback entryId helpful comment teamKnowledge).
Proof.
  induction 1 as [ | entry rest Hentry Hrest IH ]; simpl.
  - constructor.
  - destruct (String.eqb (TeamKnowledgeEntry.id entry) entryId).
    + constructor; [ now apply applyFeedback_inRange | exact Hrest ].
    + constructor; assumption.
Qed.

Lemma applyOp_inRange (teamKnowledge : list TeamKnowledgeEntry.t) (op : KnowledgeOp) :
  Forall effectivenessInRange teamKnowledge ->
  Forall effectivenessInRange (applyOp teamKnowledge op).
Proof.
  intros H. destruct op; simpl.
  - unfold push. apply Forall_app. split; [ exact H | ].
    constructor; [ | constructor ]. unfold effectivenessInRange. simpl. lia.
  - now apply recordFeedback_inRange.
Qed.

Lemma fold_applyOp_inRange (ops : list KnowledgeOp)
    (teamKnowledge : list TeamKnowledgeEntry.t) :
  Forall effectivenessInRange teamKnowledge ->
  Forall effectivenessInRange (fold_left applyOp ops teamKnowledge).
Proof.
  revert teamKnowledge. induction ops as [ | op ops IH ]; intros tk H; simpl.
  - exact H.
  - apply IH, applyOp_inRange, H.
Qed.

Lemma recordFeedback_at_first_match (entryId : string) (helpful : bool)
    (comment : option string) (before : list TeamKnowledgeEntry.t)
    (entry : TeamKnowledgeEntry.t) (after : list TeamKnowledgeEntry.t) :
  TeamKnowledgeEntry.id entry = entryId ->
  Forall (fun other => TeamKnowledgeEntry.id other <> entryId) before ->
  recordTeamKnowledgeFeedback entryId helpful comment (before ++ entry :: after)%list
  = (before ++ applyFeedback helpful comment entry :: after)%list.
Proof.
  intros Hid Hbefore. induction Hbefore as [ | other before Hother _ IH ]; simpl.
  - apply String.eqb_eq in Hid. now rewrite Hid.
  - apply String.eqb_neq in Hother. rewrite Hother. now rewrite IH.
Qed.

Lemma recordFeedback_without_match (entryId : string) (helpful : bool)
    (comment : option string) (teamKnowledge : list TeamKnowledgeEntry.t) :
  Forall (fun other => TeamKnowledgeEntry.id other <> entryId) teamKnowledge ->
  recordTeamKnowledgeFeedback entryId helpful comment teamKnowledge = teamKnowledge.
Proof.
  induction 1 as [ | other rest Hother _ IH ]; simpl.
  - reflexivity.
  - apply String.eqb_neq in Hother. rewrite Hother. now rewrite IH.
Qed.

Lemma shareWithTeam_shares {W : Type} (C : Collaborators W)
    title errorSignature solution prevention sharedBy (s : State W) :
  exists id sharedAt s',
    shareWithTeam (collaborators := C) title errorSignature solution prevention sharedBy s
    = (Returned tt, s')
    /\ teamKnowledge s'
       = applyOp (teamKnowledge s)
                 (Share id sharedAt title errorSignature solution prevention sharedBy).
Proof.
  unfold shareWithTeam, bind, ask.
  destruct (Date_now (world s)) as [stamp w1]. simpl.
  destruct (Math_random_id w1) as [suffix w2]. simpl.
  destruct (Date_now w2) as [sharedAt w3]. simpl.
  eexists _, _, _. split; reflexivity.
Qed.

(** C6: after any sequence of [shareWithTeam] pushes and
    [recordTeamKnowledgeFeedback] calls, every entry's effectiveness lies
    in [0,100].  [shareWithTeam] never throws and appends one entry, whose
    effectiveness is 85.  [recordTeamKnowledgeFeedback] replaces the first
    entry with the given id, in place, by one whose effectiveness is the
    old one plus 2 capped at 100 if the feedback is helpful, and minus 5
    floored at 0 if it is not; the entries around it stay as they are, and
    an id that no entry has changes nothing. *)
Theorem effectiveness_stays_in_range (ops : list KnowledgeOp) :
  Forall (fun entry => 0 <= TeamKnowledgeEntry.effectiveness entry <= 100)
         (applyOps ops)
  /\ (forall (W : Type) (C : Collaborators W)
             title errorSignature solution prevention sharedBy (s : State W),
        exists id sharedAt entry s',
          shareWithTeam (collaborators := C)
                        title errorSignature solution prevention sharedBy s
          = (Returned tt, s')
          /\ teamKnowledge s'
             = applyOp (teamKnowledge s)
                       (Share id sharedAt title errorSignature solution prevention sharedBy)
          /\ teamKnowledge s' = push (teamKnowledge s) entry
          /\ TeamKnowledgeEntry.effectiveness entry = 85)
  /\ (forall entryId helpful comment before entry after,
        TeamKnowledgeEntry.id entry = entryId ->
        Forall (fun other => TeamKnowledgeEntry.id other <> entryId) before ->
        exists updated,
          applyOp (before ++ entry :: after)%list (Feedback entryId helpful comment)
          = recordTeamKnowledgeFeedback entryId helpful comment
                                        (before ++ entry :: after)%list
          /\ recordTeamKnowledgeFeedback entryId helpful comment
                                         (before ++ entry :: after)%list
             = (before ++ updated :: after)%list
          /\ TeamKnowledgeEntry.effectiveness updated
             = if helpful
               then Z.min 100 (TeamKnowledgeEntry.effectiveness entry + 2)
               else Z.max 0 (TeamKnowledgeEntry.effectiveness entry - 5))
  /\ (forall entryId helpful comment teamKnowledge,
        Forall (fun other => TeamKnowledgeEntry.id other <> entryId) teamKnowledge ->
        recordTeamKnowledgeFeedback entryId helpful comment teamKnowledge
        = teamKnowledge).
Proof.
  split; [ apply (fold_applyOp_inRange ops []); constructor | ].
  split; [ | split ].
  - intros W C title errorSignature solution prevention sharedBy s.
    destruct (shareWithTeam_shares C title errorSignature solution prevention sharedBy s)
      as (id & sharedAt & s' & Hrun & Hshared).
    exists id, sharedAt,
           (newTeamEntry id sharedAt title errorSignature solution prevention sharedBy),
           s'.
    split; [ exact Hrun | ]. split; [ exact Hshared | ]. split; [ exact Hshared | ].
    reflexivity.
  - intros entryId helpful comment before entry after Hid Hbefore.
    exists (applyFeedback helpful comment entry).
    split; [ reflexivity | ].
    split; [ now apply recordFeedback_at_first_match | ].
    apply applyFeedback_effectiveness.
  - intros entryId helpful comment teamKnowledge.
    apply recordFeedback_without_match.
Qed.

Lemma scripted_metricsCollectorReturns (failing : list string) :
  existsb (String.eqb "startSession") failing = false ->
  existsb (String.eqb "completeSession") failing = false ->
  metricsCollectorReturns (collaborators := scripted failing).
Proof.
  intros Hstart Hcomplete. split; intros; intros w; simpl; unfold scriptedCall.
  - now rewrite Hstart.
  - now rewrite Hcomplete.
Qed.

Lemma scripted_collaboratorsReturn : collaboratorsReturn (collaborators := scripted []).
Proof.
  split; [ now apply scripted_metricsCollectorReturns | ].
  repeat split; intros; intros w; reflexivity.
Qed.

Example hydration_run :
  let out := runCompleteWorkflow (collaborators := scripted [])
               "dev" hydrationError quickFixOptions
               (startState DEFAULT_CONFIG [hydrationMatch] [randomInState; inlineStyle]) in
  option_map (fun r => (BugXWorkflowResult.success r,
                        BugXWorkflowResult.documentationCreated r,
                        WorkflowMetrics.qualityScore (BugXWorkflowResult.metrics r)))
             (match fst out with Returned r => Some r | Threw _ => None end)
  = Some (true, true, 99)
  /\ map TeamKnowledgeEntry.id (teamKnowledge (snd out)) = ["team-1700000001000-k3f9x2a1b"]
  /\ length (notifications (snd out)) = 1%nat.
Proof. vm_compute. repeat split. Qed.

(** C2 as stated fails twice over.  Phase 1 runs before the [try] block, so
    an exception of [startSession] reaches the caller; and with metrics
    disabled a failed run makes no call of the metrics collector at all, so
    no session is marked complete. *)
Lemma workflow_exception_can_escape :
  fst (runCompleteWorkflow (collaborators := scripted ["startSession"])
         "dev" hydrationError quickFixOptions
         (startState DEFAULT_CONFIG [hydrationMatch] [randomInState]))
  = Threw (Failure "startSession failed")
  /\ (let out := runCompleteWorkflow (collaborators := scripted ["analyzeContext"])
                   "dev" hydrationError quickFixOptions
                   (startState metricsDisabled [hydrationMatch] [randomInState]) in
      fst out = Returned (failureResult "session-1700000001000" 0.03%Q)
      /\ calls (world (snd out))
         = ["Date.now"; "Date.now"; "analyzeError"; "detectAntiPatterns";
            "analyzeContext"; "Date.now"])
  /\ ~ (forall (W : Type) (C : Collaborators W) developer errorDetails options
               (s : State W),
          exists r s',
            runCompleteWorkflow developer errorDetails options s = (Returned r, s')).
Proof.
  split; [ vm_compute; reflexivity | ]. split; [ vm_compute; split; reflexivity | ].
  intros H.
  destruct (H Script (scripted ["startSession"]) "dev" hydrationError quickFixOptions
              (startState DEFAULT_CONFIG [hydrationMatch] [randomInState]))
    as (r & s' & Hrun).
  vm_compute in Hrun. discriminate Hrun.
Qed.

Example rejected_success_is_contained :
  let out := runCompleteWorkflow (collaborators := rejectingSuccess)
               "dev" hydrationError quickFixOptions
               (startState DEFAULT_CONFIG [hydrationMatch] [randomInState]) in
  option_map BugXWorkflowResult.success
             (match fst out with Returned r => Some r | Threw _ => None end)
  = Some false
  /\ calls (world (snd out))
     = ["Date.now"; "startSession"; "analyzeError"; "detectAntiPatterns";
        "analyzeContext"; "generateWorkflowPrompts"; "generateImplementation";
        "addDocumentation"; "Date.now"; "Math.random"; "Date.now"; "Date.now";
        "completeSession"; "completeSession"; "Date.now"].
Proof. vm_compute. split; reflexivity. Qed.

Lemma rejectingSuccess_unguarded (s : State Script) :
  unguardedMetricsCallsReturn (collaborators := rejectingSuccess) s.
Proof. intros _. split; intros; intros w; reflexivity. Qed.

Lemma brokenCollector_sameOutsideMetrics : sameOutsideMetrics (scripted []) brokenCollector.
Proof. repeat split. Qed.

Lemma workflow_failure_is_contained_witness :
  unguardedMetricsCallsReturn (collaborators := rejectingSuccess)
    (startState DEFAULT_CONFIG [hydrationMatch] [randomInState])
  /\ (exists r s',
        runCompleteWorkflow (collaborators := rejectingSuccess)
          "dev" hydrationError quickFixOptions
          (startState DEFAULT_CONFIG [hydrationMatch] [randomInState])
        = (Returned r, s')
        /\ BugXWorkflowResult.success r = false
        /\ calls (world s')
           = ["Date.now"; "startSession"; "analyzeError"; "detectAntiPatterns";
              "analyzeContext"; "generateWorkflowPrompts"; "generateImplementation";
              "addDocumentation"; "Date.now"; "Math.random"; "Date.now"; "Date.now";
              "completeSession"; "completeSession"; "Date.now"])
  /\ unguardedMetricsCallsReturn (collaborators := scripted [])
       (startState metricsDisabled [hydrationMatch] [randomInState])
  /\ runCompleteWorkflow (collaborators := brokenCollector)
       "dev" hydrationError quickFixOptions
       (startState metricsDisabled [hydrationMatch] [randomInState])
     = runCompleteWorkflow (collaborators := scripted [])
         "dev" hydrationError quickFixOptions
         (startState metricsDisabled [hydrationMatch] [randomInState]).
Proof.
  assert (Hoff : unguardedMetricsCallsReturn (collaborators := scripted [])
                   (startState metricsDisabled [hydrationMatch] [randomInState]))
    by (intros Hon; discriminate Hon).
  split; [ apply rejectingSuccess_unguarded | ]. split; [ | split; [ exact Hoff | ] ].
  - destruct (workflow_failure_is_contained rejectingSuccess
                "dev" hydrationError quickFixOptions
                (startState DEFAULT_CONFIG [hydrationMatch] [randomInState])
                (rejectingSuccess_unguarded _))
      as ((startTime & sessionId & s1 & Hinit & _ & Hbody) & _).
    match type of Hbody with
    | match ?b with _ => _ end => destruct b as [[r0 | error] s2] eqn:Hthrew
    end.
    { vm_compute in Hinit. inversion Hinit; subst startTime sessionId s1.
      vm_compute in Hthrew. discriminate Hthrew. }
    destruct Hbody as (endTime & s3 & r & Hrun & Hr & Hsuccess & _).
    exists r, s3. split; [ exact Hrun | ]. split; [ exact Hsuccess | ].
    vm_compute in Hrun. inversion Hrun; subst s3.
    reflexivity.
  - destruct (workflow_failure_is_contained (scripted [])
                "dev" hydrationError quickFixOptions
                (startState metricsDisabled [hydrationMatch] [randomInState]) Hoff)
      as (_ & Hsame).
    exact (Hsame eq_refl brokenCollector brokenCollector_sameOutsideMetrics).
Defined.

Lemma template_miss_is_not_a_failure_witness :
  collaboratorsReturn (collaborators := scripted [])
  /\ templates (startState DEFAULT_CONFIG [] [inlineStyle]) !! "validation_error" = None
  /\ exists r s',
       runCompleteWorkflow (collaborators := scripted [])
         "dev" validationError quickFixOptions (startState DEFAULT_CONFIG [] [inlineStyle])
       = (Returned r, s')
       /\ BugXWorkflowResult.success r = true
       /\ BugXWorkflowResult.appliedTemplate r = None.
Proof.
  split; [ exact scripted_collaboratorsReturn | ]. split; [ reflexivity | ].
  destruct (template_miss_is_not_a_failure (collaborators := scripted [])
              "dev" validationError quickFixOptions
              (startState DEFAULT_CONFIG [] [inlineStyle]) scripted_collaboratorsReturn)
    as (_ & r & s' & Hrun & Hsuccess & Hmiss).
  exists r, s'. split; [ exact Hrun | ]. split; [ exact Hsuccess | ].
  apply Hmiss.
  vm_compute in Hrun. inversion Hrun; subst r. reflexivity.
Defined.



End Integration.

(** ** More about the orchestrator's helpers ([integration.ts]) *)

Module IntegrationFacts.

Import Integration.

(** The message [generateRecommendations] falls back to. *)
Definition excellentWork : string :=
  "Excellent work! Continue with current practices.".

(** The two steps [generateNextSteps] always ends with. *)
Definition closingSteps : list string :=
  ["Test thoroughly to ensure fix works across all scenarios";
   "Monitor for similar issues in related components"].

(** The keys [inferErrorType] can answer. *)
Definition errorTypeKeys : list string :=
  ["hydration_error"; "scope_error"; "null_reference"; "api_integration";
   "validation_error"; "generic_error"].

(** The filter of [getRelevantTeamKnowledge]. *)
Definition relevantTo (errorType : string) (entry : TeamKnowledgeEntry.t) : bool :=
  includes (TeamKnowledgeEntry.errorSignature entry) errorType
  || includes (toLowerCase (TeamKnowledgeEntry.title entry)) (toLowerCase errorType).

(** The best match, if any, does not exceed the confidence of 70 that
    [inferErrorType] asks for. *)
Definition lowConfidence (patternMatches : list PatternMatch.t) : Prop :=
  match patternMatches with
  | [] => True
  | m :: _ => (PatternMatch.confidence m <= 70)%Q
  end.

(** A hydration match at 60 percent confidence. *)
Definition weakHydrationMatch : PatternMatch.t :=
  {| PatternMatch.signature := PatternRecognition.hydrationSignature;
     PatternMatch.confidence := 60%Q;
     PatternMatch.matchedKeywords := ["hydration"];
     PatternMatch.matchedContextClues := [];
     PatternMatch.recommendation := "" |}.

(** Entries in non-increasing order of effectiveness. *)
Definition byEffectiveness (a b : TeamKnowledgeEntry.t) : Prop :=
  TeamKnowledgeEntry.effectiveness b <= TeamKnowledgeEntry.effectiveness a.

Definition entryIds (teamKnowledge : list TeamKnowledgeEntry.t) : list string :=
  map TeamKnowledgeEntry.id teamKnowledge.

Lemma floor_half (n : Z) : Qfloor (inject_Z n + (1 # 2)) = n.
Proof.
  unfold Qfloor, Qplus, inject_Z. cbn [Qnum Qden].
  symmetry. apply Z.div_unique with 1; lia.
Qed.

Lemma Math_round_inject (n : Z) : Math_round (inject_Z n) = n.
Proof. apply floor_half. Qed.

Lemma Math_round_le (x : Q) (n : Z) : (x <= inject_Z n)%Q -> Math_round x <= n.
Proof.
  intros Hx. rewrite <- (Math_round_inject n). now apply Quality.Math_round_mono.
Qed.

Lemma Math_round_ge (x : Q) (n : Z) : (inject_Z n <= x)%Q -> n <= Math_round x.
Proof.
  intros Hx. rewrite <- (Math_round_inject n) at 1. now apply Quality.Math_round_mono.
Qed.

Lemma Qdiv_le_one (t a : Q) : (0 <= a)%Q -> (t <= a)%Q -> (t / a <= 1)%Q.
Proof.
  intros Ha Hta. destruct (Qlt_le_dec 0 a) as [Hpos | Hle].
  - apply Qle_shift_div_r; [ exact Hpos | ]. now rewrite Qmult_1_l.
  - assert (Hz : (a == 0)%Q) by (now apply Qle_antisym).
    unfold Qdiv. rewrite Hz. rewrite Qmult_0_r. discriminate.
Qed.

Lemma Qdiv_antitone (t a b : Q) :
  (0 <= t)%Q -> (0 < a)%Q -> (a <= b)%Q -> (t / b <= t / a)%Q.
Proof.
  intros Ht Ha Hab.
  assert (Hb : (0 < b)%Q) by (now apply Qlt_le_trans with a).
  apply Qle_shift_div_r; [ exact Hb | ].
  apply Qle_trans with (t / a * a)%Q.
  - unfold Qdiv. rewrite <- Qmult_assoc, (Qmult_comm (/ a)), Qmult_inv_r, Qmult_1_r.
    + apply Qle_refl.
    + intros H. rewrite H in Ha. discriminate Ha.
  - rewrite !(Qmult_comm (t / a)).
    apply Qmult_le_compat_r; [ exact Hab | ].
    apply Qle_shift_div_l; [ exact Ha | ]. now rewrite Qmult_0_l.
Qed.

(** Efficiency is a percentage: for a non-negative time it lies in [0,100],
    it is 100 exactly within the target, and it does not grow when more
    time is spent against a positive target. *)
Theorem efficiency_is_a_percentage (actualTime targetTime : Q) :
  (0 <= actualTime)%Q ->
  0 <= calculateEfficiency actualTime targetTime <= 100
  /\ ((actualTime <= targetTime)%Q -> calculateEfficiency actualTime targetTime = 100)
  /\ (forall later : Q, (0 < targetTime)%Q -> (actualTime <= later)%Q ->
        calculateEfficiency later targetTime <= calculateEfficiency actualTime targetTime).
Proof.
  intros Hpos.
  assert (Hbound : forall a, (0 <= a)%Q ->
            0 <= calculateEfficiency a targetTime <= 100).
  { intros a Ha. unfold calculateEfficiency.
    destruct (Qle_bool a targetTime) eqn:Hle; [ lia | ].
    assert (Hlt : (targetTime < a)%Q).
    { apply Qnot_le_lt. intros H. apply Qle_bool_iff in H. congruence. }
    split; [ apply Z.le_max_l | ].
    apply Z.max_lub; [ lia | ]. apply Math_round_le.
    change (inject_Z 100) with (1 * 100)%Q.
    apply Qmult_le_compat_r; [ | discriminate ].
    apply Qdiv_le_one; [ exact Ha | now apply Qlt_le_weak ]. }
  split; [ now apply Hbound | ]. split.
  - intros H. unfold calculateEfficiency. apply Qle_bool_iff in H. now rewrite H.
  - intros later Htarget Hlater.
    assert (Hlater0 : (0 <= later)%Q) by (now apply Qle_trans with actualTime).
    unfold calculateEfficiency at 2.
    destruct (Qle_bool actualTime targetTime) eqn:Hle; [ now apply Hbound | ].
    assert (Hlt : (targetTime < actualTime)%Q).
    { apply Qnot_le_lt. intros H. apply Qle_bool_iff in H. congruence. }
    unfold calculateEfficiency.
    destruct (Qle_bool later targetTime) eqn:Hle2.
    + apply Qle_bool_iff in Hle2. exfalso. apply (Qlt_irrefl targetTime).
      apply Qlt_le_trans with actualTime; [ exact Hlt | ].
      now apply Qle_trans with later.
    + apply Z.max_le_compat_l. apply Quality.Math_round_mono.
      apply Qmult_le_compat_r; [ | discriminate ].
      apply Qdiv_antitone; [ now apply Qlt_le_weak | | exact Hlater ].
      now apply Qlt_trans with targetTime.
Qed.


Lemma efficiency_is_a_percentage_witness :
  (0 <= 9)%Q
  /\ calculateEfficiency 9 4.5 = 50
  /\ calculateEfficiency 3 4.5 = 100.
Proof.
  split; [ discriminate | ].
  destruct (efficiency_is_a_percentage 3 4.5%Q ltac:(discriminate)) as (_ & Hin & _).
  split; [ reflexivity | ]. apply Hin. discriminate.
Defined.

(** Team impact is a percentage for a non-negative count: documentation is
    worth 50, each prevention measure 10 up to 50, and the full 100 needs
    documentation and at least five measures. *)
Theorem team_impact_is_a_percentage (documentationCreated : bool) (preventionCount : Z) :
  0 <= preventionCount ->
  0 <= calculateTeamImpact documentationCreated preventionCount <= 100
  /\ (calculateTeamImpact documentationCreated preventionCount = 100
      <-> documentationCreated = true /\ 5 <= preventionCount)
  /\ calculateTeamImpact false preventionCount
     <= calculateTeamImpact documentationCreated preventionCount
  /\ (forall more, preventionCount <= more ->
        calculateTeamImpact documentationCreated preventionCount
        <= calculateTeamImpact documentationCreated more).
Proof.
  intros Hpos. unfold calculateTeamImpact.
  destruct documentationCreated; repeat split; try lia; try (intros; lia).
Qed.

Lemma team_impact_is_a_percentage_witness :
  0 <= 5 /\ calculateTeamImpact true 5 = 100 /\ calculateTeamImpact false 7 = 50.
Proof.
  split; [ lia | ].
  destruct (team_impact_is_a_percentage true 5 ltac:(lia)) as (_ & Hfull & _).
  split; [ apply Hfull; split; [ reflexivity | lia ] | reflexivity ].
Defined.

(** With a non-negative count and a non-negative confidence the quality
    score never falls below the base of 50; it is 100 once a template is
    applied, four measures are in place and the confidence reaches 67. *)
Theorem quality_score_floor (factors : Quality.QualityFactors) :
  0 <= Quality.preventionMeasures factors ->
  (0 <= Quality.patternMatchConfidence factors)%Q ->
  50 <= Quality.calculateQualityScore factors <= 100
  /\ (Quality.appliedTemplate factors = true ->
      4 <= Quality.preventionMeasures factors ->
      (67 <= Quality.patternMatchConfidence factors)%Q ->
      Quality.calculateQualityScore factors = 100).
Proof.
  intros Hn Hc. rewrite Quality.score_as_weightedSum.
  assert (Hmeasures : (0 <= Qmin 20 (inject_Z (Quality.preventionMeasures factors) * 5))%Q).
  { apply Q.min_glb; [ discriminate | ].
    apply Qmult_le_0_compat; [ | discriminate ].
    change 0%Q with (inject_Z 0). now rewrite <- Zle_Qle. }
  assert (Hconf : (0 <= Qmin 15 (Quality.patternMatchConfidence factors * 0.15))%Q).
  { apply Q.min_glb; [ discriminate | ].
    apply Qmult_le_0_compat; [ exact Hc | discriminate ]. }
  assert (Hbonus : (0 <= Quality.complexityBonus (Quality.contextComplexity factors))%Q).
  { unfold Quality.complexityBonus.
    destruct (String.eqb _ "simple"); [ discriminate | ].
    destruct (String.eqb _ "moderate"); discriminate. }
  split; [ split; [ | apply Z.le_min_l ] | ].
  - apply Z.min_glb; [ lia | ]. apply Math_round_ge. unfold Quality.weightedSum.
    assert (Htemplate : (0 <= (if Quality.appliedTemplate factors then 20 else 0))%Q)
      by (destruct (Quality.appliedTemplate factors); discriminate).
    change (inject_Z 50) with (50 + 0 + 0 + 0 + 0)%Q.
    repeat apply Qplus_le_compat; try assumption. apply Qle_refl.
  - intros Ht Hfour Hhigh. apply Z.min_l. apply Math_round_ge.
    unfold Quality.weightedSum. rewrite Ht.
    assert (Hm : (20 <= Qmin 20 (inject_Z (Quality.preventionMeasures factors) * 5))%Q).
    { apply Q.min_glb; [ apply Qle_refl | ].
      change 20%Q with (inject_Z 4 * 5)%Q.
      apply Qmult_le_compat_r; [ | discriminate ]. now rewrite <- Zle_Qle. }
    assert (Hk : (10 <= Qmin 15 (Quality.patternMatchConfidence factors * 0.15))%Q).
    { apply Q.min_glb; [ discriminate | ].
      apply Qle_trans with (67 * 0.15)%Q; [ discriminate | ].
      apply Qmult_le_compat_r; [ exact Hhigh | discriminate ]. }
    change (inject_Z 100) with (50 + 20 + 20 + 10 + 0)%Q.
    repeat apply Qplus_le_compat; try assumption; apply Qle_refl.
Qed.

Lemma quality_score_floor_witness :
  0 <= 4 /\ (0 <= 67)%Q
  /\ Quality.calculateQualityScore
       {| Quality.appliedTemplate := true; Quality.preventionMeasures := 4;
          Quality.patternMatchConfidence := 67%Q;
          Quality.contextComplexity := "complex" |} = 100.
Proof.
  split; [ lia | ]. split; [ discriminate | ].
  apply (quality_score_floor
           {| Quality.appliedTemplate := true; Quality.preventionMeasures := 4;
              Quality.patternMatchConfidence := 67%Q;
              Quality.contextComplexity := "complex" |});
    simpl; try lia; try discriminate; reflexivity.
Defined.


Lemma critical_count (antiPatterns : list AntiPattern.t) :
  (0 <? length (List.filter isCriticalPattern antiPatterns))%nat
  = existsb isCriticalPattern antiPatterns.
Proof.
  induction antiPatterns as [ | ap rest IH ]; simpl; [ reflexivity | ].
  destruct (isCriticalPattern ap); simpl; [ reflexivity | exact IH ].
Qed.

Lemma critical_guard {A : Type} (antiPatterns : list AntiPattern.t) (x y : A) :
  (if (0 <? length antiPatterns)%nat
   then if (0 <? length (List.filter isCriticalPattern antiPatterns))%nat then x else y
   else y)
  = if existsb isCriticalPattern antiPatterns then x else y.
Proof.
  rewrite critical_count. destruct antiPatterns; reflexivity.
Qed.

(** Refute an equation between two texts, or two lists of texts, that differ
    in a leading character or in length. *)
Ltac not_that_line H :=
  exfalso; unfold excellentWork in H;
  first [ discriminate H
        | let H' := fresh in injection H as H'; discriminate H' ].

(** [generateRecommendations] never answers the empty list and never more
    than five entries; it answers the single line "Excellent work! ..."
    exactly when the time is within the target, the quality score is at
    least 80, some pattern matched, no anti-pattern is critical and a
    template was applied -- and that line never appears beside another. *)
Theorem recommendations_never_empty (timeSpent targetTime : Q) (qualityScore : Z)
    (patternMatches : list PatternMatch.t) (antiPatterns : list AntiPattern.t)
    (appliedTemplate : option PatternTemplate.t) :
  let recommendations :=
    generateRecommendations timeSpent targetTime qualityScore patternMatches
                            antiPatterns appliedTemplate in
  recommendations <> []
  /\ (length recommendations <= 5)%nat
  /\ (recommendations = [excellentWork]
      <-> (timeSpent <= targetTime)%Q
          /\ 80 <= qualityScore
          /\ patternMatches <> []
          /\ existsb isCriticalPattern antiPatterns = false
          /\ appliedTemplate <> None)
  /\ (In excellentWork recommendations -> recommendations = [excellentWork]).
Proof.
  cbv zeta. unfold generateRecommendations. cbv zeta.
  rewrite critical_guard.
  destruct (Qle_bool timeSpent targetTime) eqn:Htime;
    destruct (qualityScore <? 80) eqn:Hscore;
    destruct patternMatches as [ | m ms ];
    destruct (existsb isCriticalPattern antiPatterns) eqn:Hcritical;
    destruct appliedTemplate as [ tpl | ];
    cbn [negb length Nat.eqb Nat.ltb Nat.leb push app].
  all: split; [ discriminate | ].
  all: split; [ lia | ].
  all: split;
    [ split;
      [ intros H;
        first [ solve [ not_that_line H ]
              | solve [ repeat split;
                        first [ now apply Qle_bool_iff | now apply Z.ltb_ge
                              | discriminate | reflexivity ] ] ]
      | intros (H1 & H2 & H3 & H4 & H5);
        first [ reflexivity
              | exfalso;
                first [ now apply H3 | discriminate H4 | now apply H5
                      | apply Qle_bool_iff in H1; congruence
                      | apply Z.ltb_ge in H2; congruence ] ] ]
    | intros H; cbn [In] in H;
      first [ reflexivity
            | exfalso;
              repeat (destruct H as [ H | H ]; [ solve [ not_that_line H ] | ]);
              exact H ] ].
Qed.


(** [generateNextSteps] always ends with the same two steps, after at most
    three conditional ones: one for prevention measures, one for detected
    anti-patterns and one for a complex context, each present exactly when
    its condition holds. *)
Theorem next_steps_end_with_test_and_monitor
    (preventionMeasures : list string) (antiPatterns : list AntiPattern.t)
    (contextAnalysis : ContextAnalysisResult.t) :
  let nextSteps := generateNextSteps preventionMeasures antiPatterns contextAnalysis in
  exists conditional,
    nextSteps = (conditional ++ closingSteps)%list
    /\ (length conditional <= 3)%nat
    /\ (In "Implement all prevention measures to avoid recurrence" nextSteps
        <-> preventionMeasures <> [])
    /\ (In "Schedule code review to address detected anti-patterns" nextSteps
        <-> antiPatterns <> [])
    /\ (In "Consider refactoring for better maintainability" nextSteps
        <-> ContextAnalysisResult.complexity contextAnalysis = "complex").
Proof.
  cbv zeta. unfold generateNextSteps, closingSteps. cbv zeta.
  destruct (String.eqb_spec (ContextAnalysisResult.complexity contextAnalysis) "complex")
    as [ Hc | Hc ];
    destruct preventionMeasures as [ | pm pms ];
    destruct antiPatterns as [ | ap aps ];
    cbn [length Nat.ltb Nat.leb push app];
    match goal with
    | |- exists c, ?l = _ /\ _ => exists (firstn (length l - 2) l)
    end;
    (split; [ reflexivity | ]);
    (split; [ cbn; lia | ]);
    cbn [In];
    repeat split; intros H;
    first [ discriminate
          | assumption
          | tauto
          | exfalso; now apply H
          | exfalso;
            repeat (destruct H as [ H | H ]; [ first [ discriminate H | now apply Hc ] | ]);
            first [ exact H | now apply Hc ] ].
Qed.

Lemma lower_ascii_idempotent (c : ascii) : lower_ascii (lower_ascii c) = lower_ascii c.
Proof.
  destruct c as [b0 b1 b2 b3 b4 b5 b6 b7];
    destruct b0, b1, b2, b3, b4, b5, b6, b7; reflexivity.
Qed.

Lemma toLowerCase_idempotent (s : string) : toLowerCase (toLowerCase s) = toLowerCase s.
Proof.
  induction s as [ | c rest IH ]; simpl; [ reflexivity | ].
  now rewrite lower_ascii_idempotent, IH.
Qed.

(** [inferErrorType] always answers one of its six keys; the spelling of
    the message in capitals or small letters makes no difference; and a best
    match with a confidence of 70 or less is ignored, the message alone
    deciding. *)
Theorem inferErrorType_answers_a_known_key (errorMessage : string)
    (patternMatches : list PatternMatch.t) :
  In (inferErrorType errorMessage patternMatches) errorTypeKeys
  /\ inferErrorType (toLowerCase errorMessage) patternMatches
     = inferErrorType errorMessage patternMatches
  /\ (lowConfidence patternMatches ->
      inferErrorType errorMessage patternMatches = inferErrorType errorMessage []).
Proof.
  split; [ | split ].
  - unfold inferErrorType, errorTypeKeys.
    destruct patternMatches as [ | m ms ];
      repeat match goal with
             | |- context [ if ?b then _ else _ ] => destruct b
             end;
      cbn [In]; tauto.
  - unfold inferErrorType. now rewrite toLowerCase_idempotent.
  - intros Hlow. unfold inferErrorType.
    destruct patternMatches as [ | m ms ]; [ reflexivity | ].
    simpl in Hlow. apply Qle_bool_iff in Hlow. now rewrite Hlow.
Qed.

Lemma inferErrorType_answers_a_known_key_witness :
  lowConfidence [weakHydrationMatch]
  /\ inferErrorType "Cannot access x before initialization" [weakHydrationMatch]
     = "scope_error".
Proof.
  assert (Hweak : lowConfidence [weakHydrationMatch]) by discriminate.
  split; [ exact Hweak | ].
  destruct (inferErrorType_answers_a_known_key
              "Cannot access x before initialization" [weakHydrationMatch])
    as (_ & _ & Hlow).
  rewrite (Hlow Hweak). reflexivity.
Defined.


Lemma StronglySorted_firstn {A : Type} (R : A -> A -> Prop) (n : nat) (l : list A) :
  StronglySorted R l -> StronglySorted R (firstn n l).
Proof.
  intros Hl. revert n. induction Hl as [ | x rest Hrest IH Hx ]; intros [ | n ]; simpl;
    try constructor.
  - apply IH.
  - rewrite List.Forall_forall in *. intros y Hy. apply Hx.
    revert Hy. clear. revert n. induction rest as [ | z zs IHz ]; intros [ | n ]; simpl;
      try tauto.
    intros [ -> | H ]; [ now left | right; eauto ].
Qed.

Lemma descending_byEffectiveness (l : list TeamKnowledgeEntry.t) :
  StronglySorted (descending effectivenessKey) l -> StronglySorted byEffectiveness l.
Proof.
  induction 1 as [ | x rest Hrest IH Hx ]; constructor; [ exact IH | ].
  eapply List.Forall_impl; [ | exact Hx ].
  intros y Hy. unfold descending, effectivenessKey, byEffectiveness in *.
  now rewrite Zle_Qle.
Qed.

Lemma In_firstn_In {A : Type} (n : nat) (l : list A) (x : A) :
  In x (firstn n l) -> In x l.
Proof.
  revert n. induction l as [ | y rest IH ]; intros [ | n ]; simpl; try tauto.
  intros [ -> | H ]; [ now left | right; eauto ].
Qed.

(** [getTeamKnowledge] answers the same entries, most effective first;
    [getRelevantTeamKnowledge] answers at most three entries, each one an
    entry of the list that mentions the error type in its signature or (in
    any letter case) in its title, most effective first. *)
Theorem team_knowledge_queries_rank_by_effectiveness (errorType : string)
    (teamKnowledge : list TeamKnowledgeEntry.t) :
  Permutation (getTeamKnowledge teamKnowledge) teamKnowledge
  /\ StronglySorted byEffectiveness (getTeamKnowledge teamKnowledge)
  /\ (length (relevantTeamKnowledge errorType teamKnowledge) <= 3)%nat
  /\ StronglySorted byEffectiveness (relevantTeamKnowledge errorType teamKnowledge)
  /\ (forall entry, In entry (relevantTeamKnowledge errorType teamKnowledge) ->
        In entry teamKnowledge /\ relevantTo errorType entry = true)
  /\ ((forall entry, In entry teamKnowledge -> relevantTo errorType entry = false) ->
      relevantTeamKnowledge errorType teamKnowledge = []).
Proof.
  unfold getTeamKnowledge, relevantTeamKnowledge.
  split; [ apply sort_desc_perm | ].
  split; [ apply descending_byEffectiveness, sort_desc_sorted | ].
  split; [ apply firstn_le_length | ].
  split; [ apply descending_byEffectiveness, StronglySorted_firstn, sort_desc_sorted | ].
  split.
  - intros entry Hin. apply In_firstn_In in Hin.
    apply (Permutation_in _ (sort_desc_perm effectivenessKey _)) in Hin.
    apply filter_In in Hin. exact Hin.
  - intros Hnone.
    replace (List.filter _ teamKnowledge) with (@nil TeamKnowledgeEntry.t); [ reflexivity | ].
    symmetry. induction teamKnowledge as [ | e rest IH ]; simpl; [ reflexivity | ].
    change (includes (TeamKnowledgeEntry.errorSignature e) errorType
            || includes (toLowerCase (TeamKnowledgeEntry.title e)) (toLowerCase errorType))
      with (relevantTo errorType e).
    rewrite (Hnone e (or_introl eq_refl)). apply IH.
    intros entry Hin. apply Hnone. now right.
Qed.

Lemma recordFeedback_ids (entryId : string) (helpful : bool) (comment : option string)
    (teamKnowledge : list TeamKnowledgeEntry.t) :
  entryIds (recordTeamKnowledgeFeedback entryId helpful comment teamKnowledge)
  = entryIds teamKnowledge.
Proof.
  unfold entryIds. induction teamKnowledge as [ | e rest IH ]; simpl; [ reflexivity | ].
  destruct (String.eqb (TeamKnowledgeEntry.id e) entryId); simpl; [ reflexivity | ].
  now rewrite IH.
Qed.

Lemma recordFeedback_unknown (entryId : string) (helpful : bool) (comment : option string)
    (teamKnowledge : list TeamKnowledgeEntry.t) :
  ~ In entryId (entryIds teamKnowledge) ->
  recordTeamKnowledgeFeedback entryId helpful comment teamKnowledge = teamKnowledge.
Proof.
  unfold entryIds. induction teamKnowledge as [ | e rest IH ]; simpl; [ reflexivity | ].
  intros Hno. destruct (String.eqb_spec (TeamKnowledgeEntry.id e) entryId) as [ E | _ ].
  - exfalso. apply Hno. now left.
  - f_equal. apply IH. intros H. apply Hno. now right.
Qed.

(** Feedback on an id that no entry of the list carries changes nothing;
    otherwise it updates the first entry with that id and leaves every other
    entry, the order and the ids as they were. *)
Theorem feedback_updates_only_the_first_match (entryId : string) (helpful : bool)
    (comment : option string) (teamKnowledge : list TeamKnowledgeEntry.t) :
  entryIds (recordTeamKnowledgeFeedback entryId helpful comment teamKnowledge)
  = entryIds teamKnowledge
  /\ (~ In entryId (entryIds teamKnowledge) ->
      recordTeamKnowledgeFeedback entryId helpful comment teamKnowledge = teamKnowledge)
  /\ (forall before entry after,
        teamKnowledge = (before ++ entry :: after)%list ->
        TeamKnowledgeEntry.id entry = entryId ->
        ~ In entryId (entryIds before) ->
        recordTeamKnowledgeFeedback entryId helpful comment teamKnowledge
        = (before ++ applyFeedback helpful comment entry :: after)%list).
Proof.
  split; [ apply recordFeedback_ids | ]. split; [ apply recordFeedback_unknown | ].
  intros before entry after -> Hid Hbefore.
  induction before as [ | e rest IH ]; simpl.
  - rewrite Hid, String.eqb_refl. reflexivity.
  - destruct (String.eqb_spec (TeamKnowledgeEntry.id e) entryId) as [ E | _ ].
    + exfalso. apply Hbefore. now left.
    + f_equal. apply IH. intros H. apply Hbefore. now right.
Qed.

Lemma feedback_updates_only_the_first_match_witness :
  let first := newTeamEntry "team-1" 0 "t" "sig" "s" "p" "dev" in
  let twin := newTeamEntry "team-1" 5 "u" "sig" "s" "p" "dev" in
  ~ In "team-2" (entryIds [first; twin])
  /\ recordTeamKnowledgeFeedback "team-2" true None [first; twin] = [first; twin]
  /\ map TeamKnowledgeEntry.effectiveness
         (recordTeamKnowledgeFeedback "team-1" false None [first; twin])
     = [80; 85].
Proof.
  cbv zeta.
  destruct (feedback_updates_only_the_first_match "team-2" true None
              [newTeamEntry "team-1" 0 "t" "sig" "s" "p" "dev";
               newTeamEntry "team-1" 5 "u" "sig" "s" "p" "dev"]) as (_ & Hunknown & _).
  assert (Hno : ~ In "team-2"
                  (entryIds [newTeamEntry "team-1" 0 "t" "sig" "s" "p" "dev";
                             newTeamEntry "team-1" 5 "u" "sig" "s" "p" "dev"])).
  { simpl. intros [ H | [ H | [] ] ]; discriminate H. }
  split; [ exact Hno | ]. split; [ exact (Hunknown Hno) | reflexivity ].
Defined.

(** *** [generateDocumentation] *)

Lemma substring_length_le (n : nat) (s : string) :
  (String.length (String.substring 0 n s) <= n)%nat.
Proof.
  revert s. induction n as [ | n IH ]; intros [ | c s ]; simpl; try lia.
  specialize (IH s). lia.
Qed.

(** A documentation entry never records a confidence of zero, an empty root
    cause or an empty template name: where the best match gives none (or
    gives zero, or the empty text) the defaults 75, "Standard debugging
    analysis performed" and "generic-debugging-approach" stand in.  The
    reusability is "high" exactly when some pattern matched, and the code
    shown as [before] is at most 500 characters. *)
Theorem documentation_falls_back_on_defaults
    (errorDetails : ErrorDetails.t) (contextAnalysis : ContextAnalysisResult.t)
    (appliedTemplate : option PatternTemplate.t)
    (implementationSteps preventionMeasures : list string)
    (patternMatches : list PatternMatch.t) (antiPatterns : list AntiPattern.t) :
  let documentation :=
    generateDocumentation errorDetails contextAnalysis appliedTemplate
                          implementationSteps preventionMeasures patternMatches
                          antiPatterns in
  ~ (DocumentationEntry.confidence documentation == 0)%Q
  /\ DocumentationEntry.rootCause documentation <> ""
  /\ DocumentationEntry.patternTemplate documentation <> ""
  /\ (patternMatches = [] ->
      DocumentationEntry.confidence documentation = 75%Q
      /\ DocumentationEntry.rootCause documentation
         = "Standard debugging analysis performed")
  /\ (DocumentationEntry.reusability documentation = "high" <-> patternMatches <> [])
  /\ (String.length (CodeExamples.before (DocumentationEntry.codeExamples documentation))
      <= 500)%nat.
Proof.
  cbv zeta. unfold generateDocumentation.
  cbn [DocumentationEntry.confidence DocumentationEntry.rootCause
       DocumentationEntry.patternTemplate DocumentationEntry.reusability
       DocumentationEntry.codeExamples CodeExamples.before].
  assert (Hor : forall a b, b <> "" -> orString a b <> "").
  { intros [ x | ] b Hb; unfold orString; [ | exact Hb ].
    destruct (String.eqb_spec x ""); assumption. }
  split; [ | split; [ | split; [ | split; [ | split ] ] ] ].
  - unfold orNumber, head_confidence.
    destruct (head patternMatches) as [ m | ]; simpl; [ | discriminate ].
    destruct (Qeq_bool (PatternMatch.confidence m) 0) eqn:E; [ discriminate | ].
    intros H. apply Qeq_bool_iff in H. congruence.
  - apply Hor. discriminate.
  - apply Hor. discriminate.
  - intros ->. split; reflexivity.
  - destruct patternMatches as [ | m rest ]; simpl; split; congruence.
  - apply substring_length_le.
Qed.

End IntegrationFacts.

(** ** More about the workflow *)

Module WorkflowFacts.

Import Integration BugXWorkflowConfig.

(** [options] with its [metricsEnabled] property replaced. *)
Definition withMetricsOption (options : PartialConfig.t) (value : option bool)
    : PartialConfig.t :=
  {| PartialConfig.timeTarget := PartialConfig.timeTarget options;
     PartialConfig.aiAssisted := PartialConfig.aiAssisted options;
     PartialConfig.metricsEnabled := value;
     PartialConfig.preventionRequired := PartialConfig.preventionRequired options;
     PartialConfig.documentationRequired := PartialConfig.documentationRequired options;
     PartialConfig.patternRecognitionEnabled :=
       PartialConfig.patternRecognitionEnabled options;
     PartialConfig.teamIntegration := PartialConfig.teamIntegration options |}.

(** An entry as [shareWithTeam] creates it: an id that starts with "team-",
    effectiveness 85, no usage and no feedback yet. *)
Definition freshEntry (entry : TeamKnowledgeEntry.t) : Prop :=
  String.prefix "team-" (TeamKnowledgeEntry.id entry) = true
  /\ TeamKnowledgeEntry.effectiveness entry = 85
  /\ TeamKnowledgeEntry.usageCount entry = 0
  /\ TeamKnowledgeEntry.teamFeedback entry
     = {| TeamFeedback.helpful := 0; TeamFeedback.notHelpful := 0;
          TeamFeedback.comments := [] |}.

(** Options that switch pattern recognition and AI assistance off. *)
Definition bareOptions : PartialConfig.t :=
  {| PartialConfig.timeTarget := None;
     PartialConfig.aiAssisted := Some false;
     PartialConfig.metricsEnabled := None;
     PartialConfig.preventionRequired := None;
     PartialConfig.documentationRequired := None;
     PartialConfig.patternRecognitionEnabled := Some false;
     PartialConfig.teamIntegration := None |}.

Section Facts.

Context {W : Type} {collaborators : Collaborators W}.

(** The team-knowledge list of [s'] is that of [s] with at most [n] fresh
    entries pushed. *)
Definition grows (n : nat) (s s' : State W) : Prop :=
  exists added,
    teamKnowledge s' = (teamKnowledge s ++ added)%list
    /\ (length added <= n)%nat
    /\ Forall freshEntry added.

(** A method body pushes at most [n] fresh entries, whatever its outcome. *)
Definition pushesAtMost {A : Type} (n : nat) (m : M W A) : Prop :=
  forall s, grows n s (snd (m s)).

(** The run ignores the [metricsEnabled] property of its options: whether a
    session is opened and completed is decided by the static configuration
    alone. *)
Theorem metrics_option_is_ignored developer errorDetails options (value : option bool)
    (s : State W) :
  runCompleteWorkflow developer errorDetails (withMetricsOption options value) s
  = runCompleteWorkflow developer errorDetails options s.
Proof. reflexivity. Qed.


(** *** The team-knowledge list only grows *)

Lemma prefix_append (p s : string) : String.prefix p (p ++ s) = true.
Proof.
  induction p as [ | c p IH ]; simpl.
  - now destruct s.
  - destruct (ascii_dec c c) as [ _ | Hne ]; [ exact IH | now elim Hne ].
Qed.

Lemma grows_refl (s : State W) : grows 0 s s.
Proof. exists []. rewrite app_nil_r. repeat split; [ simpl; lia | constructor ]. Qed.

Lemma grows_same (n : nat) (s s' : State W) :
  teamKnowledge s' = teamKnowledge s -> grows n s s'.
Proof.
  intros H. exists []. rewrite app_nil_r. repeat split; [ exact H | simpl; lia | constructor ].
Qed.

Lemma grows_trans (n k : nat) (s1 s2 s3 : State W) :
  grows n s1 s2 -> grows k s2 s3 -> grows (n + k) s1 s3.
Proof.
  intros (a1 & H1 & L1 & F1) (a2 & H2 & L2 & F2).
  exists (a1 ++ a2)%list. rewrite H2, H1, <- app_assoc. split; [ reflexivity | ].
  split; [ rewrite length_app; lia | now apply Forall_app ].
Qed.

Lemma grows_weaken (n k : nat) (s s' : State W) :
  (n <= k)%nat -> grows n s s' -> grows k s s'.
Proof.
  intros Hnk (a & H & L & F). exists a. repeat split; [ exact H | lia | exact F ].
Qed.

Lemma pushes_preserving {A : Type} (n : nat) (m : M W A) :
  preserves teamKnowledge m -> pushesAtMost n m.
Proof. intros Hm s. apply grows_same, Hm. Qed.

Lemma pushes_bind {A B : Type} (n k : nat) (m : M W A) (f : A -> M W B) :
  pushesAtMost n m -> (forall a, pushesAtMost k (f a)) -> pushesAtMost (n + k) (bind m f).
Proof.
  intros Hm Hf s. unfold bind. specialize (Hm s).
  destruct (m s) as [[a | e] s1]; simpl in *.
  - eapply grows_trans; [ exact Hm | apply Hf ].
  - eapply grows_weaken; [ | exact Hm ]. lia.
Qed.

Lemma pushes_tryCatch {A : Type} (n k : nat) (m : M W A) (h : JsError -> M W A) :
  pushesAtMost n m -> (forall e, pushesAtMost k (h e)) ->
  pushesAtMost (n + k) (tryCatch m h).
Proof.
  intros Hm Hh s. unfold tryCatch. specialize (Hm s).
  destruct (m s) as [[a | e] s1]; simpl in *.
  - eapply grows_weaken; [ | exact Hm ]. lia.
  - eapply grows_trans; [ exact Hm | apply Hh ].
Qed.

Lemma static_teamKnowledge : static (W := W) teamKnowledge.
Proof. intros s w. reflexivity. Qed.

Lemma templateMatching_teamKnowledge errorType :
  preserves (W := W) teamKnowledge (templateMatching errorType).
Proof.
  intros s. unfold templateMatching, tryCatch, bind, getTemplate, recordTemplateUsage, ret.
  destruct (CoreSystem.getTemplate (templates s) errorType); reflexivity.
Qed.

Lemma teamNotification_teamKnowledge workflowConfig developer antiPatterns sessionId :
  preserves (W := W) teamKnowledge
            (teamNotification workflowConfig developer antiPatterns sessionId).
Proof.
  intros s. unfold teamNotification. cbv zeta.
  destruct (TeamIntegration.notifyOnCritical _); [ | reflexivity ].
  destruct (existsb isCriticalPattern antiPatterns); reflexivity.
Qed.

Lemma shareWithTeam_run title errorSignature solution prevention sharedBy (s : State W) :
  exists entry s',
    shareWithTeam title errorSignature solution prevention sharedBy s = (Returned tt, s')
    /\ teamKnowledge s' = push (teamKnowledge s) entry
    /\ freshEntry entry
    /\ TeamKnowledgeEntry.title entry = title
    /\ TeamKnowledgeEntry.sharedBy entry = sharedBy.
Proof.
  unfold shareWithTeam, bind, ask.
  destruct (Date_now (world s)) as [stamp w1]. simpl.
  destruct (Math_random_id w1) as [suffix w2]. simpl.
  destruct (Date_now w2) as [sharedAt w3]. simpl.
  eexists _, _. split; [ reflexivity | ]. simpl.
  split; [ reflexivity | ]. split; [ | split; reflexivity ].
  repeat split. cbn [TeamKnowledgeEntry.id newTeamEntry]. apply prefix_append.
Qed.

Lemma documentationPhase_pushes workflowConfig developer errorDetails errorType
    contextAnalysis appliedTemplate implementationSteps preventionMeasures
    patternMatches antiPatterns :
  pushesAtMost 1
    (documentationPhase workflowConfig developer errorDetails errorType contextAnalysis
                        appliedTemplate implementationSteps preventionMeasures
                        patternMatches antiPatterns).
Proof.
  unfold documentationPhase.
  destruct (documentationRequired workflowConfig);
    [ | apply (pushes_preserving 1 (ret false)); intros s; reflexivity ].
  apply (pushes_bind 0 1); [ apply pushes_preserving; intros s; reflexivity | intros cfg ].
  apply (pushes_bind 0 1).
  { apply pushes_preserving. destruct (metricsEnabled cfg).
    - apply preserves_call, static_teamKnowledge.
    - intros s. reflexivity. }
  intros _. apply (pushes_bind 1 0);
    [ | intros _; apply pushes_preserving; intros s; reflexivity ].
  destruct (TeamIntegration.sharePatterns _);
    [ | intros s; apply grows_weaken with 0%nat; [ lia | apply grows_refl ] ].
  intros s.
  destruct (shareWithTeam_run (errorType ++ " Resolution")
              (generateErrorSignature errorDetails) (join "; " implementationSteps)
              (join "; " preventionMeasures) developer s)
    as (entry & s' & Hrun & Htk & Hfresh & _).
  rewrite Hrun. simpl. exists [entry]. split; [ exact Htk | ].
  split; [ simpl; lia | ]. constructor; [ exact Hfresh | constructor ].
Qed.

Lemma workflowBody_pushes workflowConfig developer errorDetails startTime sessionId :
  pushesAtMost 1 (workflowBody workflowConfig developer errorDetails startTime sessionId).
Proof.
  unfold workflowBody.
  apply (pushes_bind 0 1);
    [ apply pushes_preserving, patternRecognition_preserves, static_teamKnowledge
    | intros recognised ].
  apply (pushes_bind 0 1);
    [ apply pushes_preserving, contextAnalysisPhase_preserves, static_teamKnowledge
    | intros contextAnalysis ].
  apply (pushes_bind 0 1);
    [ apply pushes_preserving, templateMatching_teamKnowledge | intros appliedTemplate ].
  apply (pushes_bind 0 1);
    [ apply pushes_preserving, implementationPhase_preserves, static_teamKnowledge
    | intros implemented ].
  apply (pushes_bind 1 0); [ apply documentationPhase_pushes | intros documented ].
  apply (pushes_bind 0 0);
    [ apply pushes_preserving, teamNotification_teamKnowledge | intros _ ].
  apply pushes_preserving, completePhase_preserves, static_teamKnowledge.
Qed.

Lemma runCompleteWorkflow_pushes developer errorDetails options :
  pushesAtMost 1 (runCompleteWorkflow developer errorDetails options).
Proof.
  unfold runCompleteWorkflow.
  apply (pushes_bind 0 1); [ apply pushes_preserving; intros s; reflexivity | intros cfg ].
  apply (pushes_bind 0 1);
    [ apply pushes_preserving, initializeSession_preserves, static_teamKnowledge
    | intros session ].
  apply (pushes_tryCatch 1 0); [ apply workflowBody_pushes | intros e ].
  apply pushes_preserving, workflowFailed_preserves, static_teamKnowledge.
Qed.

Lemma runCompleteWorkflow_config developer errorDetails options :
  preserves (W := W) config (runCompleteWorkflow developer errorDetails options).
Proof.
  unfold runCompleteWorkflow.
  apply preserves_bind; [ intros s; reflexivity | intros cfg ].
  apply preserves_bind;
    [ apply initializeSession_preserves, static_config | intros session ].
  apply preserves_tryCatch; [ apply workflowBody_config | intros e ].
  apply workflowFailed_preserves, static_config.
Qed.

(** Whatever its outcome -- a result, a failure result or an exception --
    a run leaves the configuration alone and never removes, reorders or
    edits a team-knowledge entry: it pushes at most one entry, and a pushed
    entry is fresh (id "team-...", effectiveness 85, no usage, no
    feedback). *)
Theorem run_only_pushes_team_knowledge developer errorDetails options (s : State W) :
  let s' := snd (runCompleteWorkflow developer errorDetails options s) in
  config s' = config s
  /\ exists added,
       teamKnowledge s' = (teamKnowledge s ++ added)%list
       /\ (length added <= 1)%nat
       /\ Forall freshEntry added.
Proof.
  cbv zeta. split.
  - apply runCompleteWorkflow_config.
  - apply runCompleteWorkflow_pushes.
Qed.


(** *** What a successful run reports *)

Lemma completePhase_fields workflowConfig startTime sessionId patternMatches antiPatterns
    contextAnalysis appliedTemplate preventionMeasures qualityScore documentationCreated
    (s s' : State W) (r : BugXWorkflowResult.t) :
  completePhase workflowConfig startTime sessionId patternMatches antiPatterns
                contextAnalysis appliedTemplate preventionMeasures qualityScore
                documentationCreated s = (Returned r, s') ->
  BugXWorkflowResult.preventionMeasures r = preventionMeasures
  /\ BugXWorkflowResult.documentationCreated r = documentationCreated
  /\ BugXWorkflowResult.approach r <> quick_fix
  /\ WorkflowMetrics.qualityScore (BugXWorkflowResult.metrics r) = qualityScore
  /\ WorkflowMetrics.teamImpact (BugXWorkflowResult.metrics r)
     = calculateTeamImpact documentationCreated (Z.of_nat (length preventionMeasures))
  /\ 0 <= WorkflowMetrics.efficiency (BugXWorkflowResult.metrics r)
  /\ BugXWorkflowResult.nextSteps r
     = generateNextSteps preventionMeasures antiPatterns contextAnalysis.
Proof.
  unfold completePhase. intros H.
  apply bind_returned in H as (endTime & s1 & _ & H).
  apply bind_returned in H as (cfg & s2 & _ & H).
  apply bind_returned in H as (u & s3 & _ & H).
  unfold ret in H. inversion H; subst. simpl.
  repeat split.
  - now destruct (Qle_bool _ _).
  - unfold calculateEfficiency. destruct (Qle_bool _ _); [ lia | apply Z.le_max_l ].
Qed.

Lemma documentationPhase_returned workflowConfig developer errorDetails errorType
    contextAnalysis appliedTemplate implementationSteps preventionMeasures
    patternMatches antiPatterns (s s' : State W) (documented : bool) :
  documentationPhase workflowConfig developer errorDetails errorType contextAnalysis
                     appliedTemplate implementationSteps preventionMeasures
                     patternMatches antiPatterns s = (Returned documented, s') ->
  documented = documentationRequired workflowConfig
  /\ exists added,
       teamKnowledge s' = (teamKnowledge s ++ added)%list
       /\ length added
          = (if documentationRequired workflowConfig
                && TeamIntegration.sharePatterns (teamIntegration workflowConfig)
             then 1 else 0)%nat
       /\ Forall (fun entry => freshEntry entry
                               /\ TeamKnowledgeEntry.sharedBy entry = developer
                               /\ TeamKnowledgeEntry.title entry
                                  = errorType ++ " Resolution") added.
Proof.
  unfold documentationPhase.
  destruct (documentationRequired workflowConfig); simpl.
  - intros H.
    apply bind_returned in H as (cfg & s1 & H1 & H).
    unfold getConfig in H1. inversion H1; subst s1 cfg. clear H1.
    apply bind_returned in H as ([] & s2 & H2 & H).
    apply bind_returned in H as ([] & s3 & H3 & H).
    unfold ret in H. inversion H; subst. split; [ reflexivity | ].
    assert (Hs2 : teamKnowledge s2 = teamKnowledge s).
    { destruct (metricsEnabled (config s)).
      - exact (preserved teamKnowledge _ _ _ _
                 (preserves_call teamKnowledge static_teamKnowledge _) H2).
      - unfold ret in H2. now inversion H2. }
    destruct (TeamIntegration.sharePatterns _).
    + destruct (shareWithTeam_run (errorType ++ " Resolution")
                  (generateErrorSignature errorDetails) (join "; " implementationSteps)
                  (join "; " preventionMeasures) developer s2)
        as (entry & s3' & Hrun & Htk & Hfresh & Htitle & Hby).
      rewrite Hrun in H3. inversion H3; subst s3'.
      exists [entry]. rewrite Htk, Hs2. repeat split. constructor; [ | constructor ].
      split; [ exact Hfresh | split; assumption ].
    + unfold ret in H3. inversion H3; subst.
      exists []. rewrite app_nil_r. repeat split; [ exact Hs2 | constructor ].
  - intros H. unfold ret in H. inversion H; subst. split; [ reflexivity | ].
    exists []. rewrite app_nil_r. repeat split. constructor.
Qed.

(** What a run whose [try] block completes adds to the team-knowledge list. *)
Lemma run_team_knowledge developer errorDetails options (s s' : State W)
    (r : BugXWorkflowResult.t) :
  runCompleteWorkflow developer errorDetails options s = (Returned r, s') ->
  BugXWorkflowResult.success r = true ->
  let workflowConfig := mergeConfig (config s) options in
  let errorType :=
    inferErrorType (ErrorDetails.message errorDetails)
                   (BugXWorkflowResult.patternMatches r) in
  exists added,
    teamKnowledge s' = (teamKnowledge s ++ added)%list
    /\ length added
       = (if documentationRequired workflowConfig
             && TeamIntegration.sharePatterns (teamIntegration workflowConfig)
          then 1 else 0)%nat
    /\ Forall (fun entry => freshEntry entry
                            /\ TeamKnowledgeEntry.sharedBy entry = developer
                            /\ TeamKnowledgeEntry.title entry
                               = errorType ++ " Resolution") added.
Proof.
  intros Hrun Hsuccess workflowConfig errorType.
  apply runCompleteWorkflow_returned in Hrun
    as (startTime & sessionId & s1 & Hinit & [Hdone | (endTime & Hfail)]);
    [ | rewrite Hfail in Hsuccess; discriminate Hsuccess ].
  destruct Hdone as [pm aps ca tpl steps pms doc s2 s3 s4 s5 s6 s7 H2 H3 H4 H5 H6 H7 H8].
  destruct (completePhase_result _ _ _ _ _ _ _ _ _ _ _ _ _ H8)
    as (_ & _ & Hpm & _ & _).
  destruct (documentationPhase_returned _ _ _ _ _ _ _ _ _ _ _ _ _ H6)
    as (_ & added & Htk & Hlen & Hfresh).
  fold workflowConfig in Hlen.
  exists added. unfold errorType. rewrite Hpm.
  split; [ | split; assumption ].
  rewrite (preserved teamKnowledge _ _ _ _
             (completePhase_preserves teamKnowledge _ _ _ _ _ _ _ _ _ _
                static_teamKnowledge) H8).
  rewrite (preserved teamKnowledge _ _ _ _ (teamNotification_teamKnowledge _ _ _ _) H7).
  rewrite Htk.
  rewrite (preserved teamKnowledge _ _ _ _
             (implementationPhase_preserves teamKnowledge _ _ _ _ _ _
                static_teamKnowledge) H5).
  rewrite (preserved teamKnowledge _ _ _ _ (templateMatching_teamKnowledge _) H4).
  rewrite (preserved teamKnowledge _ _ _ _
             (contextAnalysisPhase_preserves teamKnowledge _ _ _ static_teamKnowledge) H3).
  rewrite (preserved teamKnowledge _ _ _ _
             (patternRecognition_preserves teamKnowledge _ _ static_teamKnowledge) H2).
  rewrite (preserved teamKnowledge _ _ _ _
             (initializeSession_preserves teamKnowledge _ _ static_teamKnowledge) Hinit).
  reflexivity.
Qed.

Lemma includes_of_prefix (s sub : string) :
  String.prefix sub s = true -> includes s sub = true.
Proof. intros H. destruct s; cbn [includes]; now rewrite H. Qed.

Lemma toLowerCase_append (a b : string) :
  toLowerCase (a ++ b) = toLowerCase a ++ toLowerCase b.
Proof.
  induction a as [ | c a IH ]; [ reflexivity | ].
  change (String (lower_ascii c) (toLowerCase (a ++ b))
          = String (lower_ascii c) (toLowerCase a ++ toLowerCase b)).
  now rewrite IH.
Qed.


(** A run whose [try] block completes with pattern recognition switched off
    reports no pattern match and no anti-pattern and writes no team
    notification; with AI assistance switched off it reports no prevention
    measure, so its team impact is at most 50. *)
Theorem disabled_phases_leave_no_trace developer errorDetails options (s s' : State W)
    (r : BugXWorkflowResult.t) :
  runCompleteWorkflow developer errorDetails options s = (Returned r, s') ->
  BugXWorkflowResult.success r = true ->
  let workflowConfig := mergeConfig (config s) options in
  (patternRecognitionEnabled workflowConfig = false ->
   BugXWorkflowResult.patternMatches r = []
   /\ BugXWorkflowResult.antiPatterns r = []
   /\ notifications s' = notifications s)
  /\ (aiAssisted workflowConfig = false ->
      BugXWorkflowResult.preventionMeasures r = []
      /\ WorkflowMetrics.teamImpact (BugXWorkflowResult.metrics r) <= 50).
Proof.
  intros Hrun Hsuccess workflowConfig.
  apply runCompleteWorkflow_returned in Hrun
    as (startTime & sessionId & s1 & Hinit & [Hdone | (endTime & Hfail)]);
    [ | rewrite Hfail in Hsuccess; discriminate Hsuccess ].
  destruct Hdone as [pm aps ca tpl steps pms doc s2 s3 s4 s5 s6 s7 H2 H3 H4 H5 H6 H7 H8].
  fold workflowConfig in H2, H5, H6, H7, H8.
  destruct (completePhase_result _ _ _ _ _ _ _ _ _ _ _ _ _ H8)
    as (_ & _ & Hpm & Haps & _).
  destruct (completePhase_fields _ _ _ _ _ _ _ _ _ _ _ _ _ H8)
    as (Hpms & _ & _ & _ & Himpact & _).
  split.
  - intros Hoff. unfold patternRecognition in H2. rewrite Hoff in H2.
    unfold ret in H2. injection H2 as E1 E2 E3.
    rewrite <- E1 in Hpm. rewrite <- E2 in Haps, H7. rewrite <- E3 in H3.
    split; [ exact Hpm | ]. split; [ exact Haps | ].
    rewrite (preserved notifications _ _ _ _
               (completePhase_preserves notifications _ _ _ _ _ _ _ _ _ _
                  static_notifications) H8).
    destruct (teamNotification_run workflowConfig developer [] sessionId s6)
      as (s7' & H7' & Hnote).
    rewrite H7 in H7'. inversion H7'; subst s7'. rewrite Hnote.
    unfold notificationDue. simpl. rewrite andb_false_r.
    rewrite (preserved notifications _ _ _ _
               (documentationPhase_notifications _ _ _ _ _ _ _ _ _ _) H6).
    rewrite (preserved notifications _ _ _ _
               (implementationPhase_preserves notifications _ _ _ _ _ _
                  static_notifications) H5).
    rewrite (preserved notifications _ _ _ _ (templateMatching_notifications _) H4).
    rewrite (preserved notifications _ _ _ _
               (contextAnalysisPhase_preserves notifications _ _ _
                  static_notifications) H3).
    exact (preserved notifications _ _ _ _
             (initializeSession_preserves notifications _ _ static_notifications) Hinit).
  - intros Hoff. unfold implementationPhase in H5. rewrite Hoff in H5.
    unfold ret in H5. injection H5 as E1 E2 E3.
    rewrite <- E2 in Hpms, Himpact.
    split; [ exact Hpms | ]. rewrite Himpact. unfold calculateTeamImpact.
    destruct doc; simpl; lia.
Qed.

(** What a run shares, a later run finds: when the [try] block completes
    with documentation required and pattern sharing on, the entry pushed is
    titled with the run's error type, so it is relevant to that error type,
    and [getRelevantTeamKnowledge] for that error type is not empty
    afterwards. *)
Theorem shared_knowledge_is_found_again developer errorDetails options (s s' : State W)
    (r : BugXWorkflowResult.t) :
  runCompleteWorkflow developer errorDetails options s = (Returned r, s') ->
  BugXWorkflowResult.success r = true ->
  documentationRequired (mergeConfig (config s) options) = true ->
  TeamIntegration.sharePatterns (teamIntegration (mergeConfig (config s) options)) = true ->
  let errorType :=
    inferErrorType (ErrorDetails.message errorDetails)
                   (BugXWorkflowResult.patternMatches r) in
  exists entry,
    teamKnowledge s' = push (teamKnowledge s) entry
    /\ TeamKnowledgeEntry.title entry = errorType ++ " Resolution"
    /\ IntegrationFacts.relevantTo errorType entry = true
    /\ relevantTeamKnowledge errorType (teamKnowledge s') <> [].
Proof.
  intros Hrun Hsuccess Hdoc Hshare errorType.
  destruct (run_team_knowledge _ _ _ _ _ _ Hrun Hsuccess) as (added & Htk & Hlen & Hfresh).
  rewrite Hdoc, Hshare in Hlen. simpl in Hlen.
  destruct added as [ | entry [ | more ] ]; try discriminate Hlen.
  apply List.Forall_inv in Hfresh. destruct Hfresh as (_ & _ & Htitle).
  fold errorType in Htitle.
  assert (Hrel : IntegrationFacts.relevantTo errorType entry = true).
  { unfold IntegrationFacts.relevantTo. rewrite Htitle, toLowerCase_append.
    rewrite (includes_of_prefix _ _ (prefix_append _ _)). apply orb_true_r. }
  exists entry. split; [ exact Htk | ]. split; [ exact Htitle | ].
  split; [ exact Hrel | ].
  unfold relevantTeamKnowledge. fold (IntegrationFacts.relevantTo errorType).
  intros Hnone.
  assert (Hin : In entry (List.filter (IntegrationFacts.relevantTo errorType)
                            (teamKnowledge s'))).
  { apply filter_In. split; [ | exact Hrel ]. rewrite Htk. apply in_or_app. right. now left. }
  apply (Permutation_in _ (Permutation_sym (sort_desc_perm effectivenessKey _))) in Hin.
  destruct (sort_desc effectivenessKey _) as [ | x rest ]; [ contradiction | ].
  discriminate Hnone.
Qed.

End Facts.


Lemma disabled_phases_leave_no_trace_witness :
  exists r s',
    runCompleteWorkflow (collaborators := scripted [])
      "dev" hydrationError bareOptions
      (startState DEFAULT_CONFIG [hydrationMatch] [randomInState])
    = (Returned r, s')
    /\ BugXWorkflowResult.success r = true
    /\ BugXWorkflowResult.antiPatterns r = []
    /\ BugXWorkflowResult.preventionMeasures r = []
    /\ notifications s' = [].
Proof.
  destruct (runCompleteWorkflow (collaborators := scripted [])
              "dev" hydrationError bareOptions
              (startState DEFAULT_CONFIG [hydrationMatch] [randomInState]))
    as [[r | e] s'] eqn:Hrun; [ | vm_compute in Hrun; discriminate Hrun ].
  assert (Hsuccess : BugXWorkflowResult.success r = true).
  { vm_compute in Hrun. inversion Hrun; subst r. reflexivity. }
  exists r, s'. split; [ reflexivity | ]. split; [ exact Hsuccess | ].
  destruct (disabled_phases_leave_no_trace (collaborators := scripted []) _ _ _ _ _ _
              Hrun Hsuccess) as (Hoff & Hbare).
  destruct (Hoff eq_refl) as (_ & Haps & Hnote).
  destruct (Hbare eq_refl) as (Hpms & _).
  repeat split; assumption.
Defined.

Lemma shared_knowledge_is_found_again_witness :
  exists r s',
    runCompleteWorkflow (collaborators := scripted [])
      "dev" hydrationError quickFixOptions
      (startState DEFAULT_CONFIG [hydrationMatch] [randomInState])
    = (Returned r, s')
    /\ map TeamKnowledgeEntry.title (teamKnowledge s') = ["hydration_error Resolution"]
    /\ relevantTeamKnowledge "hydration_error" (teamKnowledge s') <> [].
Proof.
  destruct (runCompleteWorkflow (collaborators := scripted [])
              "dev" hydrationError quickFixOptions
              (startState DEFAULT_CONFIG [hydrationMatch] [randomInState]))
    as [[r | e] s'] eqn:Hrun; [ | vm_compute in Hrun; discriminate Hrun ].
  assert (Hsuccess : BugXWorkflowResult.success r = true).
  { vm_compute in Hrun. inversion Hrun; subst r. reflexivity. }
  exists r, s'. split; [ reflexivity | ].
  destruct (shared_knowledge_is_found_again (collaborators := scripted []) _ _ _ _ _ _
              Hrun Hsuccess eq_refl eq_refl) as (entry & _ & _ & _ & Hfound).
  vm_compute in Hrun. inversion Hrun; subst r s'.
  split; [ reflexivity | exact Hfound ].
Defined.

End WorkflowFacts.

(** ** The unified API ([index.ts], class [BugXv14]) *)

Module UnifiedApi.

Import Integration BugXWorkflowConfig.

(** What [BugXv14.analyzePattern] returns. *)
Module PatternAnalysis.
Record t : Type := {
  bestMatch : option PatternMatch.t;
  allMatches : list PatternMatch.t;
  antiPatterns : list AntiPattern.t;
  hasHighConfidenceMatch : bool;
  summary : string
}.
End PatternAnalysis.

(** What [BugXv14.shareWithTeam] returns. *)
Module ShareResult.
Record t : Type := {
  shared : bool;
  teamKnowledge : list TeamKnowledgeEntry.t;
  report : string
}.
End ShareResult.

(** What [BugXv14.configure] returns. *)
Module ConfigureResult.
Record t : Type := {
  configured : bool;
  config : BugXWorkflowConfig.t
}.
End ConfigureResult.

(** Every option that [newConfig] leaves out has its default value in
    [current]. *)
Definition unsetOptionsAtDefault (newConfig : PartialConfig.t)
    (current : BugXWorkflowConfig.t) : Prop :=
  (PartialConfig.timeTarget newConfig = None ->
   timeTarget current = timeTarget DEFAULT_CONFIG)
  /\ (PartialConfig.aiAssisted newConfig = None ->
      aiAssisted current = aiAssisted DEFAULT_CONFIG)
  /\ (PartialConfig.metricsEnabled newConfig = None ->
      metricsEnabled current = metricsEnabled DEFAULT_CONFIG)
  /\ (PartialConfig.preventionRequired newConfig = None ->
      preventionRequired current = preventionRequired DEFAULT_CONFIG)
  /\ (PartialConfig.documentationRequired newConfig = None ->
      documentationRequired current = documentationRequired DEFAULT_CONFIG)
  /\ (PartialConfig.patternRecognitionEnabled newConfig = None ->
      patternRecognitionEnabled current = patternRecognitionEnabled DEFAULT_CONFIG)
  /\ (PartialConfig.teamIntegration newConfig = None ->
      teamIntegration current = teamIntegration DEFAULT_CONFIG).

(** An entry whose id has the shape [shareWithTeam] gives it. *)
Definition teamShaped (entry : TeamKnowledgeEntry.t) : Prop :=
  String.prefix "team-" (TeamKnowledgeEntry.id entry) = true.

(** A report renderer for worked runs. *)
Definition plainReport {A : Type} (text : string) (_ : A) (w : Script)
    : Res JsError string * Script :=
  (Returned text, logged "report" w).

Section Api.

Context {W : Type} {collaborators : Collaborators W}.

(** [PatternRecognitionEngine.generateAntiPatternReport], a collaborator. *)
Variable generateAntiPatternReport : list AntiPattern.t -> W -> Res JsError string * W.

(** [BugXIntegrationSystem.generateTeamReport]: it reads the team-knowledge
    list and the metrics collector and renders a text; the rendering is a
    parameter here. *)
Variable generateTeamReport :
  list TeamKnowledgeEntry.t -> W -> Res JsError string * W.

(** [BugXv14.quickFix]. *)
Definition quickFix (developer errorMessage stackTrace codeContext fileName component : string)
    : M W BugXWorkflowResult.t :=
  runCompleteWorkflow developer
    {| ErrorDetails.message := errorMessage;
       ErrorDetails.stackTrace := stackTrace;
       ErrorDetails.codeContext := codeContext;
       ErrorDetails.fileName := fileName;
       ErrorDetails.component := component |}
    {| PartialConfig.timeTarget := Some 4.5%Q;
       PartialConfig.aiAssisted := Some true;
       PartialConfig.metricsEnabled := None;
       PartialConfig.preventionRequired := Some true;
       PartialConfig.documentationRequired := None;
       PartialConfig.patternRecognitionEnabled := None;
       PartialConfig.teamIntegration := None |}.

(** [BugXv14.analyzePattern]. *)
Definition analyzePattern (errorMessage codeContext fileName : string)
    : M W PatternAnalysis.t :=
  bind (call (analyzeError errorMessage "" codeContext fileName)) (fun patternMatches =>
  bind (call (detectAntiPatterns codeContext fileName)) (fun antiPatterns =>
  bind (call (generateAntiPatternReport antiPatterns)) (fun summary =>
  ret {| PatternAnalysis.bestMatch := head patternMatches;
         PatternAnalysis.allMatches := patternMatches;
         PatternAnalysis.antiPatterns := antiPatterns;
         PatternAnalysis.hasHighConfidenceMatch :=
           match patternMatches with
           | m :: _ => negb (Qle_bool (PatternMatch.confidence m) 80)
           | [] => false
           end;
         PatternAnalysis.summary := summary |}))).

(** [BugXIntegrationSystem.recordTeamKnowledgeFeedback] on the state. *)
Definition recordFeedback (entryId : string) (helpful : bool) (comment : option string)
    : M W unit :=
  fun s =>
    (Returned tt,
     {| config := config s;
        teamKnowledge :=
          recordTeamKnowledgeFeedback entryId helpful comment (teamKnowledge s);
        templates := templates s;
        notifications := notifications s;
        world := world s |}).

(** [BugXv14.shareWithTeam]: the session's id and success flag are handed to
    [recordTeamKnowledgeFeedback] as entry id and verdict. *)
Definition shareWithTeam (sessionResult : BugXWorkflowResult.t) (developer : string)
    (additionalNotes : option string) : M W ShareResult.t :=
  bind (recordFeedback (BugXWorkflowResult.sessionId sessionResult)
                       (BugXWorkflowResult.success sessionResult)
                       additionalNotes) (fun _ =>
  bind (fun s => (Returned (firstn 5 (getTeamKnowledge (teamKnowledge s))), s))
       (fun top =>
  bind (fun s => let (r, w) := generateTeamReport (teamKnowledge s) (world s) in
                 (r, withWorld s w)) (fun report =>
  ret {| ShareResult.shared := true;
         ShareResult.teamKnowledge := top;
         ShareResult.report := report |}))).

(** [BugXv14.configure]: the configuration it reports is built from
    [DEFAULT_CONFIG], not from the configuration in force. *)
Definition configure (newConfig : PartialConfig.t) : M W ConfigureResult.t :=
  bind (Integration.configure newConfig) (fun _ =>
  ret {| ConfigureResult.configured := true;
         ConfigureResult.config := mergeConfig DEFAULT_CONFIG newConfig |}).

Lemma prefix_head (a c : ascii) (p rest : string) :
  String.prefix (String a p) (String c rest) = true -> a = c.
Proof.
  cbn [String.prefix]. destruct (ascii_dec a c) as [ E | _ ]; [ now intros _ | discriminate ].
Qed.

Lemma shaped_differ (a b : string) :
  String.prefix "team-" a = true -> String.prefix "session-" b = true -> a <> b.
Proof.
  intros Ha Hb ->. destruct b as [ | c rest ]; [ discriminate Ha | ].
  apply prefix_head in Ha. apply prefix_head in Hb. rewrite <- Ha in Hb. discriminate Hb.
Qed.

Lemma session_id_without_metrics developer errorDetails (s s1 : State W)
    (startTime : Z) (sessionId : string) :
  metricsEnabled (config s) = false ->
  initializeSession developer errorDetails s = (Returned (startTime, sessionId), s1) ->
  String.prefix "session-" sessionId = true.
Proof.
  intros Hoff. unfold initializeSession, bind, ask, getConfig, ret.
  destruct (Date_now (world s)) as [t0 w1]. simpl. rewrite Hoff. simpl.
  destruct (Date_now w1) as [stamp w2]. simpl.
  intros H. inversion H; subst. apply WorkflowFacts.prefix_append.
Qed.

Lemma shareWithTeam_teamKnowledge sessionResult developer additionalNotes (s : State W) :
  teamKnowledge (snd (shareWithTeam sessionResult developer additionalNotes s))
  = recordTeamKnowledgeFeedback (BugXWorkflowResult.sessionId sessionResult)
      (BugXWorkflowResult.success sessionResult) additionalNotes (teamKnowledge s).
Proof.
  unfold shareWithTeam, bind, recordFeedback, ret. simpl.
  destruct (generateTeamReport _ _) as [[report | e] w]; reflexivity.
Qed.

(** [shareWithTeam] looks up the session id among the team-entry ids.  With
    metrics switched off in the static configuration a workflow names its
    session "session-..." while every entry it shares is named "team-...",
    so the feedback of [shareWithTeam] on the result of [quickFix] never
    lands: the team-knowledge list stays exactly as [quickFix] left it. *)
Theorem session_feedback_never_lands
    (developer errorMessage stackTrace codeContext fileName component : string)
    (additionalNotes : option string) (s s1 : State W) (r : BugXWorkflowResult.t) :
  metricsEnabled (config s) = false ->
  Forall teamShaped (teamKnowledge s) ->
  quickFix developer errorMessage stackTrace codeContext fileName component s
  = (Returned r, s1) ->
  String.prefix "session-" (BugXWorkflowResult.sessionId r) = true
  /\ Forall teamShaped (teamKnowledge s1)
  /\ teamKnowledge (snd (shareWithTeam r developer additionalNotes s1)) = teamKnowledge s1.
Proof.
  intros Hoff Hshaped Hrun. unfold quickFix in Hrun.
  assert (Hsid : String.prefix "session-" (BugXWorkflowResult.sessionId r) = true).
  { apply runCompleteWorkflow_returned in Hrun
      as (startTime & sessionId & s0 & Hinit & [Hdone | (endTime & Hfail)]).
    - destruct Hdone
        as [pm aps ca tpl steps pms doc s2 s3 s4 s5 s6 s7 H2 H3 H4 H5 H6 H7 H8].
      destruct (completePhase_result _ _ _ _ _ _ _ _ _ _ _ _ _ H8) as (_ & -> & _).
      eapply session_id_without_metrics; eauto.
    - rewrite Hfail. simpl. eapply session_id_without_metrics; eauto. }
  assert (Hshaped1 : Forall teamShaped (teamKnowledge s1)).
  { match type of Hrun with
    | runCompleteWorkflow ?d ?e ?o ?s0 = _ =>
        destruct (WorkflowFacts.runCompleteWorkflow_pushes d e o s0)
          as (added & Htk & _ & Hfresh)
    end.
    rewrite Hrun in Htk. simpl in Htk. rewrite Htk. apply Forall_app. split; [ exact Hshaped | ].
    eapply List.Forall_impl; [ | exact Hfresh ]. intros entry Hentry. apply Hentry. }
  split; [ exact Hsid | ]. split; [ exact Hshaped1 | ].
  rewrite shareWithTeam_teamKnowledge.
  apply IntegrationFacts.recordFeedback_unknown.
  unfold IntegrationFacts.entryIds. intros Hin. apply in_map_iff in Hin.
  destruct Hin as (entry & Hid & Hentry).
  rewrite List.Forall_forall in Hshaped1.
  apply (shaped_differ (TeamKnowledgeEntry.id entry) (BugXWorkflowResult.sessionId r));
    [ now apply Hshaped1 | exact Hsid | exact Hid ].
Qed.

(** What [analyzePattern] reports about its matches: the best match is the
    first; a high-confidence verdict means the first match exceeds 80; and
    when the engine's answer is ordered by non-increasing confidence, the
    verdict is negative only if no match at all exceeds 80. *)
Theorem analyzePattern_verdict (errorMessage codeContext fileName : string)
    (s s' : State W) (analysis : PatternAnalysis.t) :
  analyzePattern errorMessage codeContext fileName s = (Returned analysis, s') ->
  PatternAnalysis.bestMatch analysis = head (PatternAnalysis.allMatches analysis)
  /\ (PatternAnalysis.hasHighConfidenceMatch analysis = true ->
      exists m, PatternAnalysis.bestMatch analysis = Some m
                /\ (80 < PatternMatch.confidence m)%Q)
  /\ (StronglySorted (descending PatternMatch.confidence)
                     (PatternAnalysis.allMatches analysis) ->
      PatternAnalysis.hasHighConfidenceMatch analysis = false ->
      Forall (fun m => (PatternMatch.confidence m <= 80)%Q)
             (PatternAnalysis.allMatches analysis))
  /\ teamKnowledge s' = teamKnowledge s.
Proof.
  unfold analyzePattern. intros H.
  apply bind_returned in H as (pm & s1 & H1 & H).
  apply bind_returned in H as (aps & s2 & H2 & H).
  apply bind_returned in H as (summary & s3 & H3 & H).
  unfold ret in H. inversion H; subst. simpl.
  split; [ reflexivity | ]. split; [ | split ].
  - destruct pm as [ | m ms ]; [ discriminate | ]. intros Hhigh.
    exists m. split; [ reflexivity | ].
    apply Qnot_le_lt. intros Hle. apply Qle_bool_iff in Hle.
    rewrite Hle in Hhigh. discriminate Hhigh.
  - intros Hsorted Hlow. destruct pm as [ | m ms ]; [ constructor | ].
    assert (Hm : (PatternMatch.confidence m <= 80)%Q).
    { apply Qle_bool_iff. destruct (Qle_bool _ 80); [ reflexivity | discriminate Hlow ]. }
    constructor; [ exact Hm | ].
    inversion Hsorted as [ | ? ? _ Hall ]; subst.
    eapply List.Forall_impl; [ | exact Hall ].
    intros m' Hm'. unfold descending in Hm'. now apply Qle_trans with (PatternMatch.confidence m).
  - rewrite (preserved teamKnowledge _ _ _ _
               (preserves_call teamKnowledge WorkflowFacts.static_teamKnowledge _) H3).
    rewrite (preserved teamKnowledge _ _ _ _
               (preserves_call teamKnowledge WorkflowFacts.static_teamKnowledge _) H2).
    exact (preserved teamKnowledge _ _ _ _
             (preserves_call teamKnowledge WorkflowFacts.static_teamKnowledge _) H1).
Qed.

(** [BugXv14.configure] merges the given options into the configuration in
    force, and always returns; the configuration it reports is
    [DEFAULT_CONFIG] overridden by the given options, which is the
    configuration now in force exactly when every option left out still had
    its default value. *)
Theorem configure_reports_defaults (newConfig : PartialConfig.t) (s : State W) :
  exists r s',
    configure newConfig s = (Returned r, s')
    /\ ConfigureResult.configured r = true
    /\ Integration.config s' = mergeConfig (Integration.config s) newConfig
    /\ teamKnowledge s' = teamKnowledge s
    /\ world s' = world s
    /\ ConfigureResult.config r = mergeConfig DEFAULT_CONFIG newConfig
    /\ (ConfigureResult.config r = Integration.config s'
        <-> unsetOptionsAtDefault newConfig (Integration.config s)).
Proof.
  eexists. eexists. split; [ reflexivity | ]. simpl.
  repeat (split; [ reflexivity | ]).
  unfold unsetOptionsAtDefault, mergeConfig.
  destruct newConfig as [ o1 o2 o3 o4 o5 o6 o7 ].
  destruct (Integration.config s) as [ c1 c2 c3 c4 c5 c6 c7 ]. simpl.
  split.
  - intros H. injection H as E1 E2 E3 E4 E5 E6 E7.
    repeat split; intros ->; simpl in *; congruence.
  - intros (H1 & H2 & H3 & H4 & H5 & H6 & H7).
    f_equal;
      [ destruct o1 | destruct o2 | destruct o3 | destruct o4
      | destruct o5 | destruct o6 | destruct o7 ];
      simpl; first [ reflexivity | symmetry; auto ].
Qed.

End Api.

Lemma session_feedback_never_lands_witness :
  exists r s1,
    quickFix (collaborators := scripted [])
      "dev" "Hydration failed because the server rendered text"
      "at Component (/app/page.tsx:15:3)" "const value = Math.random();"
      "/app/page.tsx" "HomePage"
      (startState metricsDisabled [hydrationMatch] [randomInState])
    = (Returned r, s1)
    /\ BugXWorkflowResult.success r = true
    /\ map TeamKnowledgeEntry.effectiveness (teamKnowledge s1) = [85]
    /\ teamKnowledge (snd (shareWithTeam (plainReport "ok") r "dev" (Some "useful") s1))
       = teamKnowledge s1.
Proof.
  destruct (quickFix (collaborators := scripted [])
              "dev" "Hydration failed because the server rendered text"
              "at Component (/app/page.tsx:15:3)" "const value = Math.random();"
              "/app/page.tsx" "HomePage"
              (startState metricsDisabled [hydrationMatch] [randomInState]))
    as [[r | e] s1] eqn:Hrun; [ | vm_compute in Hrun; discriminate Hrun ].
  exists r, s1. split; [ reflexivity | ].
  destruct (session_feedback_never_lands (collaborators := scripted [])
              (plainReport "ok") _ _ _ _ _ _ (Some "useful")
              (startState metricsDisabled [hydrationMatch] [randomInState]) _ _
              eq_refl (List.Forall_nil _) Hrun) as (_ & _ & Hsame).
  vm_compute in Hrun. inversion Hrun; subst r s1.
  split; [ reflexivity | ]. split; [ reflexivity | exact Hsame ].
Defined.

Lemma analyzePattern_verdict_witness :
  exists analysis s',
    analyzePattern (collaborators := scripted []) (plainReport "1 critical")
      "Hydration failed" "const value = Math.random();" "/app/page.tsx"
      (startState DEFAULT_CONFIG [hydrationMatch] [randomInState])
    = (Returned analysis, s')
    /\ PatternAnalysis.hasHighConfidenceMatch analysis = true
    /\ PatternAnalysis.bestMatch analysis = Some hydrationMatch.
Proof.
  destruct (analyzePattern (collaborators := scripted []) (plainReport "1 critical")
              "Hydration failed" "const value = Math.random();" "/app/page.tsx"
              (startState DEFAULT_CONFIG [hydrationMatch] [randomInState]))
    as [[analysis | e] s'] eqn:Hrun; [ | vm_compute in Hrun; discriminate Hrun ].
  exists analysis, s'. split; [ reflexivity | ].
  destruct (analyzePattern_verdict (collaborators := scripted []) _ _ _ _ _ _ _ Hrun)
    as (Hbest & _).
  vm_compute in Hrun. inversion Hrun; subst analysis s'.
  split; [ reflexivity | exact Hbest ].
Defined.

End UnifiedApi.

(** ** Hydration parity ([behavioral-parity-tests.ts], continued) *)

Module ParityHtml.

Import ParityTests.

(** The double quote, as a one-character text. *)
Definition quote : string := String (ascii_of_nat 34) EmptyString.

(** Texts are sequences of code units below 256.  [\s] on these: tab, line
    feed, vertical tab, form feed, carriage return, space and no-break
    space; [trim] strips the same characters. *)
Definition isSpace (c : ascii) : bool :=
  let n := nat_of_ascii c in
  ((9 <=? n) && (n <=? 13) || (n =? 32) || (n =? 160))%nat.

(** The characters the regex dot does not match. *)
Definition isLineTerminator (c : ascii) : bool :=
  let n := nat_of_ascii c in
  ((n =? 10) || (n =? 13))%nat.

(** [s.replace(/\s+/g, ' ')]; [inRun] tells that the previous character was
    whitespace. *)
Fixpoint collapseWhitespace (inRun : bool) (s : string) : string :=
  match s with
  | EmptyString => EmptyString
  | String c rest =>
      if isSpace c then
        if inRun then collapseWhitespace true rest
        else String " " (collapseWhitespace true rest)
      else String c (collapseWhitespace false rest)
  end.

(** What is left of [s] after the prefix [p], if [s] starts with it. *)
Fixpoint stripPrefix (p s : string) : option string :=
  match p with
  | EmptyString => Some s
  | String a p' =>
      match s with
      | String c s' => if Ascii.eqb a c then stripPrefix p' s' else None
      | EmptyString => None
      end
  end.

(** The lazy [.*?-->]: what follows the nearest "-->", provided no line
    terminator comes before it. *)
Fixpoint skipComment (s : string) : option string :=
  match stripPrefix "-->" s with
  | Some after => Some after
  | None =>
      match s with
      | EmptyString => None
      | String c rest => if isLineTerminator c then None else skipComment rest
      end
  end.

(** [s.replace(/<!--.*?-->/g, '')], scanning from the left; [fuel] bounds
    the number of scanning steps. *)
Fixpoint removeCommentsWithin (fuel : nat) (s : string) : string :=
  match fuel with
  | O => s
  | S fuel' =>
      match s with
      | EmptyString => EmptyString
      | String c rest =>
          match stripPrefix "<!--" s with
          | Some body =>
              match skipComment body with
              | Some after => removeCommentsWithin fuel' after
              | None => String c (removeCommentsWithin fuel' rest)
              end
          | None => String c (removeCommentsWithin fuel' rest)
          end
      end
  end.

Definition removeComments (s : string) : string :=
  removeCommentsWithin (String.length s) s.

Fixpoint trimStart (s : string) : string :=
  match s with
  | EmptyString => EmptyString
  | String c rest => if isSpace c then trimStart rest else s
  end.

Fixpoint trimEnd (s : string) : string :=
  match s with
  | EmptyString => EmptyString
  | String c rest =>
      match trimEnd rest with
      | EmptyString => if isSpace c then EmptyString else String c EmptyString
      | kept => String c kept
      end
  end.

(** [String.prototype.trim]. *)
Definition trim (s : string) : string := trimEnd (trimStart s).

(** [normalizeHTML]. *)
Definition normalizeHTML (html : string) : string :=
  trim (removeComments (collapseWhitespace false html)).

(** [s.substring(from, to)] for [from <= to]. *)
Definition jsSubstring (from to : nat) (s : string) : string :=
  String.substring from (to - from) s.

(** The index of the first position, below both lengths, at which the two
    texts differ; [i] is the index of the heads. *)
Fixpoint firstDifference (i : nat) (server client : string) : option nat :=
  match server, client with
  | String a server', String b client' =>
      if Ascii.eqb a b then firstDifference (S i) server' client' else Some i
  | _, _ => None
  end.

(** [findMismatches]. *)
Definition findMismatches (server client : string) : list string :=
  let mismatches : list string := [] in
  let mismatches :=
    if (String.length server =? String.length client)%nat then mismatches
    else push mismatches
           ("Length mismatch: server=" ++ show_nat (String.length server)
            ++ ", client=" ++ show_nat (String.length client)) in
  match firstDifference 0 server client with
  | Some i =>
      let context := (i - 20)%nat in
      let serverContext := jsSubstring context (i + 20) server in
      let clientContext := jsSubstring context (i + 20) client in
      push mismatches
           ("Difference at position " ++ show_nat i ++ ": " ++ quote ++ serverContext
            ++ quote ++ " vs " ++ quote ++ clientContext ++ quote)
  | None => mismatches
  end.

(** What a renderer throws: an [Error] with its message, or another value. *)
Inductive Thrown : Type :=
| ErrorObject (message : string)
| OtherValue.

(** [testHydrationConsistency]; the arguments are the outcomes of
    [renderToString] on the component and of rendering it in the test DOM. *)
Definition testHydrationConsistency (serverRender clientRender : Res Thrown string)
    : ParityTestResult :=
  let testId := "HYDRATION_CONSISTENCY_001" in
  let failed (error : Thrown) :=
    {| testId := testId;
       passed := false;
       serverOutput := "ERROR";
       clientOutput := "ERROR";
       mismatchDetails :=
         Some [match error with
               | ErrorObject message => message
               | OtherValue => "Unknown error"
               end];
       recommendation := "Fix component rendering errors before testing hydration" |} in
  match serverRender with
  | Threw error => failed error
  | Returned serverHTML =>
      match clientRender with
      | Threw error => failed error
      | Returned clientHTML =>
          let serverNormalized := normalizeHTML serverHTML in
          let clientNormalized := normalizeHTML clientHTML in
          let passed := String.eqb serverNormalized clientNormalized in
          {| testId := testId;
             passed := passed;
             serverOutput := String.substring 0 200 serverHTML ++ "...";
             clientOutput := String.substring 0 200 clientHTML ++ "...";
             mismatchDetails :=
               if passed then None
               else Some (findMismatches serverNormalized clientNormalized);
             recommendation :=
               if passed then "Component renders consistently"
               else "Implement client-side state checks or use suppressHydrationWarning" |}
      end
  end.

(** Every character of the text satisfies [P]. *)
Definition allChars (P : ascii -> Prop) (s : string) : Prop :=
  Forall P (list_ascii_of_string s).

(** The only whitespace character that may be left is the plain space. *)
Definition plainSpace (c : ascii) : Prop := isSpace c = true -> c = " "%char.

Example normalizeHTML_ex :
  normalizeHTML
    (" <div>" ++ String (ascii_of_nat 10) "" ++ "  <!-- $ --><p>Active   Users</p> </div> ")
  = "<div> <p>Active Users</p> </div>".
Proof. reflexivity. Qed.

Example normalizeHTML_unclosed : normalizeHTML "a <!-- b" = "a <!-- b".
Proof. reflexivity. Qed.

Example normalizeHTML_joins_spaces : normalizeHTML "a <!--x--> b" = "a  b".
Proof. reflexivity. Qed.

Example findMismatches_ex :
  findMismatches "<p>125</p>" "<p>98</p>"
  = ["Length mismatch: server=10, client=9";
     "Difference at position 3: " ++ quote ++ "<p>125</p>" ++ quote ++ " vs "
       ++ quote ++ "<p>98</p>" ++ quote].
Proof. reflexivity. Qed.

(** *** [findMismatches] *)

Lemma firstDifference_none (server client : string) (i : nat) :
  firstDifference i server client = None ->
  String.length server = String.length client -> server = client.
Proof.
  revert client i. induction server as [ | a server IH ]; intros [ | b client ] i H L;
    simpl in *; try reflexivity; try discriminate L.
  destruct (Ascii.eqb_spec a b) as [ -> | ]; [ | discriminate H ].
  f_equal. apply (IH client (S i)); [ exact H | lia ].
Qed.

Lemma firstDifference_same (s : string) (i : nat) : firstDifference i s s = None.
Proof.
  revert i. induction s as [ | a s IH ]; intros i; simpl; [ reflexivity | ].
  rewrite Ascii.eqb_refl. apply IH.
Qed.

Lemma firstDifference_found (server client : string) (i j : nat) :
  firstDifference i server client = Some j ->
  (i <= j)%nat
  /\ (j - i < String.length server)%nat /\ (j - i < String.length client)%nat
  /\ String.get (j - i) server <> String.get (j - i) client
  /\ String.substring 0 (j - i) server = String.substring 0 (j - i) client.
Proof.
  revert client i. induction server as [ | a server IH ]; intros [ | b client ] i H;
    simpl in H; try discriminate H.
  destruct (Ascii.eqb_spec a b) as [ -> | Hne ].
  - destruct (IH client (S i) H) as (Hle & Hs & Hc & Hget & Hsub).
    replace (j - i)%nat with (S (j - S i)) by lia. simpl.
    repeat split; try lia; [ exact Hget | now rewrite Hsub ].
  - inversion H; subst j. rewrite Nat.sub_diag. simpl.
    repeat split; try lia. congruence.
Qed.

Lemma append_associative (a b c : string) : (a ++ b) ++ c = a ++ (b ++ c).
Proof.
  induction a as [ | x a IH ]; [ reflexivity | ].
  change (String x ((a ++ b) ++ c) = String x (a ++ (b ++ c))). now rewrite IH.
Qed.

Lemma length_of_append (a b : string) :
  String.length (a ++ b) = (String.length a + String.length b)%nat.
Proof.
  induction a as [ | x a IH ]; [ reflexivity | ].
  change (S (String.length (a ++ b)) = S (String.length a + String.length b)).
  now rewrite IH.
Qed.

Lemma prefix_of_append (p s : string) : String.prefix p (p ++ s) = true.
Proof.
  induction p as [ | c p IH ]; simpl.
  - now destruct s.
  - destruct (ascii_dec c c) as [ _ | Hne ]; [ exact IH | now elim Hne ].
Qed.

Lemma push_not_nil {A : Type} (l : list A) (x : A) : push l x <> [].
Proof. unfold push. destruct l; discriminate. Qed.

Lemma findMismatches_nil (server client : string) :
  findMismatches server client = [] <-> server = client.
Proof.
  unfold findMismatches. split.
  - intros H.
    destruct (firstDifference 0 server client) as [ i | ] eqn:Hd.
    + now apply push_not_nil in H.
    + destruct (Nat.eqb_spec (String.length server) (String.length client)) as [ L | ].
      * now apply (firstDifference_none server client 0%nat).
      * now apply push_not_nil in H.
  - intros ->. rewrite firstDifference_same, Nat.eqb_refl. reflexivity.
Qed.

(** [findMismatches] reports nothing exactly when the two texts are equal,
    and never more than two lines; a position it reports is the first one
    at which the texts differ. *)
Theorem findMismatches_empty_iff_equal (server client : string) :
  (findMismatches server client = [] <-> server = client)
  /\ (length (findMismatches server client) <= 2)%nat
  /\ (forall i, firstDifference 0 server client = Some i ->
      String.get i server <> String.get i client
      /\ String.substring 0 i server = String.substring 0 i client
      /\ exists line, last (findMismatches server client) = Some line
                       /\ String.prefix ("Difference at position " ++ show_nat i ++ ": ") line
                          = true).
Proof.
  split; [ apply findMismatches_nil | ]. split.
  - unfold findMismatches, push.
    destruct (firstDifference 0 server client);
      destruct (String.length server =? String.length client)%nat; simpl; lia.
  - intros i Hd.
    destruct (firstDifference_found server client 0 i Hd) as (_ & _ & _ & Hget & Hsub).
    rewrite Nat.sub_0_r in Hget, Hsub.
    split; [ exact Hget | ]. split; [ exact Hsub | ].
    unfold findMismatches. rewrite Hd. unfold push. rewrite last_snoc.
    eexists. split; [ reflexivity | ].
    rewrite <- (append_associative (show_nat i) ": ").
    rewrite <- (append_associative "Difference at position " (show_nat i ++ ": ")).
    apply prefix_of_append.
Qed.

(** *** [testHydrationConsistency] *)

(** The hydration test passes exactly when both renderings return and their
    normalised texts are equal; a passing result carries no mismatch
    details, and a failing one always carries at least one line, so that no
    failure is left unexplained; the two outputs are cut to 200 characters
    plus an ellipsis. *)
Theorem hydration_verdict_is_explained (serverRender clientRender : Res Thrown string) :
  let r := testHydrationConsistency serverRender clientRender in
  (passed r = true <->
   exists serverHTML clientHTML,
     serverRender = Returned serverHTML /\ clientRender = Returned clientHTML
     /\ normalizeHTML serverHTML = normalizeHTML clientHTML)
  /\ (passed r = true -> mismatchDetails r = None)
  /\ (passed r = false -> exists line lines, mismatchDetails r = Some (line :: lines))
  /\ (String.length (serverOutput r) <= 203)%nat
  /\ (String.length (clientOutput r) <= 203)%nat.
Proof.
  assert (Hcut : forall s, (String.length (String.substring 0 200 s ++ "...") <= 203)%nat).
  { intros s. rewrite length_of_append.
    assert (forall n t, (String.length (String.substring 0 n t) <= n)%nat) as Hn.
    { induction n as [ | n IHn ]; intros [ | c t ]; simpl; try lia.
      specialize (IHn t). lia. }
    specialize (Hn 200%nat s). simpl String.length at 2. lia. }
  unfold testHydrationConsistency.
  destruct serverRender as [ serverHTML | e1 ]; [ destruct clientRender as [ clientHTML | e2 ] | ];
    cbn [passed mismatchDetails serverOutput clientOutput].
  - destruct (String.eqb_spec (normalizeHTML serverHTML) (normalizeHTML clientHTML))
      as [ E | Hne ].
    + repeat split; auto; try discriminate.
      exists serverHTML, clientHTML. auto.
    + repeat split; auto; try discriminate.
      * intros (sh & ch & Hs & Hc & E). inversion Hs; inversion Hc; subst. contradiction.
      * intros _. destruct (findMismatches (normalizeHTML serverHTML)
                              (normalizeHTML clientHTML)) as [ | line lines ] eqn:Hm.
        -- apply findMismatches_nil in Hm. contradiction.
        -- eauto.
  - repeat split; try discriminate; try (simpl; lia); eauto.
    intros (sh & ch & _ & Hc & _). discriminate Hc.
  - repeat split; try discriminate; try (simpl; lia); eauto.
    intros (sh & ch & Hs & _). discriminate Hs.
Qed.

(** *** [normalizeHTML] *)

Lemma allChars_cons (P : ascii -> Prop) (c : ascii) (s : string) :
  allChars P (String c s) <-> P c /\ allChars P s.
Proof. unfold allChars. simpl. apply List.Forall_cons_iff. Qed.

Lemma collapse_plain (s : string) (inRun : bool) :
  allChars plainSpace (collapseWhitespace inRun s).
Proof.
  revert inRun. induction s as [ | c s IH ]; intros inRun; simpl.
  - constructor.
  - destruct (isSpace c) eqn:Hc.
    + destruct inRun; [ apply IH | ].
      apply allChars_cons. split; [ intros _; reflexivity | apply IH ].
    + apply allChars_cons. split; [ | apply IH ].
      intros H. congruence.
Qed.

Lemma stripPrefix_chars (P : ascii -> Prop) (p s rest : string) :
  stripPrefix p s = Some rest -> allChars P s -> allChars P rest.
Proof.
  revert s. induction p as [ | a p IH ]; intros s H Hs; simpl in H.
  - now inversion H; subst.
  - destruct s as [ | c s ]; [ discriminate H | ].
    destruct (Ascii.eqb a c); [ | discriminate H ].
    apply allChars_cons in Hs. apply (IH s H), Hs.
Qed.

Lemma stripPrefix_length (p s rest : string) :
  stripPrefix p s = Some rest ->
  String.length s = (String.length p + String.length rest)%nat.
Proof.
  revert s. induction p as [ | a p IH ]; intros s H; simpl in H.
  - now inversion H; subst.
  - destruct s as [ | c s ]; [ discriminate H | ].
    destruct (Ascii.eqb a c); [ | discriminate H ].
    simpl. f_equal. now apply IH.
Qed.

Lemma skipComment_chars (P : ascii -> Prop) (s rest : string) :
  skipComment s = Some rest -> allChars P s -> allChars P rest.
Proof.
  induction s as [ | c s IH ]; intros H Hs.
  - simpl in H. discriminate H.
  - unfold skipComment in H; fold skipComment in H.
    destruct (stripPrefix "-->" (String c s)) as [ after | ] eqn:Hp.
    + inversion H; subst after. exact (stripPrefix_chars P _ _ _ Hp Hs).
    + destruct (isLineTerminator c); [ discriminate H | ].
      apply allChars_cons in Hs. apply IH; tauto.
Qed.

Lemma skipComment_length (s rest : string) :
  skipComment s = Some rest -> (String.length rest + 3 <= String.length s)%nat.
Proof.
  induction s as [ | c s IH ]; intros H.
  - simpl in H. discriminate H.
  - unfold skipComment in H; fold skipComment in H.
    destruct (stripPrefix "-->" (String c s)) as [ after | ] eqn:Hp.
    + inversion H; subst after. apply stripPrefix_length in Hp. simpl in *. lia.
    + destruct (isLineTerminator c); [ discriminate H | ].
      specialize (IH H). simpl. lia.
Qed.

Lemma removeCommentsWithin_chars (P : ascii -> Prop) (fuel : nat) (s : string) :
  allChars P s -> allChars P (removeCommentsWithin fuel s).
Proof.
  revert s. induction fuel as [ | fuel IH ]; intros s Hs; [ exact Hs | ].
  destruct s as [ | c s ]; [ constructor | ].
  unfold removeCommentsWithin; fold removeCommentsWithin.
  assert (Hkeep : allChars P (String c (removeCommentsWithin fuel s))).
  { apply allChars_cons in Hs. apply allChars_cons. split; [ tauto | apply IH; tauto ]. }
  destruct (stripPrefix "<!--" (String c s)) as [ body | ] eqn:Hp; [ | exact Hkeep ].
  destruct (skipComment body) as [ after | ] eqn:Hk; [ | exact Hkeep ].
  apply IH. apply (skipComment_chars P body after Hk).
  exact (stripPrefix_chars P _ _ _ Hp Hs).
Qed.

(** The scan never needs more steps than the text has characters. *)
Lemma removeCommentsWithin_enough (fuel : nat) (s : string) :
  (String.length s <= fuel)%nat ->
  removeCommentsWithin fuel s = removeCommentsWithin (String.length s) s.
Proof.
  revert s. induction fuel as [ fuel IH ] using lt_wf_ind. intros s Hle.
  destruct s as [ | c s ]; [ destruct fuel; reflexivity | ].
  destruct fuel as [ | fuel ]; [ simpl in Hle; lia | ].
  simpl String.length.
  unfold removeCommentsWithin; fold removeCommentsWithin.
  simpl in Hle.
  assert (Hrest : removeCommentsWithin fuel s = removeCommentsWithin (String.length s) s)
    by (apply IH; lia).
  destruct (stripPrefix "<!--" (String c s)) as [ body | ] eqn:Hp;
    [ | now rewrite Hrest ].
  destruct (skipComment body) as [ after | ] eqn:Hk; [ | now rewrite Hrest ].
  apply stripPrefix_length in Hp. apply skipComment_length in Hk.
  simpl in Hp.
  rewrite (IH fuel) by lia.
  symmetry. apply (IH (String.length s)); lia.
Qed.

Lemma trimStart_chars (P : ascii -> Prop) (s : string) :
  allChars P s -> allChars P (trimStart s).
Proof.
  induction s as [ | c s IH ]; intros Hs; simpl; [ exact Hs | ].
  destruct (isSpace c); [ | exact Hs ].
  apply allChars_cons in Hs. apply IH; tauto.
Qed.

Lemma trimEnd_chars (P : ascii -> Prop) (s : string) :
  allChars P s -> allChars P (trimEnd s).
Proof.
  induction s as [ | c s IH ]; intros Hs; simpl; [ exact Hs | ].
  apply allChars_cons in Hs. destruct Hs as [Hc Hs]. specialize (IH Hs).
  destruct (trimEnd s) as [ | d kept ].
  - destruct (isSpace c); [ constructor | ].
    apply allChars_cons. split; [ exact Hc | constructor ].
  - apply allChars_cons. split; [ exact Hc | exact IH ].
Qed.

Lemma trimStart_head (s : string) (c : ascii) (rest : string) :
  trimStart s = String c rest -> isSpace c = false.
Proof.
  induction s as [ | d s IH ]; simpl; intros H; [ discriminate H | ].
  destruct (isSpace d) eqn:Hd; [ now apply IH | ].
  now inversion H; subst.
Qed.

Lemma trimEnd_head (s : string) (c : ascii) (rest : string) :
  (forall d t, s = String d t -> isSpace d = false) ->
  trimEnd s = String c rest -> isSpace c = false.
Proof.
  intros Hhead H. destruct s as [ | d t ]; simpl in H; [ discriminate H | ].
  specialize (Hhead d t eq_refl).
  destruct (trimEnd t) as [ | e kept ].
  - rewrite Hhead in H. now inversion H; subst.
  - now inversion H; subst.
Qed.

Lemma trimEnd_last (s front : string) (c : ascii) :
  trimEnd s = front ++ String c "" -> isSpace c = false.
Proof.
  revert front. induction s as [ | d s IH ]; intros front H; simpl in H.
  - destruct front; discriminate H.
  - destruct (trimEnd s) as [ | e kept ] eqn:Hk.
    + destruct (isSpace d) eqn:Hd.
      * destruct front; discriminate H.
      * destruct front as [ | f front ]; simpl in H.
        -- now inversion H; subst.
        -- inversion H. destruct front; discriminate.
    + destruct front as [ | f front ]; simpl in H.
      * inversion H.
      * inversion H. now apply (IH front).
Qed.

(** The normalised text holds no whitespace character other than the plain
    space (no tab or line break survives), and neither starts nor ends with
    whitespace. *)
Theorem normalizeHTML_shape (html : string) :
  allChars plainSpace (normalizeHTML html)
  /\ (forall c rest, normalizeHTML html = String c rest -> isSpace c = false)
  /\ (forall front c, normalizeHTML html = front ++ String c "" -> isSpace c = false).
Proof.
  unfold normalizeHTML, trim, removeComments. split; [ | split ].
  - apply trimEnd_chars, trimStart_chars, removeCommentsWithin_chars, collapse_plain.
  - intros c rest H. apply (trimEnd_head _ c rest) in H; [ exact H | ].
    intros d t E. now apply trimStart_head in E.
  - intros front c H. now apply trimEnd_last in H.
Qed.

(** *** [testRandomValueConsistency] *)

Lemma random_value_range (r : Q) :
  (0 <= r)%Q -> (r < 1)%Q -> 50 <= Math_floor (r * 150) + 50 <= 199.
Proof.
  intros H0 H1. unfold Math_floor.
  assert (L : 0 <= Qfloor (r * 150)).
  { change 0 with (Qfloor 0). apply Qfloor_resp_le.
    apply Qmult_le_0_compat; [ exact H0 | discriminate ]. }
  assert (U : Qfloor (r * 150) < 150).
  { rewrite Zlt_Qlt. apply Qle_lt_trans with (r * 150)%Q; [ apply Qfloor_le | ].
    change (inject_Z 150) with (1 * 150)%Q.
    apply Qmult_lt_compat_r; [ reflexivity | exact H1 ]. }
  lia.
Qed.

(** For draws of [Math.random], which lie in [0, 1), both reported values
    are whole numbers from 50 to 199. *)
Theorem random_values_in_range (random1 random2 : Q) :
  (0 <= random1)%Q -> (random1 < 1)%Q -> (0 <= random2)%Q -> (random2 < 1)%Q ->
  exists serverValue clientValue : Z,
    50 <= serverValue <= 199 /\ 50 <= clientValue <= 199
    /\ serverOutput (testRandomValueConsistency random1 random2)
       = "Active Users: " ++ show_Z serverValue
    /\ clientOutput (testRandomValueConsistency random1 random2)
       = "Active Users: " ++ show_Z clientValue.
Proof.
  intros A1 B1 A2 B2.
  exists (Math_floor (random1 * 150) + 50), (Math_floor (random2 * 150) + 50).
  split; [ now apply random_value_range | ].
  split; [ now apply random_value_range | ].
  split; reflexivity.
Qed.

Lemma random_values_in_range_witness :
  exists serverValue clientValue : Z,
    50 <= serverValue <= 199 /\ 50 <= clientValue <= 199
    /\ serverOutput (testRandomValueConsistency 0 (149 # 150))
       = "Active Users: " ++ show_Z serverValue
    /\ clientOutput (testRandomValueConsistency 0 (149 # 150))
       = "Active Users: " ++ show_Z clientValue.
Proof.
  apply (random_values_in_range 0 (149 # 150)); reflexivity || discriminate.
Defined.

End ParityHtml.

(** ** Activity logs ([queries.ts], [getActivityLogs]) *)

Module ActivityLogs.

Import Queries.

(** A row of the [activity_logs] table. *)
Module ActivityLog.
Record t : Type := {
  id : Z;
  userId : Z;
  action : string;
  timestamp : Z;
  ipAddress : option string;
  metadata : option string
}.
End ActivityLog.

(** A row of the selection; [userName] is [null] where the left join found
    no user, and where the user it found has no name. *)
Module LogRow.
Record t : Type := {
  id : Z;
  action : string;
  timestamp : Z;
  ipAddress : option string;
  metadata : option string;
  userName : option string
}.
End LogRow.

(** [activityLogs LEFT JOIN users ON activityLogs.userId = users.id], for
    one log row. *)
Definition leftJoin (users : list User) (log : ActivityLog.t)
    : list (ActivityLog.t * option User) :=
  match List.filter (fun u => Queries.id u =? ActivityLog.userId log) users with
  | [] => [(log, None)]
  | joined => map (fun u => (log, Some u)) joined
  end.

(** The selected columns. *)
Definition project (joined : ActivityLog.t * option User) : LogRow.t :=
  let (log, user) := joined in
  {| LogRow.id := ActivityLog.id log;
     LogRow.action := ActivityLog.action log;
     LogRow.timestamp := ActivityLog.timestamp log;
     LogRow.ipAddress := ActivityLog.ipAddress log;
     LogRow.metadata := ActivityLog.metadata log;
     LogRow.userName := match user with Some u => name u | None => None end |}.

(** The query of [getActivityLogs]: join, [where], [orderBy(desc(timestamp))],
    [limit(10)], then the selected columns.  Rows with equal timestamps stay
    in the order of the join. *)
Definition selectActivityLogs (env : Env) (activityLogs : Res Exn (list ActivityLog.t))
    (userId : Z) : Res Exn (list LogRow.t) :=
  match users env, activityLogs with
  | Returned users, Returned logs =>
      let joined := flat_map (leftJoin users) logs in
      let selected :=
        List.filter (fun j => ActivityLog.userId (fst j) =? userId) joined in
      let ordered :=
        sort_desc (fun j => inject_Z (ActivityLog.timestamp (fst j))) selected in
      Returned (map project (firstn 10 ordered))
  | Threw e, _ => Threw e
  | _, Threw e => Threw e
  end.

(** [getActivityLogs]: the [catch] block logs and rethrows. *)
Definition getActivityLogs (env : Env) (activityLogs : Res Exn (list ActivityLog.t))
    : Res Exn (list LogRow.t) :=
  match ensureDatabaseInitialized env with
  | Threw error => Threw error
  | Returned _ =>
      match getUser env with
      | Threw error => Threw error
      | Returned None => Threw "User not authenticated"
      | Returned (Some user) => selectActivityLogs env activityLogs (Queries.id user)
      end
  end.

(** [row] shows the log entry [log]. *)
Definition shows (row : LogRow.t) (log : ActivityLog.t) : Prop :=
  LogRow.id row = ActivityLog.id log
  /\ LogRow.action row = ActivityLog.action log
  /\ LogRow.timestamp row = ActivityLog.timestamp log
  /\ LogRow.ipAddress row = ActivityLog.ipAddress log
  /\ LogRow.metadata row = ActivityLog.metadata log.

(** Newest first. *)
Definition newestFirst (a b : LogRow.t) : Prop :=
  LogRow.timestamp b <= LogRow.timestamp a.

Definition signInLog : ActivityLog.t :=
  {| ActivityLog.id := 1; ActivityLog.userId := 7; ActivityLog.action := "SIGN_IN";
     ActivityLog.timestamp := 1700000000000; ActivityLog.ipAddress := Some "";
     ActivityLog.metadata := None |}.

Definition signOutLog : ActivityLog.t :=
  {| ActivityLog.id := 2; ActivityLog.userId := 7; ActivityLog.action := "SIGN_OUT";
     ActivityLog.timestamp := 1700000600000; ActivityLog.ipAddress := Some "";
     ActivityLog.metadata := None |}.

Definition foreignLog : ActivityLog.t :=
  {| ActivityLog.id := 3; ActivityLog.userId := 8; ActivityLog.action := "SIGN_IN";
     ActivityLog.timestamp := 1700000900000; ActivityLog.ipAddress := None;
     ActivityLog.metadata := None |}.

(** The environment of [goodEnv] without a session cookie. *)
Definition anonymousEnv : Env :=
  {| ensureDatabaseInitialized := Returned tt;
     sessionCookie := Returned None;
     verifyToken := verifyToken goodEnv;
     parseDate := parseDate goodEnv;
     now := now goodEnv;
     users := users goodEnv |}.

(** A table in which user 7 signed up without a name. *)
Definition namelessEnv : Env :=
  {| ensureDatabaseInitialized := Returned tt;
     sessionCookie := sessionCookie goodEnv;
     verifyToken := verifyToken goodEnv;
     parseDate := parseDate goodEnv;
     now := now goodEnv;
     users := Returned [{| Queries.id := 7; name := None; email := "alice@example.org";
                           deletedAt := None |}] |}.

Example getActivityLogs_ex :
  option_map (map LogRow.action)
    (match getActivityLogs goodEnv (Returned [signInLog; foreignLog; signOutLog]) with
     | Returned rows => Some rows
     | Threw _ => None
     end)
  = Some ["SIGN_OUT"; "SIGN_IN"].
Proof. reflexivity. Qed.

Lemma sorted_weaken {A : Type} (R S : A -> A -> Prop) (l : list A) :
  (forall a b, R a b -> S a b) -> StronglySorted R l -> StronglySorted S l.
Proof.
  intros HRS. induction 1 as [ | x l Hs IH Hx ]; constructor; [ exact IH | ].
  rewrite List.Forall_forall in *. intros y Hy. apply HRS. now apply Hx.
Qed.

Lemma sorted_map {A B : Type} (f : A -> B) (R : B -> B -> Prop) (l : list A) :
  StronglySorted (fun a b => R (f a) (f b)) l -> StronglySorted R (map f l).
Proof.
  induction 1 as [ | x l Hs IH Hx ]; simpl; constructor; [ exact IH | ].
  rewrite List.Forall_forall in *. intros y Hy. apply in_map_iff in Hy.
  destruct Hy as (a & <- & Ha). now apply Hx.
Qed.

(** What is cut off a sorted list by [firstn] comes after all that is kept. *)
Lemma firstn_keeps_first {A : Type} (R : A -> A -> Prop) (n : nat) (l : list A) (x : A) :
  StronglySorted R l -> In x l ->
  In x (firstn n l) \/ (length (firstn n l) = n /\ Forall (fun y => R y x) (firstn n l)).
Proof.
  intros H. revert n. induction H as [ | y l Hs IH Hy ]; intros n Hin; [ contradiction | ].
  destruct n as [ | n ]; [ right; split; [ reflexivity | constructor ] | ].
  simpl. destruct Hin as [ -> | Hin ]; [ left; now left | ].
  destruct (IH n Hin) as [ Hk | [ Hlen Hall ] ]; [ left; now right | ].
  right. split; [ simpl; now rewrite Hlen | ].
  constructor; [ | exact Hall ].
  rewrite List.Forall_forall in Hy. now apply Hy.
Qed.

Lemma leftJoin_log (users : list User) (log : ActivityLog.t) (j : ActivityLog.t * option User) :
  In j (leftJoin users log) -> fst j = log.
Proof.
  unfold leftJoin.
  destruct (List.filter _ users) as [ | u joined ]; intros H.
  - destruct H as [ <- | [] ]. reflexivity.
  - apply in_map_iff in H. destruct H as (v & <- & _). reflexivity.
Qed.

Lemma leftJoin_matched (users : list User) (log : ActivityLog.t) (u : User)
    (j : ActivityLog.t * option User) :
  In u users -> Queries.id u = ActivityLog.userId log ->
  In j (leftJoin users log) -> snd j <> None.
Proof.
  unfold leftJoin. intros Hu Hid.
  assert (Hf : In u (List.filter (fun u => Queries.id u =? ActivityLog.userId log) users)).
  { apply filter_In. split; [ exact Hu | now apply Z.eqb_eq ]. }
  destruct (List.filter _ users) as [ | v joined ]; [ contradiction | ].
  intros H. apply in_map_iff in H. destruct H as (w & <- & _). discriminate.
Qed.

Lemma leftJoin_user (users : list User) (log : ActivityLog.t) (u : User)
    (j : ActivityLog.t * option User) :
  In u users -> Queries.id u = ActivityLog.userId log ->
  In j (leftJoin users log) ->
  exists v, snd j = Some v /\ In v users /\ Queries.id v = ActivityLog.userId log.
Proof.
  unfold leftJoin. intros Hu Hid.
  assert (Hf : In u (List.filter (fun u => Queries.id u =? ActivityLog.userId log) users)).
  { apply filter_In. split; [ exact Hu | now apply Z.eqb_eq ]. }
  destruct (List.filter _ users) as [ | v joined ] eqn:Hjoined; [ contradiction | ].
  intros H. apply in_map_iff in H. destruct H as (w & <- & Hw).
  exists w. split; [ reflexivity | ].
  rewrite <- Hjoined in Hw. apply filter_In in Hw. destruct Hw as [ Hw E ].
  split; [ exact Hw | now apply Z.eqb_eq ].
Qed.

Lemma leftJoin_nonempty (users : list User) (log : ActivityLog.t) :
  exists j, In j (leftJoin users log).
Proof.
  unfold leftJoin. destruct (List.filter _ users) as [ | v joined ].
  - eexists. now left.
  - eexists. simpl. now left.
Qed.

Lemma getUser_in_table (env : Env) (u : User) :
  getUser env = Returned (Some u) ->
  exists rows, users env = Returned rows /\ In u rows.
Proof.
  intros H. apply getUser_some_iff in H.
  destruct H as (_ & c & sd & n & rows & _ & _ & _ & _ & _ & Hrows & Hh).
  apply head_filter_sound in Hh. exists rows. tauto.
Qed.

Example getActivityLogs_null_name :
  option_map (map LogRow.userName)
    (match getActivityLogs namelessEnv (Returned [signInLog; foreignLog; signOutLog]) with
     | Returned rows => Some rows
     | Threw _ => None
     end)
  = Some [None; None].
Proof. reflexivity. Qed.

(** When [getActivityLogs] returns, the caller is an authenticated user and
    the rows are at most ten; each shows a log entry of that user, with the
    name -- possibly [null] -- of a row of [users] that has the user's id
    (the left join always finds one); the rows are ordered newest first, and
    no entry of the user that is newer than a returned row is left out. *)
Theorem activity_logs_are_the_users_latest (env : Env)
    (activityLogs : Res Exn (list ActivityLog.t)) (rows : list LogRow.t) :
  getActivityLogs env activityLogs = Returned rows ->
  exists user table logs,
    getUser env = Returned (Some user)
    /\ users env = Returned table
    /\ activityLogs = Returned logs
    /\ (length rows <= 10)%nat
    /\ Forall (fun row => (exists u, In u table /\ Queries.id u = Queries.id user
                                     /\ LogRow.userName row = name u)
                          /\ exists log, In log logs
                                         /\ ActivityLog.userId log = Queries.id user
                                         /\ shows row log) rows
    /\ StronglySorted newestFirst rows
    /\ (forall log, In log logs -> ActivityLog.userId log = Queries.id user ->
        (exists row, In row rows /\ shows row log)
        \/ (length rows = 10%nat
            /\ Forall (fun row => ActivityLog.timestamp log <= LogRow.timestamp row) rows)).
Proof.
  unfold getActivityLogs. intros H.
  destruct (ensureDatabaseInitialized env) as [ [] | ]; [ | discriminate H ].
  destruct (getUser env) as [ [ user | ] | ] eqn:Hu; try discriminate H.
  destruct (getUser_in_table env user Hu) as (table & Htable & Huser).
  unfold selectActivityLogs in H. rewrite Htable in H.
  destruct activityLogs as [ logs | ]; [ | discriminate H ].
  exists user, table, logs.
  split; [ reflexivity | ]. split; [ exact Htable | ]. split; [ reflexivity | ].
  inversion H as [ Hrows ]. clear H.
  set (key := fun j : ActivityLog.t * option User =>
                inject_Z (ActivityLog.timestamp (fst j))).
  set (selected := List.filter
                     (fun j : ActivityLog.t * option User =>
                        ActivityLog.userId (fst j) =? Queries.id user)
                     (flat_map (leftJoin table) logs)).
  assert (Hsel : forall j, In j (sort_desc key selected) ->
                           In (fst j) logs
                           /\ ActivityLog.userId (fst j) = Queries.id user
                           /\ exists v, snd j = Some v /\ In v table
                                        /\ Queries.id v = Queries.id user).
  { intros j Hj. apply (Permutation_in _ (sort_desc_perm key selected)) in Hj.
    apply filter_In in Hj. destruct Hj as [Hj Hid]. apply Z.eqb_eq in Hid.
    apply in_flat_map in Hj. destruct Hj as (log & Hlog & Hj).
    pose proof (leftJoin_log table log j Hj) as E.
    split; [ now rewrite E | ]. split; [ exact Hid | ].
    rewrite E in Hid.
    destruct (leftJoin_user table log user j Huser (eq_sym Hid) Hj) as (v & Hv & Hin & Ev).
    exists v. split; [ exact Hv | ]. split; [ exact Hin | congruence ]. }
  assert (Hsorted : StronglySorted (fun a b => newestFirst (project a) (project b))
                      (sort_desc key selected)).
  { apply (sorted_weaken (descending key)); [ | apply (sort_desc_sorted key) ].
    intros [ la ua ] [ lb ub ]. unfold descending, key, newestFirst. simpl.
    now rewrite <- Zle_Qle. }
  split; [ | split; [ | split ] ].
  - rewrite length_map, length_firstn. lia.
  - rewrite List.Forall_forall. intros row Hrow.
    apply in_map_iff in Hrow. destruct Hrow as ([ log u ] & <- & Hj).
    apply IntegrationFacts.In_firstn_In in Hj.
    destruct (Hsel _ Hj) as (Hlog & Hid & v & Hv & Hin & Ev).
    simpl in *. subst u. split.
    + exists v. auto.
    + exists log. unfold shows. simpl. tauto.
  - apply sorted_map, IntegrationFacts.StronglySorted_firstn, Hsorted.
  - intros log Hlog Hid.
    destruct (leftJoin_nonempty table log) as (j & Hj).
    assert (Hin : In j (sort_desc key selected)).
    { apply (Permutation_in _ (Permutation_sym (sort_desc_perm key selected))).
      apply filter_In. split.
      - apply in_flat_map. now exists log.
      - apply Z.eqb_eq. now rewrite (leftJoin_log table log j Hj). }
    destruct (firstn_keeps_first _ 10 _ j Hsorted Hin) as [ Hk | [ Hlen Hall ] ].
    + left. exists (project j). split; [ now apply in_map | ].
      rewrite <- (leftJoin_log table log j Hj). destruct j. unfold shows. simpl. tauto.
    + right. split; [ now rewrite length_map | ].
      rewrite List.Forall_forall in *. intros row Hrow.
      apply in_map_iff in Hrow. destruct Hrow as (a & <- & Ha).
      specialize (Hall a Ha). unfold newestFirst in Hall.
      rewrite <- (leftJoin_log table log j Hj). destruct j, a. exact Hall.
Qed.

Lemma activity_logs_are_the_users_latest_witness :
  exists rows,
    getActivityLogs goodEnv (Returned [signInLog; foreignLog; signOutLog]) = Returned rows
    /\ (length rows <= 10)%nat
    /\ StronglySorted newestFirst rows.
Proof.
  destruct (getActivityLogs goodEnv (Returned [signInLog; foreignLog; signOutLog]))
    as [ rows | e ] eqn:Hrun; [ | vm_compute in Hrun; discriminate Hrun ].
  exists rows. split; [ reflexivity | ].
  destruct (activity_logs_are_the_users_latest goodEnv _ rows Hrun)
    as (user & table & logs & _ & _ & _ & Hlen & _ & Hsorted & _).
  split; [ exact Hlen | exact Hsorted ].
Defined.

(** Where [getUser] answers [null], [getActivityLogs] throws: the error of
    the failed database initialisation if that is why, and otherwise
    "User not authenticated"; it also throws whenever the query fails. *)
Theorem activity_logs_throw_where_getUser_is_null (env : Env)
    (activityLogs : Res Exn (list ActivityLog.t)) :
  (getUser env = Returned None \/ returned (users env) = false
   \/ returned activityLogs = false) ->
  exists error,
    getActivityLogs env activityLogs = Threw error
    /\ (forall e, ensureDatabaseInitialized env = Threw e -> error = e)
    /\ (returned (ensureDatabaseInitialized env) = true ->
        getUser env = Returned None -> error = "User not authenticated").
Proof.
  unfold getActivityLogs. intros H.
  destruct (ensureDatabaseInitialized env) as [ [] | e0 ] eqn:Hinit.
  - destruct (getUser env) as [ [ user | ] | e1 ] eqn:Hu.
    + destruct H as [ H | [ H | H ] ]; [ discriminate H | | ];
        unfold selectActivityLogs.
      * destruct (users env); [ discriminate H | ].
        eexists. split; [ reflexivity | ]. split; intros; discriminate.
      * destruct activityLogs; [ discriminate H | ].
        destruct (users env); eexists;
          (split; [ reflexivity | ]); split; intros; discriminate.
    + eexists. split; [ reflexivity | ]. split; [ intros; discriminate | reflexivity ].
    + eexists. split; [ reflexivity | ]. split; intros; discriminate.
  - exists e0. split; [ reflexivity | ]. split; [ | intros; discriminate ].
    intros e E. now inversion E.
Qed.

Lemma activity_logs_throw_where_getUser_is_null_witness :
  getUser anonymousEnv = Returned None
  /\ getActivityLogs anonymousEnv (Returned [signInLog]) = Threw "User not authenticated".
Proof.
  split; [ reflexivity | ].
  destruct (activity_logs_throw_where_getUser_is_null anonymousEnv (Returned [signInLog])
              (or_introl eq_refl)) as (error & Hrun & _ & Hmsg).
  rewrite Hrun. f_equal. apply Hmsg; reflexivity.
Defined.

End ActivityLogs.

(** ** Server actions ([actions.ts]: [logActivity], [signOut],
       [deleteAccount], [updateAccount]) *)

Module Actions.

Import Queries.

Inductive ActivityType : Type :=
| SIGN_UP | SIGN_IN | SIGN_OUT | UPDATE_PASSWORD | DELETE_ACCOUNT | UPDATE_ACCOUNT.

Module NewActivityLog.
Record t : Type := {
  userId : Z;
  action : ActivityType;
  ipAddress : string;
  metadata : option string
}.
End NewActivityLog.

Module CookieOptions.
Record t : Type := {
  expires : Z;      (* [new Date(ms)] *)
  maxAge : Z
}.
End CookieOptions.

(** The calls made on the cookie store. *)
Inductive CookieOp : Type :=
| Delete (name : string)
| SetCookie (name value : string) (options : CookieOptions.t).

(** What an action works on: the rows of [users], the rows inserted into
    [activity_logs] and the calls made on the cookie store. *)
Record Server : Type := {
  userRows : list User;
  activityLogs : list NewActivityLog.t;
  cookieStore : list CookieOp
}.

(** The outcomes of the outside calls during one action. *)
Record Outcomes : Type := {
  (** [await comparePasswords(password, user.passwordHash)] *)
  comparePasswords : Res Exn bool;
  (** whether a [db.select()] on [users] succeeds *)
  selectUsers : Res Exn unit;
  (** whether a [db.update(users)] succeeds *)
  updateUsers : Res Exn unit;
  (** [await db.insert(activityLogs).values(row)] *)
  insertActivity : NewActivityLog.t -> Res Exn unit;
  (** [await cookies()] *)
  cookies : Res Exn unit;
  (** [new Date().getTime()] *)
  today : Z
}.

(** What an action hands back to its form: the echoed fields with an error
    message, or a success message. *)
Inductive ActionState : Type :=
| Failed (echo : list string) (error : string)
| Succeeded (success : string).

(** What [redirect(path)] throws. *)
Definition NEXT_REDIRECT (path : string) : Exn := "NEXT_REDIRECT;" ++ path.

(** [s || ''] for an optional string argument. *)
Definition orEmpty (s : option string) : string :=
  match s with Some t => t | None => "" end.

(** [s || null]: the empty string is falsy. *)
Definition orNull (s : option string) : option string :=
  match s with
  | Some t => if String.eqb t "" then None else Some t
  | None => None
  end.

(** [logActivity]. *)
Definition logActivity (out : Outcomes) (userId : Z) (type : ActivityType)
    (ipAddress metadata : option string) (s : Server) : Res Exn unit * Server :=
  let newActivity :=
    {| NewActivityLog.userId := userId;
       NewActivityLog.action := type;
       NewActivityLog.ipAddress := orEmpty ipAddress;
       NewActivityLog.metadata := orNull metadata |} in
  match insertActivity out newActivity with
  | Returned _ =>
      (Returned tt,
       {| userRows := userRows s;
          activityLogs := push (activityLogs s) newActivity;
          cookieStore := cookieStore s |})
  | Threw error => (Threw error, s)
  end.

(** [db.update(users).set(...).where(eq(users.id, id))]: [set] is applied to
    every row with that id. *)
Definition updateUser (out : Outcomes) (id : Z) (set : User -> User) (s : Server)
    : Res Exn unit * Server :=
  match updateUsers out with
  | Returned _ =>
      (Returned tt,
       {| userRows := map (fun u => if Queries.id u =? id then set u else u) (userRows s);
          activityLogs := activityLogs s;
          cookieStore := cookieStore s |})
  | Threw error => (Threw error, s)
  end.

(** [await Promise.all([a, b])]: both operations are started and each takes
    effect or fails on its own; the [await] throws if either fails.  When
    both fail, which error surfaces depends on timing; here it is the one
    of [a]. *)
Definition Promise_all (a b : Server -> Res Exn unit * Server) (s : Server)
    : Res Exn unit * Server :=
  let (ra, s1) := a s in
  let (rb, s2) := b s1 in
  match ra, rb with
  | Returned _, Returned _ => (Returned tt, s2)
  | Threw error, _ => (Threw error, s2)
  | _, Threw error => (Threw error, s2)
  end.

(** The row [signOut] logs for [user]. *)
Definition signOutEntry (user : User) : NewActivityLog.t :=
  {| NewActivityLog.userId := id user;
     NewActivityLog.action := SIGN_OUT;
     NewActivityLog.ipAddress := "";
     NewActivityLog.metadata := None |}.

(** [signOut]; [FALLBACK_MODE_ENABLED] is the first argument.  Whatever the
    [try] block throws is logged to the console and dropped. *)
Definition signOut (FALLBACK_MODE_ENABLED : bool) (env : Env) (out : Outcomes)
    (s : Server) : Res Exn unit * Server :=
  let attempt : Res Exn unit * Server :=
    if negb FALLBACK_MODE_ENABLED then
      match getUser env with
      | Threw error => (Threw error, s)
      | Returned None => (Returned tt, s)
      | Returned (Some user) => logActivity out (id user) SIGN_OUT None None s
      end
    else (Returned tt, s) in
  let s1 := snd attempt in
  match cookies out with
  | Threw error => (Threw error, s1)
  | Returned _ =>
      (Returned tt,
       {| userRows := userRows s1;
          activityLogs := activityLogs s1;
          cookieStore :=
            push (push (cookieStore s1) (Delete "session"))
                 (SetCookie "session" ""
                    {| CookieOptions.expires := 0; CookieOptions.maxAge := 0 |}) |})
  end.

(** The handler of [deleteAccount], for the signed-in [user]: the account is
    soft-deleted, and the action ends by throwing the redirect. *)
Definition deleteAccount (out : Outcomes) (password : string) (user : User) (s : Server)
    : Res Exn ActionState * Server :=
  match comparePasswords out with
  | Threw error => (Threw error, s)
  | Returned false => (Returned (Failed [password] "Incorrect password. Please try again."), s)
  | Returned true =>
      let (written, s1) :=
        Promise_all
          (updateUser out (id user)
             (fun u => {| id := id u; name := name u; email := email u;
                          deletedAt := Some (today out) |}))
          (logActivity out (id user) DELETE_ACCOUNT None None) s in
      match written with
      | Threw error => (Threw error, s1)
      | Returned _ =>
          match cookies out with
          | Threw error => (Threw error, s1)
          | Returned _ =>
              (Threw (NEXT_REDIRECT "/sign-in"),
               {| userRows := userRows s1;
                  activityLogs := activityLogs s1;
                  cookieStore := push (cookieStore s1) (Delete "session") |})
          end
      end
  end.

(** [db.select().from(users).where(eq(users.email, email)).limit(1)]. *)
Definition selectByEmail (out : Outcomes) (email : string) (s : Server)
    : Res Exn (list User) :=
  match selectUsers out with
  | Returned _ =>
      Returned (firstn 1 (List.filter (fun u => String.eqb (Queries.email u) email)
                                      (userRows s)))
  | Threw error => Threw error
  end.

(** The handler of [updateAccount], for the signed-in [user]. *)
Definition updateAccount (out : Outcomes) (name email : string) (user : User) (s : Server)
    : Res Exn ActionState * Server :=
  match selectByEmail out email s with
  | Threw error => (Threw error, s)
  | Returned existingUser =>
      let taken :=
        match existingUser with
        | first :: _ => negb (id first =? id user)
        | [] => false
        end in
      if taken then (Returned (Failed [name; email] "Email is already in use."), s)
      else
        let (written, s1) :=
          Promise_all
            (updateUser out (id user)
               (fun u => {| id := id u; Queries.name := Some name; Queries.email := email;
                            deletedAt := deletedAt u |}))
            (logActivity out (id user) UPDATE_ACCOUNT None None) s in
        match written with
        | Threw error => (Threw error, s1)
        | Returned _ => (Returned (Succeeded "Account updated successfully."), s1)
        end
  end.

(** The two calls by which [signOut] clears the session cookie. *)
Definition clearsSession : list CookieOp :=
  [ Delete "session";
    SetCookie "session" "" {| CookieOptions.expires := 0; CookieOptions.maxAge := 0 |} ].

(** Ids and e-mail addresses are unique among the rows of [users], as the
    primary key and the unique constraint of the table demand. *)
Definition wellKeyed (rows : list User) : Prop :=
  List.NoDup (map id rows) /\ List.NoDup (map email rows).

(** A database that refuses every insert. *)
Definition brokenInsert : Outcomes :=
  {| comparePasswords := Returned true;
     selectUsers := Returned tt;
     updateUsers := Returned tt;
     insertActivity := fun _ => Threw "ECONNREFUSED";
     cookies := Returned tt;
     today := 1800000000000 |}.

Definition workingInsert : Outcomes :=
  {| comparePasswords := Returned true;
     selectUsers := Returned tt;
     updateUsers := Returned tt;
     insertActivity := fun _ => Returned tt;
     cookies := Returned tt;
     today := 1800000000000 |}.

Definition emptyServer : Server :=
  {| userRows := []; activityLogs := []; cookieStore := [] |}.

(** Alice and a live second user. *)
Definition carol : User :=
  {| id := 9; name := Some "Carol"; email := "carol@example.org"; deletedAt := None |}.

Definition twoUsers : Server :=
  {| userRows := [alice; carol]; activityLogs := []; cookieStore := [] |}.

(** The request of [goodEnv] against the given rows of [users]. *)
Definition envWith (rows : list User) : Env :=
  {| ensureDatabaseInitialized := Returned tt;
     sessionCookie := sessionCookie goodEnv;
     verifyToken := verifyToken goodEnv;
     parseDate := parseDate goodEnv;
     now := now goodEnv;
     users := Returned rows |}.

Example signOut_logs_and_clears :
  signOut false goodEnv workingInsert emptyServer
  = (Returned tt,
     {| userRows := []; activityLogs := [signOutEntry alice];
        cookieStore := clearsSession |}).
Proof. reflexivity. Qed.

Example signOut_with_rejected_token :
  signOut false tamperedEnv workingInsert emptyServer
  = (Returned tt, {| userRows := []; activityLogs := []; cookieStore := clearsSession |}).
Proof. reflexivity. Qed.

Example deleteAccount_then_getUser :
  getUser (envWith (userRows twoUsers)) = Returned (Some alice)
  /\ fst (deleteAccount workingInsert "secret-password" alice twoUsers)
     = Threw (NEXT_REDIRECT "/sign-in")
  /\ getUser (envWith (userRows (snd (deleteAccount workingInsert "secret-password"
                                                     alice twoUsers))))
     = Returned None.
Proof. repeat split; reflexivity. Qed.

Example updateAccount_taken :
  updateAccount workingInsert "Alice" "carol@example.org" alice twoUsers
  = (Returned (Failed ["Alice"; "carol@example.org"] "Email is already in use."), twoUsers).
Proof. reflexivity. Qed.

(** The update is kept although the insert of the activity row fails and
    the action throws. *)
Example updateAccount_is_not_atomic :
  let (r, s') := updateAccount brokenInsert "Alice B." "alice@example.org" alice twoUsers in
  r = Threw "ECONNREFUSED" /\ map name (userRows s') = [Some "Alice B."; Some "Carol"].
Proof. split; reflexivity. Qed.

(** *** [signOut] *)

(** Provided the cookie store can be reached, [signOut] returns normally and
    clears the session cookie whatever happens before: a failure of
    [getUser] or of the activity insert does not stop it.  The sign-out is
    logged, as one row for the signed-in user, exactly when the fallback
    mode is off, [getUser] yields a user and the insert succeeds; otherwise
    no row is written. *)
Theorem signOut_always_clears_the_session (FALLBACK_MODE_ENABLED : bool) (env : Env)
    (out : Outcomes) (s : Server) :
  returned (cookies out) = true ->
  let logged (user : User) : Prop :=
    FALLBACK_MODE_ENABLED = false
    /\ getUser env = Returned (Some user)
    /\ returned (insertActivity out (signOutEntry user)) = true in
  let s' := snd (signOut FALLBACK_MODE_ENABLED env out s) in
  fst (signOut FALLBACK_MODE_ENABLED env out s) = Returned tt
  /\ cookieStore s' = (cookieStore s ++ clearsSession)%list
  /\ userRows s' = userRows s
  /\ (forall user, logged user -> activityLogs s' = push (activityLogs s) (signOutEntry user))
  /\ ((forall user, ~ logged user) -> activityLogs s' = activityLogs s).
Proof.
  intros Hc logged s'. unfold s', signOut, logged. clear s' logged.
  destruct (cookies out) as [ [] | ]; [ clear Hc | discriminate Hc ].
  assert (Hjar : forall l : list CookieOp,
            push (push l (Delete "session"))
                 (SetCookie "session" ""
                    {| CookieOptions.expires := 0; CookieOptions.maxAge := 0 |})
            = (l ++ clearsSession)%list).
  { intros l. unfold push, clearsSession. now rewrite <- app_assoc. }
  destruct FALLBACK_MODE_ENABLED; simpl.
  - rewrite Hjar. repeat split; auto.
    intros user (Hf & _). discriminate Hf.
  - destruct (getUser env) as [ [ u | ] | e ]; simpl.
    + unfold logActivity. change (orEmpty None) with "". change (orNull None) with (@None string).
      fold (signOutEntry u).
      destruct (insertActivity out (signOutEntry u)) as [ [] | e ] eqn:Hins; simpl;
        rewrite Hjar; repeat split; auto.
      * intros user (_ & Hu & _). now inversion Hu; subst.
      * intros Hno. exfalso. apply (Hno u). rewrite Hins. auto.
      * intros user (_ & Hu & Hi). inversion Hu; subst user.
        rewrite Hins in Hi. discriminate Hi.
    + rewrite Hjar. repeat split; auto. intros user (_ & Hu & _). discriminate Hu.
    + rewrite Hjar. repeat split; auto. intros user (_ & Hu & _). discriminate Hu.
Qed.

Lemma signOut_always_clears_the_session_witness :
  returned (cookies brokenInsert) = true
  /\ signOut false goodEnv brokenInsert emptyServer
     = (Returned tt, {| userRows := []; activityLogs := []; cookieStore := clearsSession |})
  /\ fst (signOut false goodEnv brokenInsert emptyServer) = Returned tt.
Proof.
  split; [ reflexivity | ]. split; [ reflexivity | ].
  exact (proj1 (signOut_always_clears_the_session false goodEnv brokenInsert emptyServer
                  eq_refl)).
Defined.

(** *** [deleteAccount] *)

Lemma logActivity_rows (out : Outcomes) (userId : Z) (type : ActivityType)
    (ipAddress metadata : option string) (s : Server) :
  userRows (snd (logActivity out userId type ipAddress metadata s)) = userRows s
  /\ cookieStore (snd (logActivity out userId type ipAddress metadata s)) = cookieStore s.
Proof. unfold logActivity. destruct (insertActivity out _); split; reflexivity. Qed.

(** What [Promise.all] of an update and [logActivity] leaves in [users]. *)
Lemma update_and_log (out : Outcomes) (id0 : Z) (set : User -> User)
    (type : ActivityType) (s : Server) :
  let run := Promise_all (updateUser out id0 set) (logActivity out id0 type None None) s in
  cookieStore (snd run) = cookieStore s
  /\ (returned (updateUsers out) = true ->
      userRows (snd run) = map (fun u => if id u =? id0 then set u else u) (userRows s))
  /\ (returned (updateUsers out) = false ->
      userRows (snd run) = userRows s /\ returned (fst run) = false)
  /\ (returned (fst run) = true -> returned (updateUsers out) = true).
Proof.
  cbv zeta. unfold Promise_all, updateUser.
  destruct (updateUsers out) as [ [] | e ]; simpl;
    match goal with |- context [logActivity ?o ?i ?t ?a ?m ?s0] =>
      pose proof (logActivity_rows o i t a m s0) as (Hrows & Hjar);
      destruct (logActivity o i t a m s0) as [ [ [] | e' ] s2 ]
    end; simpl in *; rewrite ?Hrows, ?Hjar; repeat split; auto; discriminate.
Qed.

(** With the wrong password [deleteAccount] changes nothing and reports
    "Incorrect password".  With the right one it never returns normally: it
    ends by throwing, on success the redirect to /sign-in.  Once its update
    has gone through, every row of the user is marked deleted, no other row
    is touched, and [getUser] no longer yields that user, whatever session
    is presented -- even if the action itself failed later on. *)
Theorem deleted_account_cannot_sign_in (out : Outcomes) (password : string) (user : User)
    (s : Server) :
  let r := fst (deleteAccount out password user s) in
  let s' := snd (deleteAccount out password user s) in
  (comparePasswords out = Returned false ->
   s' = s /\ r = Returned (Failed [password] "Incorrect password. Please try again."))
  /\ (comparePasswords out = Returned true ->
      returned r = false
      /\ (returned (updateUsers out) = true ->
          map id (userRows s') = map id (userRows s)
          /\ (forall u, In u (userRows s') -> id u <> id user -> In u (userRows s))
          /\ (forall u, In u (userRows s') -> id u = id user -> deletedAt u <> None)
          /\ forall (env : Env) (u : User),
               users env = Returned (userRows s') ->
               getUser env = Returned (Some u) -> id u <> id user)).
Proof.
  cbv zeta. unfold deleteAccount. split.
  - intros ->. split; reflexivity.
  - intros ->.
    pose proof (update_and_log out (id user)
                  (fun u => {| id := id u; name := name u; email := email u;
                               deletedAt := Some (today out) |})
                  DELETE_ACCOUNT s) as (Hjar & Hok & _ & _).
    cbv zeta in Hok.
    destruct (Promise_all _ _ s) as [ written s1 ]. simpl in Hok.
    assert (Hrows : userRows
                      (snd (match written with
                            | Returned _ =>
                                match cookies out with
                                | Returned _ =>
                                    (Threw (NEXT_REDIRECT "/sign-in"),
                                     {| userRows := userRows s1;
                                        activityLogs := activityLogs s1;
                                        cookieStore := push (cookieStore s1)
                                                            (Delete "session") |})
                                | Threw error => (@Threw Exn ActionState error, s1)
                                end
                            | Threw error => (Threw error, s1)
                            end)) = userRows s1).
    { destruct written; [ destruct (cookies out) | ]; reflexivity. }
    split.
    + destruct written; [ destruct (cookies out) | ]; reflexivity.
    + intros Hup. rewrite Hrows, (Hok Hup). clear Hrows Hok.
      assert (Hmarked : forall u,
                In u (map (fun u0 => if id u0 =? id user
                                     then {| id := id u0; name := name u0;
                                             email := email u0;
                                             deletedAt := Some (today out) |}
                                     else u0) (userRows s)) ->
                (id u <> id user -> In u (userRows s))
                /\ (id u = id user -> deletedAt u <> None)).
      { intros u Hu. apply in_map_iff in Hu. destruct Hu as (v & Hv & Hin).
        destruct (Z.eqb_spec (id v) (id user)) as [ E | Hne ]; subst u; simpl.
        - split; [ intros H; contradiction | discriminate ].
        - split; [ intros _; exact Hin | intros H; contradiction ]. }
      split; [ | split; [ | split ] ].
      * rewrite map_map. apply map_ext. intros v. now destruct (id v =? id user).
      * intros u Hu. now apply Hmarked.
      * intros u Hu. now apply Hmarked.
      * intros env u Henv Hget E.
        apply getUser_some_iff in Hget.
        destruct Hget as (_ & c & sd & n & rows & _ & _ & _ & _ & _ & Hrows & Hh).
        rewrite Henv in Hrows. inversion Hrows; subst rows. clear Hrows.
        apply head_filter_sound in Hh. destruct Hh as [Hin Hw].
        destruct (Hmarked u Hin) as [ _ Hdel ].
        unfold whereClause in Hw. apply andb_true_iff in Hw. destruct Hw as [ _ Hw ].
        specialize (Hdel E). destruct (deletedAt u); [ discriminate Hw | contradiction ].
Qed.

Lemma deleted_account_cannot_sign_in_witness :
  getUser (envWith (userRows twoUsers)) = Returned (Some alice)
  /\ forall u,
       getUser (envWith (userRows (snd (deleteAccount workingInsert "secret-password"
                                                       alice twoUsers))))
       = Returned (Some u) -> id u <> id alice.
Proof.
  split; [ reflexivity | ].
  destruct (deleted_account_cannot_sign_in workingInsert "secret-password" alice twoUsers)
    as (_ & Hright).
  destruct (Hright eq_refl) as (_ & Hdone).
  destruct (Hdone eq_refl) as (_ & _ & _ & Hget).
  intros u. apply Hget. reflexivity.
Defined.

(** *** [updateAccount] *)

Lemma map_update_ids (id0 : Z) (set : User -> User) (rows : list User) :
  (forall u, id (set u) = id u) ->
  map id (map (fun u => if id u =? id0 then set u else u) rows) = map id rows.
Proof.
  intros Hset. rewrite map_map. apply map_ext. intros u.
  destruct (id u =? id0); [ apply Hset | reflexivity ].
Qed.

(** Setting the e-mail address of the row with id [id0] to an address that
    no other row has keeps the addresses distinct. *)
Lemma update_email_NoDup (id0 : Z) (name0 : option string) (email0 : string)
    (rows : list User) :
  List.NoDup (map id rows) -> List.NoDup (map email rows) ->
  (forall u, In u rows -> email u = email0 -> id u = id0) ->
  List.NoDup (map email
           (map (fun u => if id u =? id0
                          then {| id := id u; name := name0; email := email0;
                                  deletedAt := deletedAt u |}
                          else u) rows)).
Proof.
  induction rows as [ | v rows IH ]; intros Hid Hmail Hfree; simpl; [ constructor | ].
  inversion Hid as [ | ? ? Hv Hids ]; subst. inversion Hmail as [ | ? ? Hm Hmails ]; subst.
  constructor.
  - intros Hin. apply in_map_iff in Hin. destruct Hin as (w' & Hw' & Hin).
    apply in_map_iff in Hin. destruct Hin as (w & Hw & Hin). subst w'.
    assert (Hwv : id w <> id v).
    { intros E. apply Hv. rewrite <- E. now apply in_map. }
    destruct (Z.eqb_spec (id v) id0) as [ Ev | Nv ];
      destruct (Z.eqb_spec (id w) id0) as [ Ew | Nw ]; simpl in Hw'.
    + congruence.
    + apply Nw. apply Hfree; [ now right | exact Hw' ].
    + apply Nv. apply Hfree; [ now left | now symmetry ].
    + apply Hm. rewrite <- Hw'. now apply in_map.
  - apply IH; [ exact Hids | exact Hmails | ].
    intros u Hu. apply Hfree. now right.
Qed.

Lemma first_filtered {A : Type} (f : A -> bool) (l : list A) (x : A) (rest : list A) :
  firstn 1 (List.filter f l) = x :: rest -> In x l /\ f x = true.
Proof.
  intros H. apply (head_filter_sound f l x).
  destruct (List.filter f l) as [ | y ys ]; [ discriminate H | ].
  simpl in H. inversion H. reflexivity.
Qed.

Lemma first_filtered_none {A : Type} (f : A -> bool) (l : list A) :
  firstn 1 (List.filter f l) = [] -> forall x, In x l -> f x = false.
Proof.
  intros H x Hx. destruct (f x) eqn:E; [ | reflexivity ].
  assert (Hin : In x (List.filter f l)) by (apply filter_In; auto).
  destruct (List.filter f l); [ contradiction | discriminate H ].
Qed.

(** [updateAccount] keeps the [users] table well keyed: if ids and e-mail
    addresses are unique before, they are unique afterwards, whatever the
    outcome of the action.  An address that belongs to another user is
    refused with "Email is already in use." and nothing is written; and a
    success message means that the user's row now carries the new name and
    address. *)
Theorem updateAccount_keeps_emails_unique (out : Outcomes) (name email : string)
    (user : User) (s : Server) :
  wellKeyed (userRows s) ->
  let r := fst (updateAccount out name email user s) in
  let s' := snd (updateAccount out name email user s) in
  wellKeyed (userRows s')
  /\ map id (userRows s') = map id (userRows s)
  /\ ((exists other, In other (userRows s) /\ Queries.email other = email
                     /\ id other <> id user) ->
      returned (selectUsers out) = true ->
      r = Returned (Failed [name; email] "Email is already in use.") /\ s' = s)
  /\ (forall message, r = Returned (Succeeded message) ->
      forall u, In u (userRows s') -> id u = id user ->
                Queries.name u = Some name /\ Queries.email u = email).
Proof.
  intros (Hids & Hmails). cbv zeta. unfold updateAccount, selectByEmail.
  destruct (selectUsers out) as [ [] | e ]; simpl.
  2:{ repeat split; auto; discriminate. }
  set (f := fun u : User => String.eqb (Queries.email u) email).
  assert (Hother : forall first rest,
            firstn 1 (List.filter f (userRows s)) = first :: rest ->
            forall u, In u (userRows s) -> Queries.email u = email -> u = first).
  { intros first rest H u Hu Eu. apply first_filtered in H. destruct H as [Hf Ef].
    unfold f in Ef. apply String.eqb_eq in Ef.
    clear - Hmails Hu Hf Eu Ef. revert Hmails Hu Hf.
    induction (userRows s) as [ | v rows IH ]; simpl; [ contradiction | ].
    intros Hnd [ -> | Hu ] [ <- | Hf ]; try reflexivity.
    - apply List.NoDup_cons_iff in Hnd. destruct Hnd as [ Hnotin _ ].
      exfalso. apply Hnotin. rewrite Eu, <- Ef. now apply in_map.
    - apply List.NoDup_cons_iff in Hnd. destruct Hnd as [ Hnotin _ ].
      exfalso. apply Hnotin. rewrite Ef, <- Eu. now apply in_map.
    - apply List.NoDup_cons_iff in Hnd. destruct Hnd as [ _ Hrest ]. now apply IH. }
  pose proof (update_and_log out (id user)
                (fun u => {| id := id u; Queries.name := Some name; Queries.email := email;
                             deletedAt := deletedAt u |})
                UPDATE_ACCOUNT s) as (_ & Hok & Hfail & Hret).
  cbv zeta in Hok, Hfail, Hret.
  destruct (firstn 1 (List.filter f (userRows s))) as [ | first rest ] eqn:Hsel.
  - (* the address is free *)
    pose proof (first_filtered_none f (userRows s) Hsel) as Hfree. simpl.
    destruct (Promise_all _ _ s) as [ written s1 ]. simpl in Hok, Hfail, Hret.
    assert (Hs' : snd (match written with
                       | Returned _ =>
                           (Returned (Succeeded "Account updated successfully."), s1)
                       | Threw error => (@Threw Exn ActionState error, s1)
                       end) = s1) by (now destruct written).
    rewrite Hs'. clear Hs'.
    assert (Hkeys : wellKeyed (userRows s1) /\ map id (userRows s1) = map id (userRows s)).
    { destruct (updateUsers out) as [ [] | e ].
      - rewrite (Hok eq_refl). split; [ split | ].
        + now rewrite map_update_ids.
        + apply update_email_NoDup; auto.
          intros u Hu Eu. apply Hfree in Hu. unfold f in Hu.
          apply String.eqb_neq in Hu. contradiction.
        + now apply map_update_ids.
      - destruct (Hfail eq_refl) as [ -> _ ]. repeat split; auto. }
    destruct Hkeys as [ Hkeys Hsame ].
    split; [ exact Hkeys | ]. split; [ exact Hsame | ]. split.
    + intros (other & Hin & Eo & _) _. apply Hfree in Hin. unfold f in Hin.
      apply String.eqb_neq in Hin. contradiction.
    + intros message Hr u Hu Eu.
      assert (Hup : returned (updateUsers out) = true).
      { apply Hret. destruct written; [ reflexivity | discriminate Hr ]. }
      rewrite (Hok Hup) in Hu. apply in_map_iff in Hu. destruct Hu as (v & Hv & _).
      destruct (Z.eqb_spec (id v) (id user)) as [ _ | Hne ]; subst u; simpl in *;
        [ split; reflexivity | contradiction ].
  - simpl. destruct (Z.eqb_spec (id first) (id user)) as [ Eown | Hne ]; simpl.
    + (* the address is the user's own *)
      destruct (Promise_all _ _ s) as [ written s1 ]. simpl in Hok, Hfail, Hret.
      assert (Hs' : snd (match written with
                         | Returned _ =>
                             (Returned (Succeeded "Account updated successfully."), s1)
                         | Threw error => (@Threw Exn ActionState error, s1)
                         end) = s1) by (now destruct written).
      rewrite Hs'. clear Hs'.
      assert (Hkeys : wellKeyed (userRows s1)
                      /\ map id (userRows s1) = map id (userRows s)).
      { destruct (updateUsers out) as [ [] | e ].
        - rewrite (Hok eq_refl). split; [ split | ].
          + now rewrite map_update_ids.
          + apply update_email_NoDup; auto.
            intros u Hu Eu. now rewrite (Hother first rest eq_refl u Hu Eu).
          + now apply map_update_ids.
        - destruct (Hfail eq_refl) as [ -> _ ]. repeat split; auto. }
      destruct Hkeys as [ Hkeys Hsame ].
      split; [ exact Hkeys | ]. split; [ exact Hsame | ]. split.
      * intros (other & Hin & Eo & Hdiff) _. exfalso. apply Hdiff.
        now rewrite (Hother first rest eq_refl other Hin Eo).
      * intros message Hr u Hu Eu.
        assert (Hup : returned (updateUsers out) = true).
        { apply Hret. destruct written; [ reflexivity | discriminate Hr ]. }
        rewrite (Hok Hup) in Hu. apply in_map_iff in Hu. destruct Hu as (v & Hv & _).
        destruct (Z.eqb_spec (id v) (id user)) as [ _ | Hne ]; subst u; simpl in *;
          [ split; reflexivity | contradiction ].
    + (* the address belongs to somebody else *)
      split; [ split; assumption | ]. split; [ reflexivity | ].
      split; [ intros _ _; split; reflexivity | ].
      intros message Hr. discriminate Hr.
Qed.

Lemma updateAccount_keeps_emails_unique_witness :
  wellKeyed (userRows twoUsers)
  /\ wellKeyed (userRows (snd (updateAccount brokenInsert "Alice B." "alice@example.org"
                                             alice twoUsers)))
  /\ wellKeyed (userRows (snd (updateAccount workingInsert "Alice" "carol@example.org"
                                             alice twoUsers))).
Proof.
  assert (Hkeys : wellKeyed (userRows twoUsers)).
  { split; simpl; repeat constructor; simpl; intuition discriminate. }
  split; [ exact Hkeys | ]. split.
  - exact (proj1 (updateAccount_keeps_emails_unique brokenInsert "Alice B."
                    "alice@example.org" alice twoUsers Hkeys)).
  - exact (proj1 (updateAccount_keeps_emails_unique workingInsert "Alice"
                    "carol@example.org" alice twoUsers Hkeys)).
Defined.

End Actions.

(** ** The initialisation guard over whole histories ([init.ts]) *)

Module DbInitFacts.

Import DbInit.

(** The event is the failure of some attempt. *)
Definition isFailure (ev : Event) : bool :=
  match ev with
  | InitializeDatabaseFails _ | SeedDatabaseFails _ => true
  | _ => false
  end.

(** The number of failure events. *)
Definition numFailures (evs : list Event) : nat :=
  length (List.filter isFailure evs).

(** Where the guard stands: no attempt under way, the latest attempt
    suspended at its first or second [await], or initialisation done. *)
Inductive Phase : Type := Idle | Initializing | Seeding | Done.

(** The latest attempt in each phase; all earlier ones were rejected. *)
Definition latest (ph : Phase) : list Attempt :=
  match ph with
  | Idle => []
  | Initializing => [AwaitingInitialize]
  | Seeding => [AwaitingSeed]
  | Done => [Fulfilled]
  end.

(** The state after [k] rejected attempts, in phase [ph]. *)
Definition shape (k : nat) (ph : Phase) (s : InitState) : Prop :=
  promises s = (replicate k Rejected ++ latest ph)%list
  /\ isInitialized s = match ph with Done => true | _ => false end
  /\ initializationPromise s = match ph with Idle => None | _ => Some k end.

(** Every call in the log refers to a promise that exists. *)
Definition callersKnown (s : InitState) : Prop :=
  Forall (fun c => match c with
                   | ReturnedImmediately => True
                   | AwaitsExisting p | AwaitsOwn p => (p < length (promises s))%nat
                   end) (callers s).

(** The call has ended, normally or by the rethrown failure. *)
Definition answered (s : InitState) (c : Caller) : Prop :=
  exists ok : bool, outcome s c = Some ok.

Lemma shape_initial : shape 0 Idle initial.
Proof. repeat split. Qed.

Lemma lookup_latest (k p : nat) (ph : Phase) (a : Attempt) :
  (replicate k Rejected ++ latest ph)%list !! p = Some a -> a <> Rejected ->
  p = k /\ latest ph = [a].
Proof.
  intros Hp Ha.
  destruct (decide (p < k)%nat) as [ Hlt | Hge ].
  - rewrite lookup_app_l in Hp by (now rewrite length_replicate).
    apply lookup_replicate in Hp. destruct Hp as [ -> _ ]. contradiction.
  - rewrite lookup_app_r in Hp by (rewrite length_replicate; lia).
    rewrite length_replicate in Hp.
    destruct (p - k)%nat as [ | n ] eqn:Hn.
    + split; [ lia | ]. destruct ph; simpl in *; congruence.
    + destruct ph; simpl in Hp; discriminate Hp.
Qed.

Lemma insert_latest (k : nat) (a x : Attempt) :
  <[k := x]> (replicate k Rejected ++ [a])%list = (replicate k Rejected ++ [x])%list.
Proof.
  rewrite insert_app_r_alt by (now rewrite length_replicate).
  now rewrite length_replicate, Nat.sub_diag.
Qed.

(** One event keeps the shape; the count of rejected attempts grows by one
    exactly at a failure that takes effect. *)
Lemma shape_step (s : InitState) (ev : Event) (k : nat) (ph : Phase) :
  shape k ph s ->
  exists k' ph',
    shape k' ph' (step s ev)
    /\ (k' = k \/ (k' = S k /\ isFailure ev = true))
    /\ (length (promises (step s ev)) = length (promises s)
        \/ (ev = Call /\ length (promises (step s ev)) = S (length (promises s)))).
Proof.
  intros (Hp & Hi & Hg).
  assert (Hsame : shape k ph s) by (repeat split; assumption).
  destruct ev as [ | p | p | p | p ]; simpl.
  - unfold ensureDatabaseInitialized. rewrite Hi, Hg.
    destruct ph; simpl.
    + exists k, Initializing. cbn [latest] in Hp. rewrite app_nil_r in Hp.
      rewrite Hp, length_replicate.
      repeat split; auto. right. split; [ reflexivity | ].
      rewrite length_app, length_replicate. simpl. lia.
    + exists k, Initializing. repeat split; auto.
    + exists k, Seeding. repeat split; auto.
    + exists k, Done. repeat split; auto.
  - destruct (promises s !! p) as [ [ | | | ] | ] eqn:Hl; try (exists k, ph; now auto).
    rewrite Hp in Hl. apply lookup_latest in Hl; [ | discriminate ].
    destruct Hl as [ -> Hl ]. destruct ph; try discriminate Hl.
    exists k, Seeding. simpl. rewrite length_insert, Hp. simpl. rewrite insert_latest.
    repeat split; auto.
  - destruct (promises s !! p) as [ [ | | | ] | ] eqn:Hl; try (exists k, ph; now auto).
    rewrite Hp in Hl. apply lookup_latest in Hl; [ | discriminate ].
    destruct Hl as [ -> Hl ]. destruct ph; try discriminate Hl.
    exists (S k), Idle. unfold attemptFails, shape.
    cbn [promises isInitialized initializationPromise latest].
    rewrite length_insert, Hp. cbn [latest].
    rewrite insert_latest, app_nil_r, replicate_S_end. repeat split; auto.
  - destruct (promises s !! p) as [ [ | | | ] | ] eqn:Hl; try (exists k, ph; now auto).
    rewrite Hp in Hl. apply lookup_latest in Hl; [ | discriminate ].
    destruct Hl as [ -> Hl ]. destruct ph; try discriminate Hl.
    exists k, Done. simpl. rewrite length_insert, Hp. simpl. rewrite insert_latest.
    repeat split; auto.
  - destruct (promises s !! p) as [ [ | | | ] | ] eqn:Hl; try (exists k, ph; now auto).
    rewrite Hp in Hl. apply lookup_latest in Hl; [ | discriminate ].
    destruct Hl as [ -> Hl ]. destruct ph; try discriminate Hl.
    exists (S k), Idle. unfold attemptFails, shape.
    cbn [promises isInitialized initializationPromise latest].
    rewrite length_insert, Hp. cbn [latest].
    rewrite insert_latest, app_nil_r, replicate_S_end. repeat split; auto.
Qed.

Lemma shape_run (evs : list Event) (s : InitState) (k : nat) (ph : Phase) :
  shape k ph s ->
  exists k' ph',
    shape k' ph' (run s evs)
    /\ (k <= k' <= k + numFailures evs)%nat
    /\ (length (promises s) <= length (promises (run s evs))
        <= length (promises s) + numCalls evs)%nat.
Proof.
  revert s k ph. induction evs as [ | ev evs IH ]; intros s k ph Hs.
  - exists k, ph. unfold numFailures, numCalls. simpl. split; [ exact Hs | split; lia ].
  - destruct (shape_step s ev k ph Hs) as (k1 & ph1 & Hs1 & Hk & Hlen).
    destruct (IH (step s ev) k1 ph1 Hs1) as (k2 & ph2 & Hs2 & Hk2 & Hlen2).
    exists k2, ph2. change (run s (ev :: evs)) with (run (step s ev) evs).
    split; [ exact Hs2 | ].
    assert (Hf : numFailures (ev :: evs)
                 = ((if isFailure ev then 1 else 0) + numFailures evs)%nat).
    { unfold numFailures. simpl. now destruct (isFailure ev). }
    assert (Hc : numCalls (ev :: evs)
                 = ((match ev with Call => 1 | _ => 0 end) + numCalls evs)%nat).
    { unfold numCalls. simpl. now destruct ev. }
    rewrite Hf, Hc. clear Hf Hc.
    split.
    + destruct Hk as [ -> | [ -> Hf ] ]; [ | rewrite Hf; lia ].
      destruct (isFailure ev); lia.
    + destruct Hlen as [ E | [ Hev E ] ]; [ destruct ev; lia | ].
      rewrite Hev in *. lia.
Qed.

Lemma shape_reachable (evs : list Event) :
  exists k ph,
    shape k ph (run initial evs)
    /\ (k <= numFailures evs)%nat
    /\ (length (promises (run initial evs)) <= numCalls evs)%nat.
Proof.
  destruct (shape_run evs initial 0 Idle shape_initial) as (k & ph & Hs & Hk & Hlen).
  exists k, ph. simpl in Hlen. split; [ exact Hs | ]. split; lia.
Qed.

(** A settled promise is never touched again. *)
Lemma settled_step (s : InitState) (ev : Event) (p : nat) (a : Attempt) :
  promises s !! p = Some a -> pending a = false -> promises (step s ev) !! p = Some a.
Proof.
  intros Hp Ha.
  assert (Hins : forall q b x, promises s !! q = Some b -> pending b = true ->
                               <[q := x]> (promises s) !! p = Some a).
  { intros q b x Hq Hb. rewrite list_lookup_insert_ne; [ exact Hp | ].
    intros ->. rewrite Hp in Hq. inversion Hq; subst b. congruence. }
  destruct ev as [ | q | q | q | q ]; simpl.
  - unfold ensureDatabaseInitialized.
    destruct (isInitialized s); [ exact Hp | ].
    destruct (initializationPromise s); [ exact Hp | ]. simpl.
    rewrite lookup_app_l; [ exact Hp | ]. eapply lookup_lt_Some; eauto.
  - destruct (promises s !! q) as [ [ | | | ] | ] eqn:Hq; try exact Hp. simpl. eauto.
  - destruct (promises s !! q) as [ [ | | | ] | ] eqn:Hq; try exact Hp. simpl. eauto.
  - destruct (promises s !! q) as [ [ | | | ] | ] eqn:Hq; try exact Hp. simpl. eauto.
  - destruct (promises s !! q) as [ [ | | | ] | ] eqn:Hq; try exact Hp. simpl. eauto.
Qed.

Lemma settled_run (later : list Event) (s : InitState) (p : nat) (a : Attempt) :
  promises s !! p = Some a -> pending a = false -> promises (run s later) !! p = Some a.
Proof.
  revert s. induction later as [ | ev later IH ]; intros s Hp Ha; [ exact Hp | ].
  change (run s (ev :: later)) with (run (step s ev) later).
  apply IH; [ now apply settled_step | exact Ha ].
Qed.

Lemma length_step (s : InitState) (ev : Event) :
  (length (promises s) <= length (promises (step s ev)))%nat.
Proof.
  destruct ev as [ | q | q | q | q ]; simpl.
  - unfold ensureDatabaseInitialized.
    destruct (isInitialized s); simpl; [ lia | ].
    destruct (initializationPromise s); simpl; [ lia | ]. rewrite length_app. lia.
  - destruct (promises s !! q) as [ [ | | | ] | ]; simpl; rewrite ?length_insert; lia.
  - destruct (promises s !! q) as [ [ | | | ] | ]; simpl; rewrite ?length_insert; lia.
  - destruct (promises s !! q) as [ [ | | | ] | ]; simpl; rewrite ?length_insert; lia.
  - destruct (promises s !! q) as [ [ | | | ] | ]; simpl; rewrite ?length_insert; lia.
Qed.

Lemma callers_step (s : InitState) (ev : Event) :
  callers (step s ev) = callers s
  \/ (ev = Call
      /\ exists c, callers (step s ev) = (callers s ++ [c])%list
                   /\ match c with
                      | ReturnedImmediately => True
                      | AwaitsExisting p => initializationPromise s = Some p
                                            /\ isInitialized s = false
                      | AwaitsOwn p => p = length (promises s)
                                       /\ length (promises (step s ev)) = S p
                      end).
Proof.
  destruct ev as [ | q | q | q | q ]; simpl;
    try (left; destruct (promises s !! q) as [ [ | | | ] | ]; reflexivity).
  right. split; [ reflexivity | ]. unfold ensureDatabaseInitialized.
  destruct (isInitialized s) eqn:Hi; [ eexists; split; [ reflexivity | exact I ] | ].
  destruct (initializationPromise s) as [ p | ] eqn:Hg; simpl.
  - eexists; split; [ reflexivity | ]. simpl. auto.
  - eexists; split; [ reflexivity | ]. simpl. split; [ reflexivity | ].
    rewrite length_app. simpl. lia.
Qed.

Lemma callersKnown_step (s : InitState) (ev : Event) (k : nat) (ph : Phase) :
  shape k ph s -> callersKnown s -> callersKnown (step s ev).
Proof.
  intros (Hp & Hi & Hg) Hc. unfold callersKnown in *.
  pose proof (length_step s ev) as Hlen.
  assert (Hold : Forall (fun c => match c with
                                  | ReturnedImmediately => True
                                  | AwaitsExisting p | AwaitsOwn p =>
                                      (p < length (promises (step s ev)))%nat
                                  end) (callers s)).
  { eapply List.Forall_impl; [ | exact Hc ]. intros [ | p | p ]; simpl; auto; lia. }
  destruct (callers_step s ev) as [ -> | ( _ & c & -> & Hnew ) ]; [ exact Hold | ].
  apply Forall_app. split; [ exact Hold | ].
  constructor; [ | constructor ].
  destruct c as [ | p | p ]; [ exact I | | ].
  - destruct Hnew as [ Hgp _ ]. rewrite Hg in Hgp.
    assert (p < length (promises s))%nat; [ | lia ].
    rewrite Hp, length_app, length_replicate.
    destruct ph; simpl in *; try discriminate Hgp; inversion Hgp; lia.
  - destruct Hnew as [ _ E ]. lia.
Qed.

Lemma callersKnown_run (evs : list Event) (s : InitState) (k : nat) (ph : Phase) :
  shape k ph s -> callersKnown s -> callersKnown (run s evs).
Proof.
  revert s k ph. induction evs as [ | ev evs IH ]; intros s k ph Hs Hc; [ exact Hc | ].
  change (run s (ev :: evs)) with (run (step s ev) evs).
  destruct (shape_step s ev k ph Hs) as (k1 & ph1 & Hs1 & _).
  apply (IH _ k1 ph1 Hs1). now apply (callersKnown_step s ev k ph).
Qed.

(** In every reachable state the attempts form one sequence: every attempt
    but the latest was rejected, so that at most one attempt ever succeeds;
    [isInitialized] is set exactly when the latest attempt was fulfilled;
    the guard, when set, holds the latest attempt, which was not rejected,
    and when the guard is [null] every attempt made so far was rejected. *)
Theorem attempts_form_one_sequence (evs : list Event) :
  let s := run initial evs in
  (forall p a, promises s !! p = Some a -> (S p < length (promises s))%nat -> a = Rejected)
  /\ (isInitialized s = true <-> last (promises s) = Some Fulfilled)
  /\ (forall p, initializationPromise s = Some p ->
      S p = length (promises s) /\ promises s !! p <> Some Rejected)
  /\ (initializationPromise s = None -> Forall (fun a => a = Rejected) (promises s)).
Proof.
  intros s. destruct (shape_reachable evs) as (k & ph & (Hp & Hi & Hg) & _).
  fold s in Hp, Hi, Hg. rewrite Hp, Hi, Hg.
  split; [ | split; [ | split ] ].
  - intros p a Hl Hlt.
    rewrite length_app, length_replicate in Hlt.
    assert (p < k)%nat by (destruct ph; simpl in Hlt; lia).
    rewrite lookup_app_l in Hl by (now rewrite length_replicate).
    apply lookup_replicate in Hl. tauto.
  - destruct ph; simpl; rewrite ?app_nil_r, ?last_snoc; split; try congruence.
    intros H. destruct k as [ | k ]; [ discriminate H | ].
    rewrite replicate_S_end, last_snoc in H. discriminate H.
  - intros p E. rewrite length_app, length_replicate.
    destruct ph; inversion E; subst p; simpl; (split; [ lia | ]);
      rewrite lookup_app_r by (now rewrite length_replicate);
      rewrite length_replicate, Nat.sub_diag; discriminate.
  - intros E. destruct ph; try discriminate E. simpl. rewrite app_nil_r.
    apply List.Forall_forall. intros a Ha.
    revert Ha. clear. induction k as [ | k IH ]; simpl; [ tauto | ].
    intros [ <- | H ]; [ reflexivity | now apply IH ].
Qed.

(** A new attempt is made only by a call, and only after every earlier
    attempt has failed: the number of attempts is at most the number of
    calls, and at most one more than the number of failure events. *)
Theorem attempts_bounded_by_failures (evs : list Event) :
  (length (promises (run initial evs)) <= numCalls evs)%nat
  /\ (length (promises (run initial evs)) <= S (numFailures evs))%nat.
Proof.
  destruct (shape_reachable evs) as (k & ph & (Hp & _) & Hk & Hlen).
  split; [ exact Hlen | ].
  rewrite Hp, length_app, length_replicate. destruct ph; simpl; lia.
Qed.

(** Once a call has ended, normally or with the rethrown failure, no later
    event changes how it ended. *)
Theorem outcomes_are_final (s : InitState) (c : Caller) (ok : bool) (later : list Event) :
  outcome s c = Some ok -> outcome (run s later) c = Some ok.
Proof.
  destruct c as [ | p | p ]; simpl; [ auto | | ];
    destruct (promises s !! p) as [ a | ] eqn:Hp; try discriminate;
    intros H;
    (assert (Ha : pending a = false) by (destruct a; try discriminate H; reflexivity));
    now rewrite (settled_run later s p a Hp Ha).
Qed.

Lemma outcomes_are_final_witness :
  let s := run initial [Call; Call; InitializeDatabaseFails 0%nat] in
  outcome s (AwaitsExisting 0) = Some false
  /\ outcome (run s [Call; InitializeDatabaseOk 1%nat; SeedDatabaseOk 1%nat; Call])
             (AwaitsExisting 0) = Some false.
Proof.
  cbv zeta. split; [ reflexivity | ].
  apply (outcomes_are_final (run initial [Call; Call; InitializeDatabaseFails 0%nat])).
  reflexivity.
Defined.

(** No call is left waiting once no attempt is in progress: in a reachable
    state without a pending attempt, every call made so far has ended. *)
Theorem quiet_state_answers_every_call (evs : list Event) :
  let s := run initial evs in
  (forall p, ~ inProgress s p) -> Forall (answered s) (callers s).
Proof.
  intros s Hquiet.
  assert (Hc : callersKnown s).
  { apply (callersKnown_run evs initial 0 Idle shape_initial). constructor. }
  eapply List.Forall_impl; [ | exact Hc ].
  intros c Hk. unfold answered.
  destruct c as [ | p | p ]; simpl; [ eauto | | ];
    (destruct (promises s !! p) as [ a | ] eqn:Hp;
     [ | apply lookup_ge_None in Hp; lia ]);
    (destruct a; eauto; exfalso; apply (Hquiet p); eexists; split; eauto).
Qed.

Lemma quiet_state_answers_every_call_witness :
  let s := run initial [Call; Call; InitializeDatabaseOk 0%nat; SeedDatabaseFails 0%nat] in
  (forall p, ~ inProgress s p) /\ Forall (answered s) (callers s).
Proof.
  cbv zeta.
  assert (Hquiet : forall p, ~ inProgress
            (run initial [Call; Call; InitializeDatabaseOk 0%nat; SeedDatabaseFails 0%nat]) p).
  { intros [ | p ] (a & Hp & Ha); simpl in Hp; [ | discriminate Hp ].
    inversion Hp; subst a. discriminate Ha. }
  split; [ exact Hquiet | ].
  exact (quiet_state_answers_every_call
           [Call; Call; InitializeDatabaseOk 0%nat; SeedDatabaseFails 0%nat] Hquiet).
Defined.

End DbInitFacts.
